(** * Sales insights: the cleaning and aggregation pipeline of [main.py]

    A shallow embedding of [Sales_insights/main.py].  A pandas [DataFrame] is
    a header of column names over a list of rows; a Python exception is the
    [Raise] branch of a result type.  A number is the rational ([Qc]) that
    an int64 or a float64 value stands for; what a product, a sum or a mean
    of such values is belongs to numpy, and is a parameter of the model
    ([Arithmetic]): int64 arithmetic wraps around, float64 arithmetic
    rounds.  The infinities and the not-a-number payloads of IEEE doubles
    are outside the model, except for the "no data" value that
    [Series.mean] yields on an empty column, which is kept as [nan].
    Strings are sequences of Latin-1 code points, the decoding [load_data]
    asks of [read_csv]. *)

From Stdlib Require Import List String Ascii Bool Arith ZArith QArith Qcanon.
From Stdlib Require Import DecimalString Lia Sorted Permutation OrderedTypeEx.
Import ListNotations.

Close Scope Q_scope.
Close Scope Qc_scope.
Local Open Scope string_scope.
Local Open Scope list_scope.

(** ** Python exceptions and the result of a call *)

Inductive exn : Type :=
| KeyError
| TypeError
| ValueError
| AttributeError.

Inductive result (A : Type) : Type :=
| Ok (a : A)
| Raise (e : exn).

Arguments Ok {A} a.
Arguments Raise {A} e.

Definition bind {A B : Type} (m : result A) (k : A -> result B) : result B :=
  match m with
  | Ok a => k a
  | Raise e => Raise e
  end.

Notation "x <- m ;; k" := (bind m (fun x => k))
  (at level 61, m at next level, right associativity).

(** ** CONFIG *)

Definition DATE_COLUMN : string := "ORDERDATE".
Definition PRODUCT_COLUMN : string := "PRODUCTLINE".
Definition QTY_COLUMN : string := "QUANTITYORDERED".
Definition PRICE_COLUMN : string := "PRICEEACH".
Definition SALES_COLUMN : string := "SALES".

(** ** Python string methods used by the program *)

Module PyStr.

Definition code (c : ascii) : nat := nat_of_ascii c.

(** [str.isspace] on a Latin-1 code point: TAB..CR, FS..US, space, NEL
    and the no-break space. *)
Definition is_space (c : ascii) : bool :=
  let n := code c in
  (((9 <=? n) && (n <=? 13)) || ((28 <=? n) && (n <=? 32))
   || (n =? 133) || (n =? 160))%nat.

Fixpoint lstrip (s : string) : string :=
  match s with
  | EmptyString => EmptyString
  | String c s' => if is_space c then lstrip s' else s
  end.

Fixpoint rstrip (s : string) : string :=
  match s with
  | EmptyString => EmptyString
  | String c s' =>
      match rstrip s' with
      | EmptyString => if is_space c then EmptyString else String c EmptyString
      | t => String c t
      end
  end.

(** [s.strip()] *)
Definition strip (s : string) : string := rstrip (lstrip s).

(** [str.lower] on one Latin-1 code point: A..Z and the accented capitals
    (all of 192..222 but the multiplication sign) move up by 32. *)
Definition lower_char (c : ascii) : ascii :=
  let n := code c in
  if (((65 <=? n) && (n <=? 90))
      || ((192 <=? n) && (n <=? 222) && negb (n =? 215)))%nat
  then ascii_of_nat (n + 32)
  else c.

(** [s.lower()] *)
Fixpoint lower (s : string) : string :=
  match s with
  | EmptyString => EmptyString
  | String c s' => String (lower_char c) (lower s')
  end.

(** [s.endswith(suffix)] *)
Fixpoint endswith (s suffix : string) : bool :=
  if String.eqb s suffix then true
  else match s with
       | EmptyString => false
       | String _ s' => endswith s' suffix
       end.

(** [s.endswith((a, b))], the tuple form *)
Definition endswith_any (s : string) (suffixes : list string) : bool :=
  existsb (endswith s) suffixes.

(** [str(n)] for an integer *)
Definition str_int (n : Z) : string := NilZero.string_of_int (Z.to_int n).

Fixpoint zeros (k : nat) : string :=
  match k with
  | O => EmptyString
  | S k' => String "0" (zeros k')
  end.

(** [f"{n:0wd}"]: the digits of [n], zeros added on the left, after the
    sign, up to a width of [w]. *)
Definition format_0d (w : nat) (n : Z) : string :=
  let digits := str_int (Z.abs n) in
  if (n <? 0)%Z then
    (String "-" (zeros (w - 1 - String.length digits)) ++ digits)%string
  else
    (zeros (w - String.length digits) ++ digits)%string.

End PyStr.

(** ** LOAD DATA

    The two pandas readers are the external collaborators of [load_data];
    [T] is what they return. *)

Section Loader.

Variable T : Type.
Variable read_csv_latin1 : string -> result T.
Variable read_excel : string -> result T.

Definition load_data (path : string) : result T :=
  if PyStr.endswith (PyStr.lower path) ".csv" then
    read_csv_latin1 path
  else if PyStr.endswith_any (PyStr.lower path) [".xlsx"; ".xls"] then
    read_excel path
  else
    Raise ValueError.

End Loader.

Arguments load_data {T} read_csv_latin1 read_excel path.

(** What "ends in [ext], whatever the case of the letters" means, stated
    without [lower]: the path splits into a prefix and a tail that is [ext]
    letter by letter, each letter in either case. *)

Definition upcase_ascii (c : ascii) : ascii :=
  let n := nat_of_ascii c in
  if ((97 <=? n) && (n <=? 122))%nat then ascii_of_nat (n - 32) else c.

Definition same_letter (a b : ascii) : Prop := a = b \/ a = upcase_ascii b.

Fixpoint spells (tail ext : string) : Prop :=
  match tail, ext with
  | EmptyString, EmptyString => True
  | String a t, String b e => same_letter a b /\ spells t e
  | _, _ => False
  end.

Definition has_extension (path ext : string) : Prop :=
  exists stem tail, path = (stem ++ tail)%string /\ spells tail ext.

(** ** The data model: cells, rows, frames *)

(** A pandas [Timestamp], as far as the program looks into it. *)
Record Timestamp : Type := { year : Z; month : Z; day : Z }.

(** A cell holds a number, a string, a date, or nothing ([NaN], [None],
    [NaT]). *)
Inductive cell : Type :=
| Null
| Num (q : Qc)
| Str (s : string)
| Date (d : Timestamp).

Definition Series : Type := list cell.

(** A frame whose column labels are strings: what [clean_data] returns and
    what the later stages receive from it.  Those stages only compare the
    labels with the names they look for. *)
Record DataFrame : Type := { columns : list string; rows : list (list cell) }.

(** A column label as a reader may return it: a string, or something else
    (a number, when the header of a spreadsheet holds one, or when there is
    no header). *)
Inductive label : Type :=
| Text (s : string)
| Other (z : Z).

(** A frame as the readers hand it over, whatever its labels. *)
Record RawFrame : Type := { labels : list label; cells : list (list cell) }.

Definition raw_of (df : DataFrame) : RawFrame :=
  {| labels := map Text (columns df); cells := rows df |}.

Coercion raw_of : DataFrame >-> RawFrame.

(** ** The arithmetic of numpy

    What the product of two values is, and what the sum and the mean of the
    values of a column are, depends on the dtype of the columns: products
    and sums of int64 columns are taken modulo 2^64, those of float64
    columns are rounded (a product may underflow to 0), a mean is computed
    in float64, and a sum within a group is not accumulated the way the sum
    of a column is.  The program leaves all of this to numpy, and the model
    takes this arithmetic as it comes: each operation is given the values it
    works on, in their order. *)
Class Arithmetic : Type := {
  (** [a * b], for one row of two numeric columns *)
  times : Qc -> Qc -> Qc;
  (** [Series.sum] of the values present in a column, when there are some *)
  sum_of : list Qc -> Qc;
  (** the sum [groupby(...).sum()] takes of the values present in a group,
      when there are some *)
  group_sum_of : list Qc -> Qc;
  (** [Series.mean] of the values present in a column, when there are
      some *)
  mean_of : list Qc -> Qc
}.

(** The exact sum of some numbers, which the sums of numpy are compared
    with. *)
Definition total (qs : list Qc) : Qc := fold_right Qcplus 0%Qc qs.

(** Every row has one cell per column. *)
Definition rectangular (df : DataFrame) : Prop :=
  Forall (fun r => List.length r = List.length (columns df)) (rows df).

Definition Qc_ltb (a b : Qc) : bool :=
  match Qccompare a b with Lt => true | _ => false end.

Definition Qc_leb (a b : Qc) : bool :=
  match Qccompare a b with Gt => false | _ => true end.

Definition Timestamp_eqb (a b : Timestamp) : bool :=
  Z.eqb (year a) (year b) && Z.eqb (month a) (month b) && Z.eqb (day a) (day b).

Definition cell_eqb (a b : cell) : bool :=
  match a, b with
  | Null, Null => true
  | Num x, Num y => Qc_eq_bool x y
  | Str x, Str y => String.eqb x y
  | Date x, Date y => Timestamp_eqb x y
  | _, _ => false
  end.

Definition is_null (v : cell) : bool :=
  match v with Null => true | _ => false end.

(** ** The pandas operations the program calls *)

Module Pandas.

(** The cell of row [r] under the first column labelled [c]. *)
Fixpoint lookup (cols : list string) (c : string) (r : list cell) : cell :=
  match cols, r with
  | k :: cols', x :: r' => if String.eqb k c then x else lookup cols' c r'
  | _, _ => Null
  end.

(** Row [r] with [v] stored under every column labelled [c]. *)
Fixpoint store (cols : list string) (c : string) (v : cell) (r : list cell)
  : list cell :=
  match cols, r with
  | k :: cols', x :: r' =>
      (if String.eqb k c then v else x) :: store cols' c v r'
  | _, _ => r
  end.

Fixpoint zip_with {A B C : Type} (f : A -> B -> C) (l : list A) (m : list B)
  : list C :=
  match l, m with
  | a :: l', b :: m' => f a b :: zip_with f l' m'
  | _, _ => []
  end.

(** [c in df.columns] *)
Definition has_column (c : string) (df : DataFrame) : bool :=
  existsb (String.eqb c) (columns df).

(** The values under a label that names one column. *)
Definition column (c : string) (df : DataFrame) : Series :=
  map (lookup (columns df) c) (rows df).

(** [df[c]] is a [Series] when one column bears the label, a [DataFrame]
    of the homonymous columns when several do, a [KeyError] when none
    does. *)
Inductive item : Type :=
| ASeries (s : Series)
| AFrame (ss : list Series).

Fixpoint positions (c : string) (cols : list string) (j : nat) : list nat :=
  match cols with
  | [] => []
  | k :: cols' =>
      if String.eqb k c then j :: positions c cols' (S j)
      else positions c cols' (S j)
  end.

Definition column_at (j : nat) (df : DataFrame) : Series :=
  map (fun r => nth j r Null) (rows df).

Definition getitem (c : string) (df : DataFrame) : result item :=
  match count_occ string_dec (columns df) c with
  | O => Raise KeyError
  | S O => Ok (ASeries (column c df))
  | _ => Ok (AFrame (map (fun j => column_at j df)
                         (positions c (columns df) 0)))
  end.

(** [df[c] = s]: overwrite the column(s) labelled [c], or append a new
    column when there is none. *)
Definition setitem (c : string) (s : Series) (df : DataFrame) : DataFrame :=
  if has_column c df then
    {| columns := columns df;
       rows := zip_with (fun r v => store (columns df) c v r) (rows df) s |}
  else
    {| columns := columns df ++ [c];
       rows := zip_with (fun r v => r ++ [v]) (rows df) s |}.

(** [df[mask]] with a boolean mask *)
Definition boolean_index (df : DataFrame) (mask : list bool) : DataFrame :=
  {| columns := columns df;
     rows := map fst (filter snd (combine (rows df) mask)) |}.

(** [df.dropna(how="all")] *)
Definition dropna_all (df : DataFrame) : DataFrame :=
  {| columns := columns df;
     rows := filter (fun r => negb (forallb is_null r)) (rows df) |}.

(** [s.fillna(x)] *)
Definition fillna (x : Qc) (s : Series) : Series :=
  map (fun v => if is_null v then Num x else v) s.

(** [s.notna()] *)
Definition notna (s : Series) : list bool :=
  map (fun v => negb (is_null v)) s.

(** [s > x]; a missing value compares false. *)
Definition gt (s : Series) (x : Qc) : list bool :=
  map (fun v => match v with Num q => Qc_ltb x q | _ => false end) s.

(** [a * b] on two numeric series, in the arithmetic of their dtypes; a
    missing operand gives a missing product. *)
Definition mul_cell {np : Arithmetic} (a b : cell) : cell :=
  match a, b with
  | Num x, Num y => Num (times x y)
  | _, _ => Null
  end.

Definition mul {np : Arithmetic} (a b : Series) : Series :=
  zip_with mul_cell a b.

Section Coercions.

(** How pandas reads a string or a timestamp as a number, [None] when
    it cannot. *)
Variable numeric_of_object : cell -> option Qc.

(** How pandas reads a string or a number as a date, [None] when it
    cannot; the reading may depend on the whole column (the date format
    is guessed from it). *)
Variable datetime_of_object : Series -> cell -> option Timestamp.

Definition to_numeric_cell (v : cell) : cell :=
  match v with
  | Null => Null
  | Num q => Num q
  | _ => match numeric_of_object v with
         | Some q => Num q
         | None => Null
         end
  end.

(** [pd.to_numeric(x, errors="coerce")]; a [DataFrame] argument is
    refused. *)
Definition to_numeric (x : item) : result Series :=
  match x with
  | ASeries s => Ok (map to_numeric_cell s)
  | AFrame _ => Raise TypeError
  end.

Definition to_datetime_cell (s : Series) (v : cell) : cell :=
  match v with
  | Null => Null
  | Date d => Date d
  | _ => match datetime_of_object s v with
         | Some d => Date d
         | None => Null
         end
  end.

(** [pd.to_datetime(x, errors="coerce")]; a [DataFrame] whose columns
    are homonymous cannot be assembled into dates. *)
Definition to_datetime (x : item) : result Series :=
  match x with
  | ASeries s => Ok (map (to_datetime_cell s) s)
  | AFrame _ => Raise ValueError
  end.

End Coercions.

End Pandas.

Import Pandas.

(** ** CLEAN & PREPROCESS *)

Section Cleaner.

Variable numeric_of_object : cell -> option Qc.
Variable datetime_of_object : Series -> cell -> option Timestamp.
Context {np : Arithmetic}.

(** [df[c] = pd.to_numeric(df[c], errors="coerce").fillna(0)] *)
Definition coerce_numeric (c : string) (df : DataFrame) : result DataFrame :=
  x <- getitem c df ;;
  s <- to_numeric numeric_of_object x ;;
  Ok (setitem c (fillna 0%Qc s) df).

(** [c.strip()]: only a string has the method. *)
Definition strip_label (c : label) : result string :=
  match c with
  | Text s => Ok (PyStr.strip s)
  | Other _ => Raise AttributeError
  end.

(** [[c.strip() for c in df.columns]] *)
Fixpoint strip_labels (cs : list label) : result (list string) :=
  match cs with
  | [] => Ok []
  | c :: cs' => s <- strip_label c ;; ss <- strip_labels cs' ;; Ok (s :: ss)
  end.

(** Strip whitespace from column names *)
Definition strip_column_names (df : RawFrame) : result DataFrame :=
  names <- strip_labels (labels df) ;;
  Ok {| columns := names; rows := cells df |}.

(** Convert numeric columns: one of the two [if] blocks *)
Definition convert_numeric (c : string) (df : DataFrame) : result DataFrame :=
  if has_column c df then coerce_numeric c df else Ok df.

(** Convert date *)
Definition convert_date (df : DataFrame) : result DataFrame :=
  if has_column DATE_COLUMN df then
    x <- getitem DATE_COLUMN df ;;
    s <- to_datetime datetime_of_object x ;;
    let df := setitem DATE_COLUMN s df in
    Ok (boolean_index df (notna (column DATE_COLUMN df)))
  else Ok df.

(** Create SALES if missing *)
Definition create_sales (df : DataFrame) : DataFrame :=
  if negb (has_column SALES_COLUMN df)
     && forallb (fun col => has_column col df) [QTY_COLUMN; PRICE_COLUMN]
  then setitem SALES_COLUMN
         (mul (column QTY_COLUMN df) (column PRICE_COLUMN df)) df
  else df.

(** Clean SALES *)
Definition clean_sales (df : DataFrame) : result DataFrame :=
  if has_column SALES_COLUMN df then
    df <- coerce_numeric SALES_COLUMN df ;;
    Ok (boolean_index df (gt (column SALES_COLUMN df) 0%Qc))
  else Ok df.

Definition clean_data (df : RawFrame) : result DataFrame :=
  df <- strip_column_names df ;;
  (* Drop fully empty rows *)
  let df := dropna_all df in
  df <- convert_numeric QTY_COLUMN df ;;
  df <- convert_numeric PRICE_COLUMN df ;;
  df <- convert_date df ;;
  let df := create_sales df in
  df <- clean_sales df ;;
  Ok df.

End Cleaner.

(** ** TIME FEATURES *)

(** The range of a pandas [Timestamp] (nanoseconds in 64 bits) keeps the
    year between 1677 and 2262. *)
Definition valid_timestamp (t : Timestamp) : Prop :=
  (1677 <= year t <= 2262)%Z /\ (1 <= month t <= 12)%Z /\ (1 <= day t <= 31)%Z.

Definition Qc_of_Z (n : Z) : Qc := Q2Qc (inject_Z n).

(** [str(t.to_period("M"))]: the year on four digits, a dash, the month on
    two digits. *)
Definition period_M_str (t : Timestamp) : string :=
  (PyStr.format_0d 4 (year t) ++ "-" ++ PyStr.format_0d 2 (month t))%string.

Fixpoint timestamps (s : Series) : option (list Timestamp) :=
  match s with
  | [] => Some []
  | Date t :: s' => option_map (cons t) (timestamps s')
  | _ => None
  end.

(** [x.dt]: only a column of dtype datetime64 has the accessor.  The model
    keeps no dtype: the accessor is granted to a column that holds
    timestamps only, as [clean_data] leaves the date column (the column it
    leaves has the dtype datetime64 and no [NaT], even when no row is left),
    and refused to any other.  Two kinds of columns are beyond this account:
    a datetime64 column that still holds [NaT], which pandas accepts, and a
    column of dtype object that holds timestamps only, or nothing at all,
    which pandas refuses.  Nothing is stated below of what
    [add_time_features] returns on a table that [clean_data] did not
    return. *)
Definition dt (x : item) : result (list Timestamp) :=
  match x with
  | ASeries s =>
      match timestamps s with
      | Some ts => Ok ts
      | None => Raise AttributeError
      end
  | AFrame _ => Raise AttributeError
  end.

Definition add_time_features (df : DataFrame) : result DataFrame :=
  if negb (has_column DATE_COLUMN df) then Raise KeyError
  else
    x <- getitem DATE_COLUMN df ;;
    ts <- dt x ;;
    let df := setitem "Year" (map (fun t => Num (Qc_of_Z (year t))) ts) df in
    x <- getitem DATE_COLUMN df ;;
    ts <- dt x ;;
    let df := setitem "Month" (map (fun t => Num (Qc_of_Z (month t))) ts) df in
    x <- getitem DATE_COLUMN df ;;
    ts <- dt x ;;
    let df := setitem "YearMonth" (map (fun t => Str (period_M_str t)) ts) df in
    Ok df.

(** ** ANALYSIS *)

(** The order in which group keys and sorted values are arranged: numbers
    before strings before dates, each kind in its own order (strings by
    code point). *)
Definition Timestamp_leb (a b : Timestamp) : bool :=
  match Z.compare (year a) (year b) with
  | Lt => true
  | Gt => false
  | Eq => match Z.compare (month a) (month b) with
          | Lt => true
          | Gt => false
          | Eq => Z.leb (day a) (day b)
          end
  end.

Definition cell_leb (a b : cell) : bool :=
  match a, b with
  | Null, _ => true
  | _, Null => false
  | Num x, Num y => Qc_leb x y
  | Num _, _ => true
  | _, Num _ => false
  | Str x, Str y => String.leb x y
  | Str _, _ => true
  | _, Str _ => false
  | Date x, Date y => Timestamp_leb x y
  end.

Section Sorting.

Variable A : Type.
Variable leb : A -> A -> bool.

Fixpoint insert_sorted (x : A) (l : list A) : list A :=
  match l with
  | [] => [x]
  | y :: l' => if leb x y then x :: l else y :: insert_sorted x l'
  end.

(** A stable sort.  pandas sorts with an unstable quicksort by default:
    the order among equal keys is the one thing this model fixes that
    pandas leaves open. *)
Definition sort_by (l : list A) : list A := fold_right insert_sorted [] l.

End Sorting.

Arguments insert_sorted {A} leb x l.
Arguments sort_by {A} leb l.

Module GroupBy.

(** What a cell brings to a sum: a number its value, a missing value
    nothing; a string or a date among numbers cannot be added. *)
Definition addend (v : cell) : result (list Qc) :=
  match v with
  | Null => Ok []
  | Num q => Ok [q]
  | _ => Raise TypeError
  end.

Fixpoint addends (s : Series) : result (list (list Qc)) :=
  match s with
  | [] => Ok []
  | v :: s' => q <- addend v ;; qs <- addends s' ;; Ok (q :: qs)
  end.

(** Put the values [qs] of a row into the group [k], after those that are
    there, opening the group if it is new. *)
Fixpoint accumulate (k : cell) (qs : list Qc) (acc : list (cell * list Qc))
  : list (cell * list Qc) :=
  match acc with
  | [] => [(k, qs)]
  | (k', g) :: acc' =>
      if cell_eqb k' k then (k', g ++ qs) :: acc'
      else (k', g) :: accumulate k qs acc'
  end.

(** One pass over the rows; a row whose key is missing joins no group. *)
Fixpoint scan (keys : Series) (qss : list (list Qc))
  (acc : list (cell * list Qc)) : list (cell * list Qc) :=
  match keys, qss with
  | k :: keys', qs :: qss' =>
      scan keys' qss' (if is_null k then acc else accumulate k qs acc)
  | _, _ => acc
  end.

(** The sum of a group: 0 when no value is present in it. *)
Definition group_sum {np : Arithmetic} (qs : list Qc) : Qc :=
  match qs with
  | [] => 0%Qc
  | _ => group_sum_of qs
  end.

Definition summed {np : Arithmetic} (g : cell * list Qc) : cell * Qc :=
  (fst g, group_sum (snd g)).

Definition by_key (a b : cell * Qc) : bool := cell_leb (fst a) (fst b).

(** [df.groupby(key)[value].sum()] for one value column: the totals, in
    the order of the group keys. *)
Definition sum {np : Arithmetic} (keys values : Series)
  : result (list (cell * Qc)) :=
  qss <- addends values ;;
  Ok (sort_by by_key (map summed (scan keys qss []))).

Fixpoint sum_each {np : Arithmetic} (keys : Series) (vss : list Series)
  : result (list (list (cell * Qc))) :=
  match vss with
  | [] => Ok []
  | vs :: vss' => t <- sum keys vs ;; ts <- sum_each keys vss' ;; Ok (t :: ts)
  end.

Fixpoint total_of (k : cell) (t : list (cell * Qc)) : Qc :=
  match t with
  | [] => 0%Qc
  | (k', q) :: t' => if cell_eqb k' k then q else total_of k t'
  end.

(** The same over several homonymous value columns: one row per group,
    one total per column. *)
Definition sum_frame {np : Arithmetic} (keys : Series) (vss : list Series)
  : result (list (list cell)) :=
  ts <- sum_each keys vss ;;
  Ok (map (fun k => k :: map (fun t => Num (total_of k t)) ts)
          (map fst (sort_by by_key
                      (map summed (scan keys (map (fun _ => []) keys) []))))).

(** The grouping column: a missing label is a [KeyError], a label borne
    by several columns is not one-dimensional. *)
Definition grouper (c : string) (df : DataFrame) : result Series :=
  x <- getitem c df ;;
  match x with
  | ASeries s => Ok s
  | AFrame _ => Raise ValueError
  end.

End GroupBy.

(** [l.head(n)]: the first [n], or all but the last [-n] when [n] is
    negative. *)
Definition head {A : Type} (n : Z) (l : list A) : list A :=
  if (0 <=? n)%Z then firstn (Z.to_nat n) l
  else firstn (List.length l - Z.to_nat (- n)) l.

Definition by_total_desc (a b : cell * Qc) : bool := Qc_leb (snd b) (snd a).

Definition get_top_products {np : Arithmetic} (df : DataFrame) (top_n : Z)
  : result DataFrame :=
  if negb (has_column PRODUCT_COLUMN df) then Raise KeyError
  else
    keys <- GroupBy.grouper PRODUCT_COLUMN df ;;
    x <- getitem SALES_COLUMN df ;;
    match x with
    | ASeries values =>
        totals <- GroupBy.sum keys values ;;
        let top := head top_n (sort_by by_total_desc totals) in
        Ok {| columns := [PRODUCT_COLUMN; SALES_COLUMN];
              rows := map (fun kt => [fst kt; Num (snd kt)]) top |}
    | AFrame vss =>
        (* the totals form a frame, which cannot be sorted without [by] *)
        _ <- GroupBy.sum_frame keys vss ;;
        Raise TypeError
    end.

Definition by_first (a b : list cell) : bool :=
  cell_leb (hd Null a) (hd Null b).

Definition get_monthly_trends {np : Arithmetic} (df : DataFrame)
  : result DataFrame :=
  if negb (has_column "YearMonth" df) then Raise KeyError
  else
    keys <- GroupBy.grouper "YearMonth" df ;;
    x <- getitem SALES_COLUMN df ;;
    match x with
    | ASeries values =>
        totals <- GroupBy.sum keys values ;;
        Ok {| columns := ["YearMonth"; SALES_COLUMN];
              rows := sort_by by_first
                        (map (fun kt => [fst kt; Num (snd kt)]) totals) |}
    | AFrame vss =>
        table <- GroupBy.sum_frame keys vss ;;
        Ok {| columns := "YearMonth" :: map (fun _ => SALES_COLUMN) vss;
              rows := sort_by by_first table |}
    end.

(** A Python [float]: a number, or not-a-number. *)
Inductive pyfloat : Type :=
| nan
| real (q : Qc).

Record Stats : Type := {
  total_rows : Z;
  total_revenue : pyfloat;
  avg_order_value : pyfloat;
  unique_products : option Z
}.

(** The values a reduction sees: the missing ones are skipped. *)
Definition present (s : Series) : Series :=
  filter (fun v => negb (is_null v)) s.

(** The sum of the values present in a column: 0 when there is none. *)
Definition sum_present {np : Arithmetic} (qs : list Qc) : Qc :=
  match qs with
  | [] => 0%Qc
  | _ => sum_of qs
  end.

(** Their mean: not-a-number when there is none. *)
Definition mean_present {np : Arithmetic} (qs : list Qc) : pyfloat :=
  match qs with
  | [] => nan
  | _ => real (mean_of qs)
  end.

(** [float(s.sum())] *)
Definition series_sum {np : Arithmetic} (x : item) : result pyfloat :=
  match x with
  | ASeries s =>
      qss <- GroupBy.addends s ;; Ok (real (sum_present (List.concat qss)))
  | AFrame _ => Raise TypeError
  end.

(** [float(s.mean())] *)
Definition series_mean {np : Arithmetic} (x : item) : result pyfloat :=
  match x with
  | ASeries s =>
      qss <- GroupBy.addends s ;; Ok (mean_present (List.concat qss))
  | AFrame _ => Raise TypeError
  end.

Fixpoint distinct (s : Series) : Series :=
  match s with
  | [] => []
  | v :: s' => v :: filter (fun w => negb (cell_eqb v w)) (distinct s')
  end.

(** [int(s.nunique())] *)
Definition series_nunique (x : item) : result Z :=
  match x with
  | ASeries s => Ok (Z.of_nat (List.length (distinct (present s))))
  | AFrame _ => Raise TypeError
  end.

Definition get_basic_stats {np : Arithmetic} (df : DataFrame) : result Stats :=
  let rows_ := Z.of_nat (List.length (rows df)) in
  x <- getitem SALES_COLUMN df ;;
  revenue <- series_sum x ;;
  x <- getitem SALES_COLUMN df ;;
  avg <- series_mean x ;;
  if has_column PRODUCT_COLUMN df then
    x <- getitem PRODUCT_COLUMN df ;;
    n <- series_nunique x ;;
    Ok {| total_rows := rows_; total_revenue := revenue;
          avg_order_value := avg; unique_products := Some n |}
  else
    Ok {| total_rows := rows_; total_revenue := revenue;
          avg_order_value := avg; unique_products := None |}.

(** ** VISUALIZATION, TEXT REPORT and MAIN

    What the program does to the terminal and to the figures is told by
    its collaborators: [print], the calls of [matplotlib.pyplot], the
    readers of pandas and [print_report].  A call of one of them changes the
    world and returns, raises one of the exceptions of the pipeline, or
    fails in a way of its own ([Failure]: a missing file, say). *)

Inductive outcome (Failure A : Type) : Type :=
| Returns (a : A)
| Raises (e : exn)
| Fails (f : Failure).

Arguments Returns {Failure A} a.
Arguments Raises {Failure A} e.
Arguments Fails {Failure A} f.

(** What was done before an exception stays done: the world comes back in
    every case. *)
Definition IO (World Failure A : Type) : Type :=
  World -> World * outcome Failure A.

Definition io_bind {World Failure A B : Type} (m : IO World Failure A)
  (k : A -> IO World Failure B) : IO World Failure B :=
  fun w =>
    match m w with
    | (w', Returns a) => k a w'
    | (w', Raises e) => (w', Raises e)
    | (w', Fails f) => (w', Fails f)
    end.

Notation "x <~ m ;; k" := (io_bind m (fun x => k))
  (at level 61, m at next level, right associativity).

(** A step of the pipeline, which leaves the world alone. *)
Definition lift {World Failure A : Type} (r : result A) : IO World Failure A :=
  fun w => (w, match r with Ok a => Returns a | Raise e => Raises e end).

(** Run the computation that was chosen, if one was. *)
Definition join {World Failure A : Type} (r : result (IO World Failure A))
  : IO World Failure A :=
  match r with
  | Ok m => m
  | Raise e => fun w => (w, Raises e)
  end.

(** The calls of [matplotlib.pyplot] that the program makes. *)
Record Pyplot (World Failure : Type) : Type := {
  plt_figure : Z -> Z -> IO World Failure unit;
  plt_plot : item -> item -> string -> IO World Failure unit;
  plt_bar : item -> item -> IO World Failure unit;
  plt_title : string -> IO World Failure unit;
  plt_xlabel : string -> IO World Failure unit;
  plt_ylabel : string -> IO World Failure unit;
  plt_xticks : Z -> option string -> IO World Failure unit;
  plt_tight_layout : IO World Failure unit;
  plt_show : IO World Failure unit
}.

Arguments plt_figure {World Failure} p figsize_w figsize_h.
Arguments plt_plot {World Failure} p x y marker.
Arguments plt_bar {World Failure} p x height.
Arguments plt_title {World Failure} p label.
Arguments plt_xlabel {World Failure} p label.
Arguments plt_ylabel {World Failure} p label.
Arguments plt_xticks {World Failure} p rotation ha.
Arguments plt_tight_layout {World Failure} p.
Arguments plt_show {World Failure} p.

(** [os.path.join("data", "sales_data_sample.csv")], [sep] being the
    separator of the platform. *)
Definition DATA_PATH (sep : string) : string :=
  ("data" ++ sep ++ "sales_data_sample.csv")%string.

(** [df.empty]: no row, or no column. *)
Definition empty (df : DataFrame) : bool :=
  match columns df, rows df with
  | [], _ => true
  | _, [] => true
  | _, _ => false
  end.

Section Program.

Context {np : Arithmetic}.

Variable World : Type.
Variable Failure : Type.

Variable print : string -> IO World Failure unit.
Variable plt : Pyplot World Failure.

(** [x.astype(str)] *)
Variable astype_str : item -> item.

Variable read_csv_latin1 : string -> IO World Failure DataFrame.
Variable read_excel : string -> IO World Failure DataFrame.
Variable numeric_of_object : cell -> option Qc.
Variable datetime_of_object : Series -> cell -> option Timestamp.

Variable print_report :
  DataFrame -> Stats -> DataFrame -> DataFrame -> IO World Failure unit.

(** The separator of [os.path] *)
Variable sep : string.

Definition plot_monthly_trends (monthly_sales : DataFrame)
  : IO World Failure unit :=
  if empty monthly_sales then
    print "No monthly sales data to plot."
  else
    _ <~ plt_figure plt 10 5 ;;
    x <~ lift (getitem "YearMonth" monthly_sales) ;;
    y <~ lift (getitem SALES_COLUMN monthly_sales) ;;
    _ <~ plt_plot plt x y "o" ;;
    _ <~ plt_title plt "Monthly Sales Trend" ;;
    _ <~ plt_xlabel plt "Year-Month" ;;
    _ <~ plt_ylabel plt "Total Sales" ;;
    _ <~ plt_xticks plt 45 None ;;
    _ <~ plt_tight_layout plt ;;
    plt_show plt.

Definition plot_top_products (top_products : DataFrame)
  : IO World Failure unit :=
  if empty top_products then
    print "No top products data to plot."
  else
    _ <~ plt_figure plt 10 5 ;;
    x <~ lift (getitem PRODUCT_COLUMN top_products) ;;
    y <~ lift (getitem SALES_COLUMN top_products) ;;
    _ <~ plt_bar plt (astype_str x) y ;;
    _ <~ plt_title plt "Top Products by Total Sales" ;;
    _ <~ plt_xlabel plt "Product" ;;
    _ <~ plt_ylabel plt "Total Sales" ;;
    _ <~ plt_xticks plt 45 (Some "right") ;;
    _ <~ plt_tight_layout plt ;;
    plt_show plt.

Definition main : IO World Failure unit :=
  (* 1. Load *)
  df <~ join (load_data (fun path => Ok (read_csv_latin1 path))
                        (fun path => Ok (read_excel path))
                        (DATA_PATH sep)) ;;
  (* 2. Clean & preprocess *)
  df <~ lift (clean_data numeric_of_object datetime_of_object df) ;;
  (* 3. Add time features *)
  df <~ lift (add_time_features df) ;;
  (* 4. Analysis *)
  stats <~ lift (get_basic_stats df) ;;
  top_products <~ lift (get_top_products df 10) ;;
  monthly_sales <~ lift (get_monthly_trends df) ;;
  (* 5. Report *)
  _ <~ print_report df stats top_products monthly_sales ;;
  (* 6. Plots *)
  _ <~ plot_monthly_trends monthly_sales ;;
  plot_top_products top_products.

End Program.

(** ** The arithmetic of int64 columns

    A column that [read_csv] or [pd.to_numeric] finds to hold integers only
    has the dtype int64: its products and its sums are taken modulo 2^64,
    in two's complement, and nothing tells of an overflow.  The mean is
    taken in float64, so that it does not wrap around.  This arithmetic is
    used to run the pipeline on sample tables (on those whose numbers are
    small, float64 columns give the same results); the general results
    below hold of any arithmetic. *)

Module Numpy.

(** The 64-bit two's complement reading of an integer. *)
Definition wrap (z : Z) : Z := ((z + 2 ^ 63) mod 2 ^ 64 - 2 ^ 63)%Z.

(** An integer is wrapped; a number that is not an integer is in no int64
    column, and is left as it is. *)
Definition int64 (q : Qc) : Qc :=
  match Qden q with
  | 1%positive => Qc_of_Z (wrap (Qnum q))
  | _ => q
  end.

Definition mean (qs : list Qc) : Qc :=
  (total qs / Qc_of_Z (Z.of_nat (List.length qs)))%Qc.

Definition int64_columns : Arithmetic :=
  {| times := fun a b => int64 (a * b)%Qc;
     sum_of := fun qs => int64 (total qs);
     group_sum_of := fun qs => int64 (total qs);
     mean_of := mean |}.

End Numpy.

(** ** Concrete readings of strings

    [pd.to_numeric] and [pd.to_datetime] accept many notations.  What
    follows reads the plain ones, decimal literals and ISO dates, and is
    used to run the pipeline on sample tables; the general results below do
    not depend on it. *)

Module Readers.

Definition digit_of (c : ascii) : option Z :=
  let n := nat_of_ascii c in
  if ((48 <=? n) && (n <=? 57))%nat then Some (Z.of_nat (n - 48)) else None.

Fixpoint fraction (s : string) (num : Z) (den : positive) : option Q :=
  match s with
  | EmptyString => Some (Qmake num den)
  | String c s' =>
      match digit_of c with
      | Some d => fraction s' (10 * num + d)%Z (10 * den)%positive
      | None => None
      end
  end.

Fixpoint unsigned (s : string) (num : Z) (seen : bool) : option Q :=
  match s with
  | EmptyString => if seen then Some (Qmake num 1) else None
  | String c s' =>
      if Ascii.eqb c "." then (if seen then fraction s' num 1 else None)
      else match digit_of c with
           | Some d => unsigned s' (10 * num + d)%Z true
           | None => None
           end
  end.

Definition decimal (s : string) : option Qc :=
  match s with
  | String "-" s' => option_map (fun q => Q2Qc (Qopp q)) (unsigned s' 0 false)
  | _ => option_map Q2Qc (unsigned s 0 false)
  end.

Definition numeric_of_object (v : cell) : option Qc :=
  match v with
  | Str s => decimal s
  | _ => None
  end.

Fixpoint natural (s : string) (acc : Z) : option Z :=
  match s with
  | EmptyString => Some acc
  | String c s' =>
      match digit_of c with
      | Some d => natural s' (10 * acc + d)%Z
      | None => None
      end
  end.

Definition leap (y : Z) : bool :=
  ((y mod 4 =? 0) && (negb (y mod 100 =? 0) || (y mod 400 =? 0)))%Z.

Definition days_in_month (y m : Z) : Z :=
  if (m =? 2)%Z then (if leap y then 29 else 28)
  else if ((m =? 4) || (m =? 6) || (m =? 9) || (m =? 11))%Z then 30
  else 31.

(** [YYYY-MM-DD], within the range of a [Timestamp]. *)
Definition iso_date (s : string) : option Timestamp :=
  if (String.length s =? 10)%nat
     && String.eqb (substring 4 1 s) "-" && String.eqb (substring 7 1 s) "-"
  then
    match natural (substring 0 4 s) 0, natural (substring 5 2 s) 0,
          natural (substring 8 2 s) 0 with
    | Some y, Some m, Some d =>
        if ((1678 <=? y) && (y <=? 2261) && (1 <=? m) && (m <=? 12)
            && (1 <=? d) && (d <=? days_in_month y m))%Z
        then Some {| year := y; month := m; day := d |}
        else None
    | _, _, _ => None
    end
  else None.

Definition datetime_of_object (_ : Series) (v : cell) : option Timestamp :=
  match v with
  | Str s => iso_date s
  | _ => None
  end.

End Readers.

(** ** The vocabulary of the specification *)

(** A table maps each column name to a value, row by row: the names are
    distinct and every row has a cell for each. *)
Definition well_formed (df : DataFrame) : Prop :=
  NoDup (columns df) /\ rectangular df.

(** The cell of a row of [df] under the column [c]. *)
Definition cell_of (df : DataFrame) (c : string) (r : list cell) : cell :=
  lookup (columns df) c r.

(** *** Cleaning, row by row

    The six steps of the cleaner, told for one raw row: which numbers its
    cells stand for, whether it survives, and what is left of it. *)

Section RowWise.

Variable numeric_of_object : cell -> option Qc.
Variable datetime_of_object : Series -> cell -> option Timestamp.
Context {np : Arithmetic}.

(** The trimmed column names. *)
Variable names : list string.

(** The date column of the rows that are not empty: what the reading of
    one date may depend on. *)
Variable dates : Series.

Definition named (c : string) : bool := existsb (String.eqb c) names.

(** The number a cell stands for, 0 when it cannot be read as one. *)
Definition number_or_zero (v : cell) : Qc :=
  match to_numeric_cell numeric_of_object v with
  | Num q => q
  | _ => 0%Qc
  end.

Definition quantity (r : list cell) : Qc :=
  number_or_zero (lookup names QTY_COLUMN r).

Definition price (r : list cell) : Qc :=
  number_or_zero (lookup names PRICE_COLUMN r).

(** No revenue column, but a quantity and a price to compute it from. *)
Definition derives_revenue : bool :=
  negb (named SALES_COLUMN) && named QTY_COLUMN && named PRICE_COLUMN.

Definition revenue (r : list cell) : Qc :=
  if named SALES_COLUMN then number_or_zero (lookup names SALES_COLUMN r)
  else times (quantity r) (price r).

(** The date a cell stands for, [Null] when it cannot be read as one. *)
Definition date_read (r : list cell) : cell :=
  to_datetime_cell datetime_of_object dates (lookup names DATE_COLUMN r).

Definition survives (r : list cell) : bool :=
  negb (forallb is_null r)
  && (negb (named DATE_COLUMN) || negb (is_null (date_read r)))
  && (negb (named SALES_COLUMN || derives_revenue) || Qc_ltb 0%Qc (revenue r)).

Definition clean_row (r : list cell) : list cell :=
  let r1 := if named QTY_COLUMN
            then store names QTY_COLUMN (Num (quantity r)) r else r in
  let r2 := if named PRICE_COLUMN
            then store names PRICE_COLUMN (Num (price r)) r1 else r1 in
  let r3 := if named DATE_COLUMN
            then store names DATE_COLUMN (date_read r) r2 else r2 in
  if named SALES_COLUMN then store names SALES_COLUMN (Num (revenue r)) r3
  else if derives_revenue then r3 ++ [Num (revenue r)]
  else r3.

Definition clean_names : list string :=
  if derives_revenue then names ++ [SALES_COLUMN] else names.

End RowWise.

(** The date column of the rows of [raw] that are not empty. *)
Definition date_context (raw : DataFrame) : Series :=
  map (lookup (map PyStr.strip (columns raw)) DATE_COLUMN)
      (filter (fun r => negb (forallb is_null r)) (rows raw)).

Definition clean_table {np : Arithmetic}
  (numeric_of_object : cell -> option Qc)
  (datetime_of_object : Series -> cell -> option Timestamp)
  (raw : DataFrame) : DataFrame :=
  let names := map PyStr.strip (columns raw) in
  let dates := date_context raw in
  {| columns := clean_names names;
     rows := map (clean_row numeric_of_object datetime_of_object names dates)
               (filter (survives numeric_of_object datetime_of_object names dates)
                       (rows raw)) |}.

(** No configured name is borne by two columns once the names are
    trimmed. *)
Definition labels_unambiguous (raw : DataFrame) : Prop :=
  forall c, In c [QTY_COLUMN; PRICE_COLUMN; DATE_COLUMN; SALES_COLUMN] ->
    (count_occ string_dec (map PyStr.strip (columns raw)) c <= 1)%nat.

(** *** Aggregation *)

(** The revenue of a row: its number, nothing for a missing value. *)
Definition revenue_of (df : DataFrame) (r : list cell) : Qc :=
  match cell_of df SALES_COLUMN r with
  | Num q => q
  | _ => 0%Qc
  end.

(** The rows of [df] whose cell under [c] is [k]. *)
Definition rows_of_group (df : DataFrame) (c : string) (k : cell)
  : list (list cell) :=
  filter (fun r => cell_eqb (cell_of df c r) k) (rows df).

(** The revenue a row brings to a sum: its number, nothing when it is
    missing. *)
Definition revenue_values (df : DataFrame) (r : list cell) : list Qc :=
  match cell_of df SALES_COLUMN r with
  | Num q => [q]
  | _ => []
  end.

(** The revenue values present in some rows, in the order of the rows. *)
Definition revenues (df : DataFrame) (rs : list (list cell)) : list Qc :=
  flat_map (revenue_values df) rs.

(** The sum of the revenue over the rows of one group, as [groupby] takes
    it: in the arithmetic of the revenue column. *)
Definition group_total {np : Arithmetic} (df : DataFrame) (c : string)
  (k : cell) : Qc :=
  GroupBy.group_sum (revenues df (rows_of_group df c k)).

(** The exact sum of the revenue over the rows of one group. *)
Definition exact_group_total (df : DataFrame) (c : string) (k : cell) : Qc :=
  total (map (revenue_of df) (rows_of_group df c k)).

(** The sums that are taken of the revenue of [df] are exact: whichever rows
    are selected, and there is a revenue among them, the sum of their revenue
    neither overflows nor is rounded, be it taken over a column or within a
    group. *)
Definition sums_are_exact {np : Arithmetic} (df : DataFrame) : Prop :=
  forall select : list cell -> bool,
    revenues df (filter select (rows df)) <> [] ->
    sum_of (revenues df (filter select (rows df)))
    = total (revenues df (filter select (rows df)))
    /\ group_sum_of (revenues df (filter select (rows df)))
       = total (revenues df (filter select (rows df))).

(** The distinct values present under [c]. *)
Definition groups (df : DataFrame) (c : string) : Series :=
  distinct (present (column c df)).

(** Every revenue cell holds a number, as in a cleaned table. *)
Definition revenue_is_numeric (df : DataFrame) : Prop :=
  forall r, In r (rows df) -> exists q, cell_of df SALES_COLUMN r = Num q.

(** *** Time features *)

(** ["{year:04d}-{month:02d}"] *)
Definition format_bucket (y m : Z) : string :=
  (PyStr.format_0d 4 y ++ "-" ++ PyStr.format_0d 2 m)%string.

(** The character of a decimal digit. *)
Definition digit (d : Z) : ascii := ascii_of_nat (48 + Z.to_nat d).

(** The text "YYYY-MM" written out for a year below 10000 and a month below
    100: the thousands, the hundreds, the tens and the units of the year, a
    dash, the tens and the units of the month. *)
Definition year_month_digits (y m : Z) : string :=
  String (digit (y / 1000))
    (String (digit (y / 100 mod 10))
       (String (digit (y / 10 mod 10))
          (String (digit (y mod 10))
             (String "-"
                (String (digit (m / 10))
                   (String (digit (m mod 10)) EmptyString)))))).

(** *** Sample tables *)

(** The cleaner with these readings, on int64 columns. *)
Definition clean (raw : DataFrame) : result DataFrame :=
  clean_data (np := Numpy.int64_columns)
    Readers.numeric_of_object Readers.datetime_of_object raw.

Definition num (z : Z) : cell := Num (Qc_of_Z z).

(** The end-to-end scenario, as [read_csv] hands it over: the quantity
    column, which holds a word, is a column of strings. *)
Definition scenario : DataFrame :=
  {| columns := ["ORDERDATE"; "PRODUCTLINE"; "QUANTITYORDERED"; "PRICEEACH"];
     rows := [ [Str "2003-01-06"; Str "Motorcycles"; Str "30"; num 100];
               [Str "2003-01-09"; Str "Classic Cars"; Str "10"; num 50];
               [Str "2003-02-01"; Str "Motorcycles"; Str "bad"; num 20] ] |}.


Definition two_large_orders : DataFrame :=
  {| columns := ["ORDERDATE"; "PRODUCTLINE"; "SALES"];
     rows := [ [Str "2003-01-06"; Str "Ships"; num 4611686018427387904];
               [Str "2003-01-09"; Str "Ships"; num 4611686018427387904] ] |}.

(** A table as a spreadsheet without a header row is read: its labels are
    numbers. *)
Definition unlabelled : RawFrame :=
  {| labels := [Other 0; Other 1];
     cells := [ [num 10; num 20] ] |}.

(** Two columns whose names differ by a trailing blank only. *)
Definition twin_sales : DataFrame :=
  {| columns := ["SALES"; "SALES "];
     rows := [ [num 10; num 20] ] |}.

Definition twin_quantity : DataFrame :=
  {| columns := ["QUANTITYORDERED"; " QUANTITYORDERED"; "PRODUCTLINE"];
     rows := [ [num 1; num 2; Str "Ships"] ] |}.

(** *** Deciding equality of tables *)

Definition list_eqb {A : Type} (eqb : A -> A -> bool) : list A -> list A -> bool :=
  fix go (l m : list A) : bool :=
    match l, m with
    | [], [] => true
    | a :: l', b :: m' => eqb a b && go l' m'
    | _, _ => false
    end.

Definition frame_eqb (a b : DataFrame) : bool :=
  list_eqb String.eqb (columns a) (columns b)
  && list_eqb (list_eqb cell_eqb) (rows a) (rows b).

Definition result_eqb {A : Type} (eqb : A -> A -> bool) (a b : result A) : bool :=
  match a, b with
  | Ok x, Ok y => eqb x y
  | Raise KeyError, Raise KeyError => true
  | Raise TypeError, Raise TypeError => true
  | Raise ValueError, Raise ValueError => true
  | Raise AttributeError, Raise AttributeError => true
  | _, _ => false
  end.

(** ** Auxiliary definitions of the proofs *)

(** A table whose labels are strings, with its names trimmed. *)
Definition trimmed (df : DataFrame) : DataFrame :=
  {| columns := map PyStr.strip (columns df); rows := rows df |}.

(** *** The stages of the cleaner, for one row *)

(** A row with the cell under [c] read as a number. *)
Definition coerced_row (numeric_of_object : cell -> option Qc)
  (names : list string) (c : string) (r : list cell) : list cell :=
  if named names c
  then store names c
         (Num (number_or_zero numeric_of_object (lookup names c r))) r
  else r.

(** A row with its date read. *)
Definition dated_row (datetime_of_object : Series -> cell -> option Timestamp)
  (names : list string) (dates : Series) (r : list cell) : list cell :=
  if named names DATE_COLUMN
  then store names DATE_COLUMN
         (to_datetime_cell datetime_of_object dates
            (lookup names DATE_COLUMN r)) r
  else r.

(** A row with its revenue computed, when there is none to start with. *)
Definition derived_row {np : Arithmetic} (names : list string)
  (r : list cell) : list cell :=
  if derives_revenue names
  then r ++ [mul_cell (lookup names QTY_COLUMN r) (lookup names PRICE_COLUMN r)]
  else r.

Definition dated (names : list string) (r : list cell) : bool :=
  negb (named names DATE_COLUMN)
  || negb (is_null (lookup names DATE_COLUMN r)).

Definition sold (names : list string) (r : list cell) : bool :=
  negb (named names SALES_COLUMN)
  || match lookup names SALES_COLUMN r with
     | Num q => Qc_ltb 0%Qc q
     | _ => false
     end.

(** The characters of the three extensions. *)
Definition extension_char (b : ascii) : bool :=
  existsb (Ascii.eqb b) ["."; "c"; "s"; "v"; "x"; "l"]%char.

Fixpoint extension_chars (s : string) : bool :=
  match s with
  | EmptyString => true
  | String c s' => extension_char c && extension_chars s'
  end.

Fixpoint last_char (s : string) : option ascii :=
  match s with
  | EmptyString => None
  | String c EmptyString => Some c
  | String _ s' => last_char s'
  end.

Definition with_column (c : string) (cols : list string) : list string :=
  if existsb (String.eqb c) cols then cols else cols ++ [c].

Definition with_cell (cols : list string) (c : string) (v : cell)
  (r : list cell) : list cell :=
  if existsb (String.eqb c) cols then store cols c v r else r ++ [v].

Definition the_timestamp (v : cell) : Timestamp :=
  match v with
  | Date t => t
  | _ => {| year := 0; month := 0; day := 0 |}
  end.

(** A table whose date column holds timestamps only, together with the
    features already derived from them. *)
Definition featured_by (feats : list (string * (Timestamp -> cell)))
  (df : DataFrame) : Prop :=
  rectangular df
  /\ count_occ string_dec (columns df) DATE_COLUMN = 1%nat
  /\ forall r, In r (rows df) ->
       exists t, lookup (columns df) DATE_COLUMN r = Date t
                 /\ forall c g, In (c, g) feats -> lookup (columns df) c r = g t.

(** One line of [add_time_features]: read the dates, derive a column. *)
Definition time_step (c : string) (g : Timestamp -> cell)
  (k : DataFrame -> result DataFrame) (df : DataFrame) : result DataFrame :=
  x <- getitem DATE_COLUMN df ;;
  ts <- dt x ;;
  k (setitem c (map g ts) df).

Definition group_step (acc : list (cell * list Qc)) (kq : cell * list Qc)
  : list (cell * list Qc) :=
  if is_null (fst kq) then acc else GroupBy.accumulate (fst kq) (snd kq) acc.

(** The values of the group [k], [[]] when there is no such group. *)
Fixpoint values_of (k : cell) (acc : list (cell * list Qc)) : list Qc :=
  match acc with
  | [] => []
  | (k', g) :: acc' => if cell_eqb k' k then g else values_of k acc'
  end.

(** The values paired with the key [k], in their order. *)
Definition values_for (k : cell) (l : list (cell * list Qc)) : list Qc :=
  List.concat (map snd (filter (fun p => cell_eqb (fst p) k) l)).

(** The (bucket, total) pair a row of the trend table shows. *)
Definition as_entry (r : list cell) : string * Qc :=
  match r with
  | Str b :: Num t :: _ => (b, t)
  | _ => (EmptyString, 0%Qc)
  end.

Definition date (y m d : Z) : cell := Date {| year := y; month := m; day := d |}.

(** The scenario once cleaned, and with its time features. *)
Definition scenario_cleaned : DataFrame :=
  {| columns := ["ORDERDATE"; "PRODUCTLINE"; "QUANTITYORDERED"; "PRICEEACH";
                 "SALES"];
     rows := [ [date 2003 1 6; Str "Motorcycles"; num 30; num 100; num 3000];
               [date 2003 1 9; Str "Classic Cars"; num 10; num 50; num 500] ] |}.

Definition scenario_featured : DataFrame :=
  {| columns := ["ORDERDATE"; "PRODUCTLINE"; "QUANTITYORDERED"; "PRICEEACH";
                 "SALES"; "Year"; "Month"; "YearMonth"];
     rows := [ [date 2003 1 6; Str "Motorcycles"; num 30; num 100; num 3000;
                num 2003; num 1; Str "2003-01"];
               [date 2003 1 9; Str "Classic Cars"; num 10; num 50; num 500;
                num 2003; num 1; Str "2003-01"] ] |}.

(** The two large orders, cleaned and with their time features. *)
Definition two_large_orders_featured : DataFrame :=
  {| columns := ["ORDERDATE"; "PRODUCTLINE"; "SALES"; "Year"; "Month";
                 "YearMonth"];
     rows := [ [date 2003 1 6; Str "Ships"; num 4611686018427387904;
                num 2003; num 1; Str "2003-01"];
               [date 2003 1 9; Str "Ships"; num 4611686018427387904;
                num 2003; num 1; Str "2003-01"] ] |}.

(** A table with dates and products only, and one with no row. *)
Definition no_revenue : DataFrame :=
  {| columns := ["ORDERDATE"; "PRODUCTLINE"];
     rows := [ [Str "2003-01-06"; Str "Ships"] ] |}.

Definition no_rows : DataFrame :=
  {| columns := ["PRODUCTLINE"; "SALES"]; rows := [] |}.

(** ** The vocabulary of the further properties *)

(** How many columns bear the name [c] once the names are trimmed. *)
Definition label_count (raw : DataFrame) (c : string) : nat :=
  count_occ string_dec (map PyStr.strip (columns raw)) c.

(** None of the names by which the program looks a column up before it looks
    the revenue up is borne by two columns, once the names are trimmed. *)
Definition lookups_unambiguous (raw : DataFrame) : Prop :=
  forall c,
    In c [QTY_COLUMN; PRICE_COLUMN; DATE_COLUMN; PRODUCT_COLUMN; "YearMonth"] ->
    (label_count raw c <= 1)%nat.

(** *** Clean tables *)

(** A name begins, or ends, with a blank. *)
Definition starts_blank (s : string) : bool :=
  match s with
  | EmptyString => false
  | String c _ => PyStr.is_space c
  end.

Definition ends_blank (s : string) : bool :=
  match last_char s with
  | Some c => PyStr.is_space c
  | None => false
  end.

(** The invariant of a cleaned table: it is rectangular; its names are
    trimmed and none of the configured ones is borne twice; a revenue
    column is there as soon as a quantity and a price are; no row is empty;
    quantities, prices and revenues are numbers, the revenues positive; the
    dates are timestamps. *)
Definition clean_rows_of (df : DataFrame) (r : list cell) : Prop :=
  forallb is_null r = false
  /\ (In QTY_COLUMN (columns df) -> exists q, cell_of df QTY_COLUMN r = Num q)
  /\ (In PRICE_COLUMN (columns df) ->
      exists q, cell_of df PRICE_COLUMN r = Num q)
  /\ (In DATE_COLUMN (columns df) ->
      exists d, cell_of df DATE_COLUMN r = Date d)
  /\ (In SALES_COLUMN (columns df) ->
      exists q, cell_of df SALES_COLUMN r = Num q /\ (0 < q)%Qc).

Definition is_clean (df : DataFrame) : Prop :=
  rectangular df
  /\ (forall c, In c (columns df) ->
        starts_blank c = false /\ ends_blank c = false)
  /\ (forall c, In c [QTY_COLUMN; PRICE_COLUMN; DATE_COLUMN; SALES_COLUMN] ->
        (count_occ string_dec (columns df) c <= 1)%nat)
  /\ (In QTY_COLUMN (columns df) -> In PRICE_COLUMN (columns df) ->
      In SALES_COLUMN (columns df))
  /\ forall r, In r (rows df) -> clean_rows_of df r.

(** *** Time features, column by column *)

(** The table with the column [c] derived from the date of each row. *)
Definition feature (c : string) (g : Timestamp -> cell) (df : DataFrame)
  : DataFrame :=
  {| columns := with_column c (columns df);
     rows := map (fun r => with_cell (columns df) c
                             (g (the_timestamp (lookup (columns df) DATE_COLUMN r)))
                             r)
               (rows df) |}.

Definition with_time_features (df : DataFrame) : DataFrame :=
  feature "YearMonth" (fun t => Str (period_M_str t))
    (feature "Month" (fun t => Num (Qc_of_Z (month t)))
       (feature "Year" (fun t => Num (Qc_of_Z (year t))) df)).

(** One date column, which holds timestamps only. *)
Definition dates_only (df : DataFrame) : Prop :=
  rectangular df
  /\ count_occ string_dec (columns df) DATE_COLUMN = 1%nat
  /\ forall r, In r (rows df) ->
       exists t, lookup (columns df) DATE_COLUMN r = Date t.

(** The column [c] is there and holds, in every row, what [g] derives from
    the date of the row. *)
Definition settled (c : string) (g : Timestamp -> cell) (df : DataFrame)
  : Prop :=
  In c (columns df)
  /\ forall r, In r (rows df) ->
       store (columns df) c
         (g (the_timestamp (lookup (columns df) DATE_COLUMN r))) r = r.

(** The place of a month among the months a [Timestamp] can fall in, and
    the bucket of the month at a place. *)
Definition bucket_index (t : Timestamp) : Z :=
  ((year t - 1677) * 12 + (month t - 1))%Z.

Definition bucket_at (i : nat) : string :=
  period_M_str {| year := 1677 + Z.of_nat i / 12;
                  month := 1 + Z.of_nat i mod 12;
                  day := 1 |}.

(** *** Totals by group, and their ranking *)

(** The totals of the revenue by the groups of column [c], in the order of
    the group keys. *)
Definition group_totals {np : Arithmetic} (df : DataFrame) (c : string)
  : list (cell * Qc) :=
  sort_by GroupBy.by_key
    (map GroupBy.summed
       (GroupBy.scan (column c df) (map (revenue_values df) (rows df)) [])).

(** All the products, by decreasing total. *)
Definition ranking {np : Arithmetic} (df : DataFrame) : list (cell * Qc) :=
  sort_by by_total_desc (group_totals df PRODUCT_COLUMN).

(** The row of a result table that shows a group and its total. *)
Definition as_row (kt : cell * Qc) : list cell := [fst kt; Num (snd kt)].


(** Every revenue cell holds a number or nothing. *)
Definition revenue_is_numeric_or_missing (df : DataFrame) : Prop :=
  forall r, In r (rows df) ->
    cell_of df SALES_COLUMN r = Null
    \/ exists q, cell_of df SALES_COLUMN r = Num q.

(** *** Sample tables and sample runs *)

(** A table that comes with its revenue column, at odds with quantity times
    price. *)
Definition invoiced : DataFrame :=
  {| columns := ["QUANTITYORDERED"; "PRICEEACH"; " SALES"];
     rows := [ [num 2; num 10; Str "25"];
               [num 3; num 10; Null] ] |}.

(** Three products, two of them with the same total. *)
Definition three_products : DataFrame :=
  {| columns := ["PRODUCTLINE"; "SALES"];
     rows := [ [Str "Ships"; num 10];
               [Str "Trains"; num 40];
               [Str "Planes"; num 30];
               [Str "Ships"; num 20] ] |}.

(** A file whose one order was returned: its revenue is 0. *)
Definition returned_order : DataFrame :=
  {| columns := ["ORDERDATE"; "PRODUCTLINE"; "SALES"];
     rows := [ [Str "2003-01-06"; Str "Ships"; num 0] ] |}.

(** Orders of which one has no revenue yet. *)
Definition open_orders : DataFrame :=
  {| columns := ["PRODUCTLINE"; "SALES"];
     rows := [ [Str "Ships"; num 10];
               [Str "Trains"; Null];
               [Str "Planes"; num 30] ] |}.

(** Collaborators that keep a log: the world is the list of the calls
    made so far. *)
Module Logged.

Definition World : Type := list string.

Definition say (what : string) : IO World Empty_set unit :=
  fun w => (w ++ [what], Returns tt).

Definition print (s : string) : IO World Empty_set unit :=
  say ("print " ++ s).

Definition plt : Pyplot World Empty_set :=
  {| plt_figure := fun _ _ => say "figure";
     plt_plot := fun _ _ _ => say "plot";
     plt_bar := fun _ _ => say "bar";
     plt_title := fun _ => say "title";
     plt_xlabel := fun _ => say "xlabel";
     plt_ylabel := fun _ => say "ylabel";
     plt_xticks := fun _ _ => say "xticks";
     plt_tight_layout := say "tight_layout";
     plt_show := say "show" |}.

Definition astype_str (x : item) : item := x.

Definition print_report (_ : DataFrame) (_ : Stats) (_ _ : DataFrame)
  : IO World Empty_set unit :=
  say "print_report".

(** A reader that finds the table [raw] whatever the path. *)
Definition reads (raw : DataFrame) (_ : string)
  : IO World Empty_set DataFrame :=
  fun w => (w, Returns raw).

Definition main (raw : DataFrame) : IO World Empty_set unit :=
  main (np := Numpy.int64_columns)
    World Empty_set print plt astype_str (reads raw) (reads raw)
    Readers.numeric_of_object Readers.datetime_of_object print_report "/".

End Logged.

(** * Proofs *)

(** ** Strings *)

Example strip_trims_blanks :
  PyStr.strip "  SALES " = "SALES" /\ PyStr.strip "PRICE EACH" = "PRICE EACH".
Proof. split; reflexivity. Qed.

Example format_bucket_pads :
  format_bucket 2003 1 = "2003-01" /\ format_bucket 987 12 = "0987-12".
Proof. split; reflexivity. Qed.

Example head_takes_or_drops :
  head 2 [1; 2; 3]%Z = [1; 2]%Z
  /\ head 5 [1; 2; 3]%Z = [1; 2; 3]%Z
  /\ head (-1) [1; 2; 3]%Z = [1; 2]%Z.
Proof. repeat split. Qed.

Lemma endswith_intro (stem suffix : string) :
  PyStr.endswith (stem ++ suffix)%string suffix = true.
Proof.
  induction stem as [|c stem IH].
  - destruct suffix; cbn [PyStr.endswith append]; now rewrite String.eqb_refl.
  - cbn [PyStr.endswith append]. rewrite IH. now destruct (String.eqb _ _).
Qed.

Lemma endswith_elim (s suffix : string) :
  PyStr.endswith s suffix = true -> exists stem, s = (stem ++ suffix)%string.
Proof.
  induction s as [|c s IH]; cbn [PyStr.endswith].
  - destruct (String.eqb EmptyString suffix) eqn:E; [|discriminate].
    apply String.eqb_eq in E. subst. now exists EmptyString.
  - destruct (String.eqb (String c s) suffix) eqn:E.
    + apply String.eqb_eq in E. subst. now exists EmptyString.
    + intros H. destruct (IH H) as [stem ->]. now exists (String c stem).
Qed.

Lemma lower_app (a b : string) :
  PyStr.lower (a ++ b)%string = (PyStr.lower a ++ PyStr.lower b)%string.
Proof. induction a as [|c a IH]; simpl; [reflexivity | now rewrite IH]. Qed.

Lemma lower_split (s a b : string) :
  PyStr.lower s = (a ++ b)%string ->
  exists a' b', s = (a' ++ b')%string /\ PyStr.lower a' = a /\ PyStr.lower b' = b.
Proof.
  revert s. induction a as [|c a IH]; intros s H; simpl in H.
  - exists EmptyString, s. auto.
  - destruct s as [|d s]; simpl in H; [discriminate|].
    injection H as Hc Hs. destruct (IH s Hs) as (a' & b' & -> & <- & <-).
    exists (String d a'), b'. simpl. now rewrite Hc.
Qed.

Lemma lower_char_same_letter (a b : ascii) :
  extension_char b = true -> (PyStr.lower_char a = b <-> same_letter a b).
Proof.
  intros Hb. unfold extension_char in Hb. simpl in Hb.
  repeat rewrite orb_true_iff in Hb.
  assert (E : b = "."%char \/ b = "c"%char \/ b = "s"%char \/ b = "v"%char
              \/ b = "x"%char \/ b = "l"%char).
  { repeat (destruct Hb as [Hb|Hb]; [apply Ascii.eqb_eq in Hb; auto 10|]).
    discriminate. }
  clear Hb. unfold same_letter.
  destruct a as [[] [] [] [] [] [] [] []];
    repeat (destruct E as [E|E]; [subst b; vm_compute; split;
      [intros H; first [discriminate H | (left; reflexivity) | (right; reflexivity)]
      | intros [H|H]; first [discriminate H | reflexivity]] | ]);
    (subst b; vm_compute; split;
      [intros H; first [discriminate H | (left; reflexivity) | (right; reflexivity)]
      | intros [H|H]; first [discriminate H | reflexivity]]).
Qed.

Lemma lower_spells (ext tail : string) :
  extension_chars ext = true -> (PyStr.lower tail = ext <-> spells tail ext).
Proof.
  revert tail. induction ext as [|b ext IH]; intros [|a tail] Hext; simpl;
    try (split; [discriminate | contradiction]); try tauto.
  simpl in Hext. apply andb_true_iff in Hext as [Hb Hext].
  rewrite <- (IH tail Hext), <- (lower_char_same_letter a b Hb).
  split; [intros H; injection H; auto | intros [-> ->]; reflexivity].
Qed.

Lemma has_extension_endswith (path ext : string) :
  extension_chars ext = true ->
  (has_extension path ext <-> PyStr.endswith (PyStr.lower path) ext = true).
Proof.
  intros Hext. split.
  - intros (stem & tail & -> & Hs). apply (lower_spells ext tail Hext) in Hs.
    rewrite lower_app, Hs. apply endswith_intro.
  - intros H. apply endswith_elim in H as [stem H].
    apply lower_split in H as (a & b & -> & _ & Hb).
    exists a, b. split; [reflexivity | now apply (lower_spells ext b Hext)].
Qed.

Lemma last_char_app (a b : string) :
  b <> EmptyString -> last_char (a ++ b)%string = last_char b.
Proof.
  intros Hb. induction a as [|c a IH]; simpl; [reflexivity|].
  rewrite <- IH. destruct (a ++ b)%string eqn:E; [|reflexivity].
  destruct a; simpl in E; [contradiction | discriminate].
Qed.

Lemma endswith_last_char (s suffix : string) :
  suffix <> EmptyString -> PyStr.endswith s suffix = true ->
  last_char s = last_char suffix.
Proof.
  intros Hn H. apply endswith_elim in H as [stem ->]. now apply last_char_app.
Qed.

Lemma csv_excludes_excel (s : string) :
  PyStr.endswith s ".csv" = true ->
  PyStr.endswith_any s [".xlsx"; ".xls"] = false.
Proof.
  intros H. apply endswith_last_char in H; [|discriminate]. simpl in H.
  unfold PyStr.endswith_any. simpl.
  destruct (PyStr.endswith s ".xlsx") eqn:E1.
  { apply endswith_last_char in E1; [|discriminate]. simpl in E1. congruence. }
  destruct (PyStr.endswith s ".xls") eqn:E2.
  { apply endswith_last_char in E2; [|discriminate]. simpl in E2. congruence. }
  reflexivity.
Qed.

(** C10: the extension test of [load_data] ignores the case of the letters.
    A path that ends in ".csv", each letter in either case, is read as CSV
    (this is what "the lowercased path ends in .csv" amounts to); one that
    ends so in ".xlsx" or ".xls" is read as a spreadsheet; a path with none
    of the three endings, and no other, gets the unsupported-format
    [ValueError]. *)
Theorem load_data_ignores_case :
  forall (T : Type) (read_csv_latin1 read_excel : string -> result T)
         (path : string),
    (PyStr.endswith (PyStr.lower path) ".csv" = true
     <-> has_extension path ".csv")
    /\ (has_extension path ".csv" ->
        load_data read_csv_latin1 read_excel path = read_csv_latin1 path)
    /\ (has_extension path ".xlsx" \/ has_extension path ".xls" ->
        load_data read_csv_latin1 read_excel path = read_excel path)
    /\ (~ has_extension path ".csv" -> ~ has_extension path ".xlsx" ->
        ~ has_extension path ".xls" ->
        load_data read_csv_latin1 read_excel path = Raise ValueError).
Proof.
  intros T rc rx path.
  pose proof (has_extension_endswith path ".csv" eq_refl) as Hcsv.
  pose proof (has_extension_endswith path ".xlsx" eq_refl) as Hxlsx.
  pose proof (has_extension_endswith path ".xls" eq_refl) as Hxls.
  unfold load_data. repeat split.
  - apply Hcsv.
  - apply Hcsv.
  - intros H. apply Hcsv in H. now rewrite H.
  - intros H.
    assert (Hany : PyStr.endswith_any (PyStr.lower path) [".xlsx"; ".xls"] = true).
    { unfold PyStr.endswith_any. simpl. apply orb_true_iff.
      destruct H as [H|H]; [left; now apply Hxlsx|right].
      apply orb_true_iff. left. now apply Hxls. }
    destruct (PyStr.endswith (PyStr.lower path) ".csv") eqn:E.
    + apply csv_excludes_excel in E. congruence.
    + now rewrite Hany.
  - intros N1 N2 N3.
    destruct (PyStr.endswith (PyStr.lower path) ".csv") eqn:E1.
    { exfalso. apply N1. now apply Hcsv. }
    unfold PyStr.endswith_any. simpl.
    destruct (PyStr.endswith (PyStr.lower path) ".xlsx") eqn:E2.
    { exfalso. apply N2. now apply Hxlsx. }
    destruct (PyStr.endswith (PyStr.lower path) ".xls") eqn:E3.
    { exfalso. apply N3. now apply Hxls. }
    reflexivity.
Qed.

(** [".CSV"] and [".Xlsx"] are accepted, [".txt"] is not. *)
Example load_data_upper_csv :
  forall (T : Type) (rc rx : string -> result T),
    load_data rc rx "data/SALES.CSV" = rc "data/SALES.CSV"
    /\ load_data rc rx "book.Xlsx" = rx "book.Xlsx"
    /\ load_data rc rx "notes.txt" = Raise ValueError.
Proof. intros. repeat split. Qed.

(** ** Results, lists and frames *)

Lemma bind_Ok {A B : Type} (m : result A) (k : A -> result B) (b : B) :
  bind m k = Ok b -> exists a, m = Ok a /\ k a = Ok b.
Proof. destruct m as [a|e]; simpl; [eauto | discriminate]. Qed.

Lemma Qc_ltb_lt (a b : Qc) : Qc_ltb a b = true <-> (a < b)%Qc.
Proof.
  unfold Qc_ltb. rewrite Qclt_alt. destruct (a ?= b)%Qc; split; congruence.
Qed.

Lemma Qc_leb_le (a b : Qc) : Qc_leb a b = true <-> (a <= b)%Qc.
Proof.
  unfold Qc_leb. rewrite Qcle_alt. destruct (a ?= b)%Qc; split; congruence.
Qed.

Lemma existsb_eqb_In (c : string) (l : list string) :
  existsb (String.eqb c) l = true <-> In c l.
Proof.
  rewrite existsb_exists. split.
  - intros (x & Hx & E). apply String.eqb_eq in E. now subst.
  - intros H. exists c. split; [assumption | apply String.eqb_refl].
Qed.

Lemma has_column_In (c : string) (df : DataFrame) :
  has_column c df = true <-> In c (columns df).
Proof. apply existsb_eqb_In. Qed.

Lemma zip_with_map {A B C : Type} (f : A -> B -> C) (g : A -> B) (l : list A) :
  zip_with f l (map g l) = map (fun a => f a (g a)) l.
Proof. induction l as [|a l IH]; simpl; [reflexivity | now rewrite IH]. Qed.

Lemma filter_combine_map {A : Type} (p : A -> bool) (l : list A) :
  map fst (filter snd (combine l (map p l))) = filter p l.
Proof.
  induction l as [|a l IH]; simpl; [reflexivity|].
  destruct (p a); simpl; now rewrite IH.
Qed.

Lemma boolean_index_rows (df : DataFrame) (p : list cell -> bool) :
  boolean_index df (map p (rows df))
  = {| columns := columns df; rows := filter p (rows df) |}.
Proof. unfold boolean_index. now rewrite filter_combine_map. Qed.

Lemma filter_map_swap {A B : Type} (p : B -> bool) (f : A -> B) (l : list A) :
  filter p (map f l) = map f (filter (fun a => p (f a)) l).
Proof.
  induction l as [|a l IH]; simpl; [reflexivity|].
  destruct (p (f a)); simpl; now rewrite IH.
Qed.

Lemma filter_filter {A : Type} (p q : A -> bool) (l : list A) :
  filter p (filter q l) = filter (fun a => q a && p a) l.
Proof.
  induction l as [|a l IH]; simpl; [reflexivity|].
  destruct (q a); simpl; [destruct (p a)|]; now rewrite IH.
Qed.

(** ** Cells of a row: reading after writing *)

Lemma lookup_store_same (cols : list string) (c : string) (v : cell)
  (r : list cell) :
  In c cols -> List.length r = List.length cols ->
  lookup cols c (store cols c v r) = v.
Proof.
  revert r. induction cols as [|k cols IH]; intros [|x r] Hin Hlen;
    simpl in *; try contradiction; try discriminate.
  destruct (String.eqb k c) eqn:E; [reflexivity|].
  destruct Hin as [->|Hin]; [now rewrite String.eqb_refl in E|].
  apply IH; [assumption | lia].
Qed.

Lemma lookup_store_other (cols : list string) (c c' : string) (v : cell)
  (r : list cell) :
  c <> c' -> lookup cols c' (store cols c v r) = lookup cols c' r.
Proof.
  intros Hne. revert r. induction cols as [|k cols IH]; intros [|x r];
    simpl; try reflexivity.
  destruct (String.eqb k c') eqn:E'; [|apply IH].
  apply String.eqb_eq in E'. subst k.
  destruct (String.eqb c' c) eqn:E; [|reflexivity].
  apply String.eqb_eq in E. congruence.
Qed.

Lemma length_store (cols : list string) (c : string) (v : cell)
  (r : list cell) : List.length (store cols c v r) = List.length r.
Proof.
  revert r. induction cols as [|k cols IH]; intros [|x r]; simpl;
    try reflexivity. now rewrite IH.
Qed.

Lemma lookup_app_same (cols : list string) (c : string) (v : cell)
  (r : list cell) :
  ~ In c cols -> List.length r = List.length cols ->
  lookup (cols ++ [c]) c (r ++ [v]) = v.
Proof.
  revert r. induction cols as [|k cols IH]; intros [|x r] Hin Hlen;
    simpl in *; try discriminate.
  - now rewrite String.eqb_refl.
  - destruct (String.eqb k c) eqn:E.
    + apply String.eqb_eq in E. tauto.
    + apply IH; [tauto | lia].
Qed.

Lemma lookup_app_other (cols : list string) (c c' : string) (v : cell)
  (r : list cell) :
  c <> c' -> List.length r = List.length cols ->
  lookup (cols ++ [c]) c' (r ++ [v]) = lookup cols c' r.
Proof.
  intros Hne. revert r. induction cols as [|k cols IH]; intros [|x r] Hlen;
    simpl in *; try discriminate.
  - destruct (String.eqb c c') eqn:E; [|reflexivity].
    apply String.eqb_eq in E. congruence.
  - destruct (String.eqb k c'); [reflexivity | apply IH; lia].
Qed.

Lemma store_app_new (cols : list string) (c : string) (v w : cell)
  (r : list cell) :
  ~ In c cols -> List.length r = List.length cols ->
  store (cols ++ [c]) c w (r ++ [v]) = r ++ [w].
Proof.
  revert r. induction cols as [|k cols IH]; intros [|x r] Hin Hlen;
    simpl in *; try discriminate.
  - now rewrite String.eqb_refl.
  - destruct (String.eqb k c) eqn:E.
    + apply String.eqb_eq in E. tauto.
    + f_equal. apply IH; [tauto | lia].
Qed.

Lemma count_occ_single (l : list string) (c : string) :
  In c l -> (count_occ string_dec l c <= 1)%nat -> count_occ string_dec l c = 1%nat.
Proof. intros Hin Hle. apply (count_occ_In string_dec) in Hin. lia. Qed.

Lemma NoDup_count_occ_single (l : list string) (c : string) :
  NoDup l -> In c l -> count_occ string_dec l c = 1%nat.
Proof.
  intros Hnd Hin. apply count_occ_single; [assumption|].
  now apply (proj1 (NoDup_count_occ string_dec l)).
Qed.

(** ** The frame operations, row by row *)

Lemma getitem_single (c : string) (df : DataFrame) :
  count_occ string_dec (columns df) c = 1%nat ->
  getitem c df = Ok (ASeries (column c df)).
Proof. unfold getitem. now intros ->. Qed.

Lemma getitem_missing (c : string) (df : DataFrame) :
  ~ In c (columns df) -> getitem c df = Raise KeyError.
Proof.
  intros H. apply (count_occ_not_In string_dec) in H. unfold getitem.
  now rewrite H.
Qed.

Lemma getitem_several (c : string) (df : DataFrame) :
  (2 <= count_occ string_dec (columns df) c)%nat ->
  exists ss, getitem c df = Ok (AFrame ss).
Proof.
  intros H. unfold getitem.
  destruct (count_occ string_dec (columns df) c) as [|[|k]]; try lia.
  eauto.
Qed.

Lemma setitem_present (c : string) (g : list cell -> cell) (df : DataFrame) :
  has_column c df = true ->
  setitem c (map g (rows df)) df
  = {| columns := columns df;
       rows := map (fun r => store (columns df) c (g r) r) (rows df) |}.
Proof. intros H. unfold setitem. now rewrite H, zip_with_map. Qed.

Lemma setitem_absent (c : string) (g : list cell -> cell) (df : DataFrame) :
  has_column c df = false ->
  setitem c (map g (rows df)) df
  = {| columns := columns df ++ [c];
       rows := map (fun r => r ++ [g r]) (rows df) |}.
Proof. intros H. unfold setitem. now rewrite H, zip_with_map. Qed.

Lemma zip_with_maps {A B C D : Type} (f : B -> C -> D) (g : A -> B)
  (h : A -> C) (l : list A) :
  zip_with f (map g l) (map h l) = map (fun a => f (g a) (h a)) l.
Proof. induction l as [|a l IH]; simpl; [reflexivity | now rewrite IH]. Qed.

(** ** The cleaner keeps positive revenue only *)

Lemma strip_labels_text (names : list string) :
  strip_labels (map Text names) = Ok (map PyStr.strip names).
Proof.
  induction names as [|c names IH]; [reflexivity|].
  cbn [map strip_labels strip_label bind]. now rewrite IH.
Qed.

Lemma strip_column_names_text (raw : DataFrame) :
  strip_column_names raw = Ok (trimmed raw).
Proof.
  unfold strip_column_names, raw_of. cbn [labels cells].
  now rewrite strip_labels_text.
Qed.

Section CleanerFacts.

Local Set Default Proof Using "Type".

Variable numeric_of_object : cell -> option Qc.
Variable datetime_of_object : Series -> cell -> option Timestamp.
Context {np : Arithmetic}.

(** On string labels the trimming cannot fail. *)
Lemma clean_data_text (raw : DataFrame) :
  clean_data numeric_of_object datetime_of_object raw
  = (let df := dropna_all (trimmed raw) in
     df <- convert_numeric numeric_of_object QTY_COLUMN df ;;
     df <- convert_numeric numeric_of_object PRICE_COLUMN df ;;
     df <- convert_date datetime_of_object df ;;
     let df := create_sales df in
     df <- clean_sales numeric_of_object df ;;
     Ok df).
Proof. unfold clean_data. now rewrite strip_column_names_text. Qed.

Lemma gt_column (c : string) (df : DataFrame) (x : Qc) :
  gt (column c df) x
  = map (fun r => match lookup (columns df) c r with
                  | Num q => Qc_ltb x q
                  | _ => false
                  end) (rows df).
Proof. unfold gt, column. now rewrite map_map. Qed.

Lemma clean_sales_positive (df out : DataFrame) :
  clean_sales numeric_of_object df = Ok out ->
  In SALES_COLUMN (columns out) ->
  forall r, In r (rows out) ->
    exists q, cell_of out SALES_COLUMN r = Num q /\ (0 < q)%Qc.
Proof.
  unfold clean_sales. destruct (has_column SALES_COLUMN df) eqn:Hs.
  - intros H _ r Hr. apply bind_Ok in H as (df' & _ & H).
    rewrite gt_column, boolean_index_rows in H. injection H as <-.
    simpl in Hr. apply filter_In in Hr as [_ Hr]. unfold cell_of. simpl.
    destruct (lookup (columns df') SALES_COLUMN r); try discriminate.
    eexists. split; [reflexivity | now apply Qc_ltb_lt].
  - intros H Hin. injection H as <-. apply has_column_In in Hin. congruence.
Qed.

(** C1: whatever the raw table, a row that survives [clean_data] holds under
    the revenue column a number that is strictly positive. *)
Theorem clean_data_keeps_positive_revenue :
  forall (raw out : DataFrame),
    clean_data numeric_of_object datetime_of_object raw = Ok out ->
    In SALES_COLUMN (columns out) ->
    forall r, In r (rows out) ->
      exists q, cell_of out SALES_COLUMN r = Num q /\ (0 < q)%Qc.
Proof.
  intros raw out H. unfold clean_data in H.
  apply bind_Ok in H as (df0 & _ & H).
  apply bind_Ok in H as (df1 & _ & H). apply bind_Ok in H as (df2 & _ & H).
  apply bind_Ok in H as (df3 & _ & H). apply bind_Ok in H as (df4 & H & E).
  injection E as <-. now apply clean_sales_positive with (df := create_sales df3).
Qed.

Lemma to_numeric_cell_number (v : cell) :
  (if is_null (to_numeric_cell numeric_of_object v) then Num 0%Qc
   else to_numeric_cell numeric_of_object v)
  = Num (number_or_zero numeric_of_object v).
Proof.
  unfold number_or_zero, to_numeric_cell.
  destruct v; simpl; try reflexivity;
    destruct (numeric_of_object _); reflexivity.
Qed.

Lemma coerce_numeric_rows (c : string) (df : DataFrame) :
  count_occ string_dec (columns df) c = 1%nat ->
  coerce_numeric numeric_of_object c df
  = Ok {| columns := columns df;
          rows := map (fun r => store (columns df) c
                     (Num (number_or_zero numeric_of_object
                             (lookup (columns df) c r))) r) (rows df) |}.
Proof.
  intros H. unfold coerce_numeric. rewrite (getitem_single _ _ H). simpl.
  unfold fillna, column. rewrite !map_map.
  rewrite (map_ext _ _ (fun r => to_numeric_cell_number (lookup (columns df) c r))).
  rewrite (setitem_present c (fun r => Num (number_or_zero numeric_of_object
             (lookup (columns df) c r)))); [reflexivity|].
  apply has_column_In, (count_occ_In string_dec). lia.
Qed.

Lemma coerce_numeric_several (c : string) (df : DataFrame) :
  (2 <= count_occ string_dec (columns df) c)%nat ->
  coerce_numeric numeric_of_object c df = Raise TypeError.
Proof.
  intros H. unfold coerce_numeric.
  destruct (getitem_several c df H) as [ss ->]. reflexivity.
Qed.

Lemma map_column {A : Type} (f : cell -> A) (c : string) (df : DataFrame) :
  map f (column c df) = map (fun r => f (lookup (columns df) c r)) (rows df).
Proof. unfold column. apply map_map. Qed.

Lemma convert_numeric_rows (c : string) (df : DataFrame) :
  (count_occ string_dec (columns df) c <= 1)%nat ->
  convert_numeric numeric_of_object c df
  = Ok {| columns := columns df;
          rows := map (coerced_row numeric_of_object (columns df) c) (rows df) |}.
Proof.
  intros H. unfold convert_numeric, has_column, coerced_row, named.
  destruct (existsb (String.eqb c) (columns df)) eqn:E.
  - apply coerce_numeric_rows, count_occ_single; [|assumption].
    now apply existsb_eqb_In.
  - rewrite map_id. now destruct df.
Qed.

Lemma convert_date_rows (df : DataFrame) :
  (count_occ string_dec (columns df) DATE_COLUMN <= 1)%nat ->
  convert_date datetime_of_object df
  = Ok {| columns := columns df;
          rows := filter (dated (columns df))
                    (map (dated_row datetime_of_object (columns df)
                            (column DATE_COLUMN df)) (rows df)) |}.
Proof.
  intros H. unfold convert_date, has_column, dated, dated_row, named.
  destruct (existsb (String.eqb DATE_COLUMN) (columns df)) eqn:E.
  - assert (H1 : count_occ string_dec (columns df) DATE_COLUMN = 1%nat).
    { apply count_occ_single; [now apply existsb_eqb_In | assumption]. }
    rewrite (getitem_single _ _ H1). cbn [bind to_datetime].
    rewrite (map_column (to_datetime_cell datetime_of_object
                           (column DATE_COLUMN df))).
    rewrite (setitem_present DATE_COLUMN
               (fun r => to_datetime_cell datetime_of_object
                           (column DATE_COLUMN df)
                           (lookup (columns df) DATE_COLUMN r)) df E).
    unfold notna. rewrite map_column. cbn [columns rows].
    now rewrite boolean_index_rows.
  - rewrite map_id. cbn [negb orb].
    rewrite forallb_filter_id; [now destruct df|].
    now apply forallb_forall.
Qed.

Lemma derives_revenue_has (df : DataFrame) :
  negb (has_column SALES_COLUMN df)
  && forallb (fun col => has_column col df) [QTY_COLUMN; PRICE_COLUMN]
  = derives_revenue (columns df).
Proof.
  unfold derives_revenue, named, has_column. cbn [forallb].
  now rewrite andb_true_r, andb_assoc.
Qed.

Lemma create_sales_rows (df : DataFrame) :
  create_sales df
  = {| columns := clean_names (columns df);
       rows := map (derived_row (columns df)) (rows df) |}.
Proof.
  unfold create_sales, clean_names, derived_row. rewrite derives_revenue_has.
  destruct (derives_revenue (columns df)) eqn:E.
  - unfold mul, column. rewrite zip_with_maps.
    apply (setitem_absent SALES_COLUMN
             (fun r => mul_cell (lookup (columns df) QTY_COLUMN r)
                                (lookup (columns df) PRICE_COLUMN r))).
    unfold derives_revenue, named in E. unfold has_column.
    now destruct (existsb (String.eqb SALES_COLUMN) (columns df)).
  - rewrite map_id. now destruct df.
Qed.

Lemma clean_sales_rows (df : DataFrame) :
  (count_occ string_dec (columns df) SALES_COLUMN <= 1)%nat ->
  clean_sales numeric_of_object df
  = Ok {| columns := columns df;
          rows := filter (sold (columns df))
                    (map (coerced_row numeric_of_object (columns df)
                            SALES_COLUMN) (rows df)) |}.
Proof.
  intros H. unfold clean_sales, has_column, sold, coerced_row, named.
  destruct (existsb (String.eqb SALES_COLUMN) (columns df)) eqn:E.
  - rewrite coerce_numeric_rows.
    2:{ apply count_occ_single; [now apply existsb_eqb_In | assumption]. }
    cbn [bind]. rewrite gt_column. cbn [columns rows].
    now rewrite boolean_index_rows.
  - rewrite map_id. cbn [negb orb].
    rewrite forallb_filter_id; [now destruct df|].
    now apply forallb_forall.
Qed.

(** ** The cleaner, stage by stage, against its row-wise account *)

Lemma labels_distinct :
  QTY_COLUMN <> PRICE_COLUMN /\ QTY_COLUMN <> DATE_COLUMN
  /\ QTY_COLUMN <> SALES_COLUMN /\ PRICE_COLUMN <> DATE_COLUMN
  /\ PRICE_COLUMN <> SALES_COLUMN /\ DATE_COLUMN <> SALES_COLUMN.
Proof. repeat split; discriminate. Qed.

Lemma named_In (names : list string) (c : string) :
  named names c = true <-> In c names.
Proof. apply existsb_eqb_In. Qed.

Lemma named_false (names : list string) (c : string) :
  named names c = false <-> ~ In c names.
Proof.
  rewrite <- named_In. destruct (named names c); split; congruence.
Qed.

Lemma named_clean_names (names : list string) :
  named (clean_names names) SALES_COLUMN
  = named names SALES_COLUMN || derives_revenue names.
Proof.
  unfold clean_names. destruct (derives_revenue names) eqn:E.
  - rewrite orb_true_r. apply named_In, in_or_app. right. now left.
  - now rewrite orb_false_r.
Qed.

Lemma count_clean_names (names : list string) :
  (count_occ string_dec names SALES_COLUMN <= 1)%nat ->
  (count_occ string_dec (clean_names names) SALES_COLUMN <= 1)%nat.
Proof.
  intros H. unfold clean_names. destruct (derives_revenue names) eqn:E;
    [|assumption].
  rewrite count_occ_app. cbn [count_occ].
  destruct (string_dec SALES_COLUMN SALES_COLUMN); [|congruence].
  unfold derives_revenue in E.
  destruct (named names SALES_COLUMN) eqn:Es; [discriminate|].
  apply named_false, (count_occ_not_In string_dec) in Es. lia.
Qed.

Lemma staged_rows {A : Type} (p0 p3 p5 : A -> bool) (f1 f2 f3 f4 f5 : A -> A)
  (l : list A) :
  filter p5 (map f5 (map f4 (filter p3 (map f3 (map f2 (map f1 (filter p0 l)))))))
  = map (fun r => f5 (f4 (f3 (f2 (f1 r)))))
      (filter (fun r => p0 r && (p3 (f3 (f2 (f1 r)))
                                 && p5 (f5 (f4 (f3 (f2 (f1 r))))))) l).
Proof.
  rewrite !map_map, (filter_map_swap p3), map_map, filter_map_swap.
  rewrite !filter_filter. reflexivity.
Qed.

Section OneRow.

Variable names : list string.
Variable dates : Series.
Variable r : list cell.
Hypothesis Hlen : List.length r = List.length names.

Lemma date_after_numbers :
  lookup names DATE_COLUMN
    (coerced_row numeric_of_object names PRICE_COLUMN
       (coerced_row numeric_of_object names QTY_COLUMN r))
  = lookup names DATE_COLUMN r.
Proof.
  destruct labels_distinct as (? & ? & ? & ? & ? & ?).
  unfold coerced_row. destruct (named names QTY_COLUMN), (named names PRICE_COLUMN);
    now rewrite ?lookup_store_other by assumption.
Qed.

Lemma number_or_zero_Num (q : Qc) :
  number_or_zero numeric_of_object (Num q) = q.
Proof. reflexivity. Qed.

Ltac cells :=
  repeat first
    [ rewrite length_store
    | rewrite lookup_store_other by congruence
    | rewrite lookup_store_same by (rewrite ?length_store; assumption)
    | rewrite lookup_app_other by (rewrite ?length_store; congruence)
    | rewrite lookup_app_same by (rewrite ?length_store; assumption)
    | rewrite store_app_new by (rewrite ?length_store; assumption)
    | rewrite number_or_zero_Num ].

Lemma staged_row_clean :
  coerced_row numeric_of_object (clean_names names) SALES_COLUMN
    (derived_row names
       (dated_row datetime_of_object names dates
          (coerced_row numeric_of_object names PRICE_COLUMN
             (coerced_row numeric_of_object names QTY_COLUMN r))))
  = clean_row numeric_of_object datetime_of_object names dates r.
Proof using Type Hlen.
  destruct labels_distinct as (? & ? & ? & ? & ? & ?).
  unfold coerced_row, derived_row, dated_row, clean_row, revenue, quantity,
    price, date_read.
  rewrite named_clean_names. unfold clean_names, derives_revenue.
  destruct (named names QTY_COLUMN) eqn:Eq;
    destruct (named names PRICE_COLUMN) eqn:Ep;
    destruct (named names DATE_COLUMN) eqn:Ed;
    destruct (named names SALES_COLUMN) eqn:Es;
    cbn [negb andb orb];
    repeat match goal with
           | H : named _ _ = true |- _ => apply (proj1 (named_In _ _)) in H
           | H : named _ _ = false |- _ => apply (proj1 (named_false _ _)) in H
           end;
    cells; try reflexivity.
Qed.

Ltac flags :=
  repeat match goal with
         | H : named _ _ = true |- _ => apply (proj1 (named_In _ _)) in H
         | H : named _ _ = false |- _ => apply (proj1 (named_false _ _)) in H
         end.

Ltac by_flags :=
  destruct labels_distinct as (? & ? & ? & ? & ? & ?);
  unfold clean_row, clean_names, revenue, quantity, price, date_read,
    derives_revenue in *;
  destruct (named names QTY_COLUMN) eqn:Eq;
  destruct (named names PRICE_COLUMN) eqn:Ep;
  destruct (named names DATE_COLUMN) eqn:Ed;
  destruct (named names SALES_COLUMN) eqn:Es;
  cbn [negb andb orb] in *; try discriminate; flags; cells; try reflexivity.

Lemma clean_row_length :
  List.length (clean_row numeric_of_object datetime_of_object names dates r)
  = List.length (clean_names names).
Proof using Type Hlen. by_flags; rewrite ?length_app; cells; cbn [List.length]; lia. Qed.

Lemma clean_row_quantity :
  named names QTY_COLUMN = true ->
  lookup (clean_names names) QTY_COLUMN
    (clean_row numeric_of_object datetime_of_object names dates r)
  = Num (quantity numeric_of_object names r).
Proof using Type Hlen. intros H. by_flags. Qed.

Lemma clean_row_price :
  named names PRICE_COLUMN = true ->
  lookup (clean_names names) PRICE_COLUMN
    (clean_row numeric_of_object datetime_of_object names dates r)
  = Num (price numeric_of_object names r).
Proof using Type Hlen. intros H. by_flags. Qed.

Lemma clean_row_date :
  named names DATE_COLUMN = true ->
  lookup (clean_names names) DATE_COLUMN
    (clean_row numeric_of_object datetime_of_object names dates r)
  = date_read datetime_of_object names dates r.
Proof using Type Hlen. intros H. by_flags. Qed.

Lemma clean_row_revenue :
  named names SALES_COLUMN || derives_revenue names = true ->
  lookup (clean_names names) SALES_COLUMN
    (clean_row numeric_of_object datetime_of_object names dates r)
  = Num (revenue numeric_of_object names r).
Proof using Type Hlen. intros H. by_flags. Qed.

Lemma staged_row_dated :
  dated names
    (dated_row datetime_of_object names dates
       (coerced_row numeric_of_object names PRICE_COLUMN
          (coerced_row numeric_of_object names QTY_COLUMN r)))
  = negb (named names DATE_COLUMN)
    || negb (is_null (date_read datetime_of_object names dates r)).
Proof using Type Hlen.
  unfold dated, dated_row.
  destruct (named names DATE_COLUMN) eqn:Ed; [|reflexivity].
  cbn [negb orb].
  rewrite lookup_store_same, date_after_numbers; [reflexivity | | ].
  - now apply named_In.
  - unfold coerced_row.
    destruct (named names QTY_COLUMN), (named names PRICE_COLUMN);
      now rewrite ?length_store.
Qed.

Lemma staged_row_sold :
  sold (clean_names names)
    (coerced_row numeric_of_object (clean_names names) SALES_COLUMN
       (derived_row names
          (dated_row datetime_of_object names dates
             (coerced_row numeric_of_object names PRICE_COLUMN
                (coerced_row numeric_of_object names QTY_COLUMN r)))))
  = negb (named names SALES_COLUMN || derives_revenue names)
    || Qc_ltb 0%Qc (revenue numeric_of_object names r).
Proof using Type Hlen.
  unfold sold. rewrite staged_row_clean, named_clean_names.
  destruct (named names SALES_COLUMN || derives_revenue names) eqn:E;
    [|reflexivity].
  now rewrite clean_row_revenue.
Qed.

End OneRow.

Lemma labels_unambiguous_count (raw : DataFrame) (c : string) :
  labels_unambiguous raw ->
  In c [QTY_COLUMN; PRICE_COLUMN; DATE_COLUMN; SALES_COLUMN] ->
  (count_occ string_dec (map PyStr.strip (columns raw)) c <= 1)%nat.
Proof. intros H. apply H. Qed.

Lemma rectangular_length (raw : DataFrame) (r : list cell) :
  rectangular raw -> In r (rows raw) ->
  List.length r = List.length (map PyStr.strip (columns raw)).
Proof.
  intros H Hin. rewrite length_map.
  unfold rectangular in H. rewrite Forall_forall in H. now apply H.
Qed.

(** The stages of [clean_data] amount to the row-wise account, as soon as
    no configured name is ambiguous. *)
Lemma clean_data_rowwise (raw : DataFrame) :
  rectangular raw -> labels_unambiguous raw ->
  clean_data numeric_of_object datetime_of_object raw
  = Ok (clean_table numeric_of_object datetime_of_object raw).
Proof.
  intros Hrect Hu. rewrite clean_data_text. unfold trimmed, dropna_all.
  cbn [columns rows].
  set (names := map PyStr.strip (columns raw)).
  rewrite convert_numeric_rows
    by (apply (labels_unambiguous_count raw); [assumption | simpl; tauto]).
  cbn [bind columns rows].
  rewrite convert_numeric_rows
    by (apply (labels_unambiguous_count raw); [assumption | simpl; tauto]).
  cbn [bind columns rows].
  rewrite convert_date_rows
    by (apply (labels_unambiguous_count raw); [assumption | simpl; tauto]).
  cbn [bind columns rows].
  rewrite create_sales_rows. cbn [columns rows].
  rewrite clean_sales_rows
    by (apply count_clean_names, (labels_unambiguous_count raw);
        [assumption | simpl; tauto]).
  cbn [bind columns rows]. unfold clean_table, date_context. fold names.
  f_equal. f_equal.
  unfold column. cbn [columns rows].
  match goal with
  | |- context [map (lookup names DATE_COLUMN) (map ?g (map ?f ?l))] =>
      replace (map (lookup names DATE_COLUMN) (map g (map f l)))
        with (map (lookup names DATE_COLUMN) l)
        by (rewrite !map_map; symmetry; apply map_ext; intros;
            apply date_after_numbers)
  end.
  set (dates := map (lookup names DATE_COLUMN) _).
  rewrite staged_rows.
  rewrite (filter_ext_in _
             (survives numeric_of_object datetime_of_object names dates)).
  - apply map_ext_in. intros r Hr. apply filter_In in Hr as [Hr _].
    apply staged_row_clean. now apply rectangular_length.
  - intros r Hr. unfold survives.
    rewrite (staged_row_dated names dates r), (staged_row_sold names dates r)
      by now apply rectangular_length.
    now rewrite andb_assoc.
Qed.

(** Conversely, the cleaner returns only when no configured name is
    ambiguous. *)
Lemma convert_numeric_Ok (c : string) (df out : DataFrame) :
  convert_numeric numeric_of_object c df = Ok out ->
  (count_occ string_dec (columns df) c <= 1)%nat.
Proof.
  intros H. destruct (le_lt_dec (count_occ string_dec (columns df) c) 1)
    as [Hle|Hgt]; [assumption|].
  unfold convert_numeric in H.
  rewrite (proj2 (has_column_In c df)) in H
    by (apply (count_occ_In string_dec); lia).
  rewrite coerce_numeric_several in H by lia. discriminate.
Qed.

Lemma convert_date_Ok (df out : DataFrame) :
  convert_date datetime_of_object df = Ok out ->
  (count_occ string_dec (columns df) DATE_COLUMN <= 1)%nat.
Proof.
  intros H.
  destruct (le_lt_dec (count_occ string_dec (columns df) DATE_COLUMN) 1)
    as [Hle|Hgt]; [assumption|].
  unfold convert_date in H.
  rewrite (proj2 (has_column_In DATE_COLUMN df)) in H
    by (apply (count_occ_In string_dec); lia).
  destruct (getitem_several DATE_COLUMN df) as [ss E]; [lia|].
  rewrite E in H. discriminate.
Qed.

Lemma clean_sales_Ok (df out : DataFrame) :
  clean_sales numeric_of_object df = Ok out ->
  (count_occ string_dec (columns df) SALES_COLUMN <= 1)%nat.
Proof.
  intros H.
  destruct (le_lt_dec (count_occ string_dec (columns df) SALES_COLUMN) 1)
    as [Hle|Hgt]; [assumption|].
  unfold clean_sales in H.
  rewrite (proj2 (has_column_In SALES_COLUMN df)) in H
    by (apply (count_occ_In string_dec); lia).
  rewrite coerce_numeric_several in H by lia. discriminate.
Qed.

Lemma count_clean_names_ge (names : list string) :
  (count_occ string_dec names SALES_COLUMN
   <= count_occ string_dec (clean_names names) SALES_COLUMN)%nat.
Proof.
  unfold clean_names. destruct (derives_revenue names); [|lia].
  rewrite count_occ_app. lia.
Qed.

Lemma clean_data_Ok_unambiguous (raw out : DataFrame) :
  clean_data numeric_of_object datetime_of_object raw = Ok out ->
  labels_unambiguous raw.
Proof.
  rewrite clean_data_text. unfold trimmed, dropna_all. cbn [columns rows].
  set (names := map PyStr.strip (columns raw)). intros H.
  apply bind_Ok in H as (df1 & H1 & H).
  pose proof (convert_numeric_Ok _ _ _ H1) as Hq. cbn [columns] in Hq.
  rewrite convert_numeric_rows in H1 by assumption. injection H1 as <-.
  apply bind_Ok in H as (df2 & H2 & H).
  pose proof (convert_numeric_Ok _ _ _ H2) as Hp. cbn [columns] in Hp.
  rewrite convert_numeric_rows in H2 by assumption. injection H2 as <-.
  apply bind_Ok in H as (df3 & H3 & H).
  pose proof (convert_date_Ok _ _ H3) as Hd. cbn [columns] in Hd.
  rewrite convert_date_rows in H3 by assumption. injection H3 as <-.
  apply bind_Ok in H as (df4 & H4 & _).
  pose proof (clean_sales_Ok _ _ H4) as Hs.
  rewrite create_sales_rows in Hs. cbn [columns] in Hs.
  pose proof (count_clean_names_ge names) as Hge.
  intros c [<-|[<-|[<-|[<-|[]]]]]; fold names; first [assumption | lia].
Qed.

Lemma clean_data_Ok_rowwise (raw out : DataFrame) :
  rectangular raw ->
  clean_data numeric_of_object datetime_of_object raw = Ok out ->
  out = clean_table numeric_of_object datetime_of_object raw.
Proof.
  intros Hrect H. pose proof (clean_data_Ok_unambiguous raw out H) as Hu.
  rewrite (clean_data_rowwise raw Hrect Hu) in H. now injection H.
Qed.

Lemma date_read_cases (names : list string) (dates : Series) (r : list cell) :
  is_null (date_read datetime_of_object names dates r) = false ->
  exists d, date_read datetime_of_object names dates r = Date d.
Proof.
  unfold date_read, to_datetime_cell.
  destruct (lookup names DATE_COLUMN r); simpl; try discriminate; eauto;
    destruct (datetime_of_object dates _); simpl; try discriminate; eauto.
Qed.

Lemma clean_table_row (raw : DataFrame) (r : list cell) :
  In r (rows (clean_table numeric_of_object datetime_of_object raw)) ->
  exists r0 dates,
    In r0 (rows raw)
    /\ survives numeric_of_object datetime_of_object
         (map PyStr.strip (columns raw)) dates r0 = true
    /\ r = clean_row numeric_of_object datetime_of_object
             (map PyStr.strip (columns raw)) dates r0.
Proof.
  unfold clean_table. cbn [rows]. intros H.
  apply in_map_iff in H as (r0 & <- & H). apply filter_In in H as [H1 H2].
  eauto.
Qed.


(** When the cleaner returns, and what it returns then. *)
Lemma clean_data_returns_iff (raw : DataFrame) :
  rectangular raw ->
  ((exists out, clean_data numeric_of_object datetime_of_object raw = Ok out)
   <-> labels_unambiguous raw).
Proof.
  intros Hrect. split.
  - intros [out H]. now apply clean_data_Ok_unambiguous with out.
  - intros Hu. eexists. now apply clean_data_rowwise.
Qed.

Lemma cleaned_revenue_is_numeric (raw out : DataFrame) :
  clean_data numeric_of_object datetime_of_object raw = Ok out ->
  In SALES_COLUMN (columns out) ->
  revenue_is_numeric out.
Proof.
  intros H Hin r Hr. unfold clean_data in H.
  apply bind_Ok in H as (df0 & _ & H).
  apply bind_Ok in H as (df1 & _ & H). apply bind_Ok in H as (df2 & _ & H).
  apply bind_Ok in H as (df3 & _ & H). apply bind_Ok in H as (df4 & H & E).
  injection E as <-.
  destruct (clean_sales_positive (create_sales df3) df4 H Hin r Hr)
    as (q & Hq & _).
  now exists q.
Qed.

(** C8, amended: [clean_data] returns a table for every raw table whose
    labels are strings and in which, the names trimmed, none of the four
    configured names is borne by two columns.  The result is the row-wise
    account of the cleaner: a quantity, price or revenue that cannot be read
    as a number counts as 0 and stays in its row as that number; a row is
    dropped when it is empty, when its date cannot be read, or when its
    revenue, in the arithmetic of its column, is not positive. *)
Theorem clean_data_returns_when_unambiguous :
  forall (raw : DataFrame),
    rectangular raw ->
    labels_unambiguous raw ->
    exists out,
      clean_data numeric_of_object datetime_of_object raw = Ok out
      /\ columns out = clean_names (map PyStr.strip (columns raw))
      /\ rows out
         = map (clean_row numeric_of_object datetime_of_object
                  (map PyStr.strip (columns raw)) (date_context raw))
             (filter (survives numeric_of_object datetime_of_object
                        (map PyStr.strip (columns raw)) (date_context raw)) (rows raw))
      /\ (forall v, to_numeric_cell numeric_of_object v = Null ->
            number_or_zero numeric_of_object v = 0%Qc)
      /\ (forall r0, In r0 (rows raw) ->
            survives numeric_of_object datetime_of_object
              (map PyStr.strip (columns raw)) (date_context raw) r0 = true ->
            forall c, In c [QTY_COLUMN; PRICE_COLUMN] ->
              In c (map PyStr.strip (columns raw)) ->
              cell_of out c
                (clean_row numeric_of_object datetime_of_object
                   (map PyStr.strip (columns raw)) (date_context raw) r0)
              = Num (number_or_zero numeric_of_object
                       (lookup (map PyStr.strip (columns raw)) c r0)))
      /\ (forall r0, In DATE_COLUMN (map PyStr.strip (columns raw)) ->
            date_read datetime_of_object
              (map PyStr.strip (columns raw)) (date_context raw) r0 = Null ->
            survives numeric_of_object datetime_of_object
              (map PyStr.strip (columns raw)) (date_context raw) r0 = false).
Proof.
  intros raw Hrect Hu.
  exists (clean_table numeric_of_object datetime_of_object raw).
  set (names := map PyStr.strip (columns raw)).
  split; [now apply clean_data_rowwise|].
  split; [reflexivity|]. split; [reflexivity|]. split; [|split].
  - intros v Hv. unfold number_or_zero. now rewrite Hv.
  - intros r0 Hin _ c Hc Hnamed.
    pose proof (rectangular_length raw r0 Hrect Hin) as Hlen. fold names in Hlen.
    apply named_In in Hnamed. unfold cell_of, clean_table. fold names.
    cbn [columns].
    destruct Hc as [<-|[<-|[]]];
      [now rewrite clean_row_quantity | now rewrite clean_row_price].
  - intros r0 Hd Hnull. apply named_In in Hd. unfold survives.
    rewrite Hd, Hnull. cbn. now rewrite andb_false_r.
Qed.

End CleanerFacts.

(** ** Aggregations over a table without revenue *)

Section AggregationFacts.

Context {np : Arithmetic}.

Lemma setitem_columns (c : string) (s : Series) (df : DataFrame) :
  columns (setitem c s df) = with_column c (columns df).
Proof.
  unfold setitem, with_column, has_column.
  now destruct (existsb (String.eqb c) (columns df)).
Qed.

Lemma In_with_column (c x : string) (cols : list string) :
  In x (with_column c cols) <-> x = c \/ In x cols.
Proof.
  unfold with_column. destruct (existsb (String.eqb c) cols) eqn:E.
  - apply existsb_eqb_In in E. split; [auto | intros [->|H]; assumption].
  - rewrite in_app_iff. simpl. intuition.
Qed.

Lemma NoDup_with_column (c : string) (cols : list string) :
  NoDup cols -> NoDup (with_column c cols).
Proof.
  intros H. unfold with_column. destruct (existsb (String.eqb c) cols) eqn:E;
    [assumption|].
  apply NoDup_app; [assumption | repeat constructor; auto |].
  intros x Hx [<-|[]]. apply existsb_eqb_In in Hx. congruence.
Qed.

Lemma grouper_single (c : string) (df : DataFrame) :
  NoDup (columns df) -> In c (columns df) ->
  GroupBy.grouper c df = Ok (column c df).
Proof.
  intros Hnd Hin. unfold GroupBy.grouper.
  now rewrite getitem_single by now apply NoDup_count_occ_single.
Qed.

Lemma aggregations_need_revenue (df : DataFrame) :
  NoDup (columns df) -> ~ In SALES_COLUMN (columns df) ->
  get_basic_stats df = Raise KeyError
  /\ (forall top_n, get_top_products df top_n = Raise KeyError)
  /\ get_monthly_trends df = Raise KeyError.
Proof.
  intros Hnd Hs. pose proof (getitem_missing _ _ Hs) as E. repeat split.
  - unfold get_basic_stats. now rewrite E.
  - intros top_n. unfold get_top_products.
    destruct (has_column PRODUCT_COLUMN df) eqn:Hp; [|reflexivity].
    cbn [negb]. apply has_column_In in Hp.
    now rewrite (grouper_single _ _ Hnd Hp), E.
  - unfold get_monthly_trends.
    destruct (has_column "YearMonth" df) eqn:Hp; [|reflexivity].
    cbn [negb]. apply has_column_In in Hp.
    now rewrite (grouper_single _ _ Hnd Hp), E.
Qed.

Lemma add_time_features_columns (df out : DataFrame) :
  add_time_features df = Ok out ->
  columns out
  = with_column "YearMonth" (with_column "Month" (with_column "Year" (columns df))).
Proof.
  unfold add_time_features. destruct (negb (has_column DATE_COLUMN df));
    [discriminate|].
  intros H.
  apply bind_Ok in H as (x1 & _ & H). apply bind_Ok in H as (t1 & _ & H).
  apply bind_Ok in H as (x2 & _ & H). apply bind_Ok in H as (t2 & _ & H).
  apply bind_Ok in H as (x3 & _ & H). apply bind_Ok in H as (t3 & _ & H).
  injection H as <-. now rewrite !setitem_columns.
Qed.

Lemma NoDup_count_le (l : list string) (c : string) :
  NoDup l -> (count_occ string_dec l c <= 1)%nat.
Proof. intros H. now apply (proj1 (NoDup_count_occ string_dec l)). Qed.

(** ** Summary statistics of an empty table *)

(** C5: on a table with a revenue column and no rows, [get_basic_stats]
    returns: the row count is 0, the total revenue is 0, and the average is
    not-a-number, which is no number at all, 0 included. *)
Theorem get_basic_stats_empty :
  forall (df : DataFrame),
    NoDup (columns df) ->
    In SALES_COLUMN (columns df) ->
    rows df = [] ->
    exists stats,
      get_basic_stats df = Ok stats
      /\ total_rows stats = 0%Z
      /\ total_revenue stats = real 0%Qc
      /\ avg_order_value stats = nan
      /\ (forall q, avg_order_value stats <> real q).
Proof.
  intros df Hnd Hs Hrows. unfold get_basic_stats.
  rewrite (getitem_single SALES_COLUMN df)
    by now apply NoDup_count_occ_single.
  unfold column. rewrite Hrows. cbn [map bind series_sum series_mean
    GroupBy.addends List.concat sum_present mean_present].
  destruct (has_column PRODUCT_COLUMN df) eqn:Hp.
  - apply has_column_In in Hp.
    rewrite (getitem_single PRODUCT_COLUMN df)
      by now apply NoDup_count_occ_single.
    unfold column. rewrite Hrows. cbn.
    eexists. split; [reflexivity|]. cbn. repeat split. discriminate.
  - eexists. split; [reflexivity|]. cbn. repeat split. discriminate.
Qed.

(** ** Time features *)

Lemma setitem_with_cell (c : string) (g : list cell -> cell) (df : DataFrame) :
  setitem c (map g (rows df)) df
  = {| columns := with_column c (columns df);
       rows := map (fun r => with_cell (columns df) c (g r) r) (rows df) |}.
Proof.
  unfold with_column, with_cell.
  destruct (existsb (String.eqb c) (columns df)) eqn:E.
  - now apply setitem_present.
  - now apply setitem_absent.
Qed.

Lemma lookup_with_cell_same (cols : list string) (c : string) (v : cell)
  (r : list cell) :
  List.length r = List.length cols ->
  lookup (with_column c cols) c (with_cell cols c v r) = v.
Proof.
  intros Hlen. unfold with_column, with_cell.
  destruct (existsb (String.eqb c) cols) eqn:E.
  - apply lookup_store_same; [now apply existsb_eqb_In | assumption].
  - apply lookup_app_same; [|assumption].
    rewrite <- existsb_eqb_In. congruence.
Qed.

Lemma lookup_with_cell_other (cols : list string) (c c' : string) (v : cell)
  (r : list cell) :
  c <> c' -> List.length r = List.length cols ->
  lookup (with_column c cols) c' (with_cell cols c v r) = lookup cols c' r.
Proof.
  intros Hne Hlen. unfold with_column, with_cell.
  destruct (existsb (String.eqb c) cols).
  - now apply lookup_store_other.
  - now apply lookup_app_other.
Qed.

Lemma length_with_cell (cols : list string) (c : string) (v : cell)
  (r : list cell) :
  List.length r = List.length cols ->
  List.length (with_cell cols c v r) = List.length (with_column c cols).
Proof.
  intros Hlen. unfold with_column, with_cell.
  destruct (existsb (String.eqb c) cols).
  - now rewrite length_store.
  - rewrite !length_app. simpl. lia.
Qed.

Lemma count_occ_with_column_other (cols : list string) (c c' : string) :
  c <> c' ->
  count_occ string_dec (with_column c cols) c' = count_occ string_dec cols c'.
Proof.
  intros Hne. unfold with_column. destruct (existsb (String.eqb c) cols);
    [reflexivity|].
  rewrite count_occ_app. cbn [count_occ].
  destruct (string_dec c c'); [contradiction | lia].
Qed.

Lemma timestamps_all (s : Series) :
  (forall v, In v s -> exists t, v = Date t) ->
  timestamps s = Some (map the_timestamp s).
Proof.
  induction s as [|v s IH]; intros H; [reflexivity|].
  destruct (H v (or_introl eq_refl)) as [t ->]. cbn [timestamps map].
  rewrite IH; [reflexivity|]. intros w Hw. apply H. now right.
Qed.

Lemma time_feature_step (feats : list (string * (Timestamp -> cell)))
  (c : string) (g : Timestamp -> cell) (df : DataFrame) :
  featured_by feats df ->
  c <> DATE_COLUMN ->
  ~ In c (map fst feats) ->
  exists df',
    (forall k, time_step c g k df = k df')
    /\ featured_by ((c, g) :: feats) df'
    /\ column DATE_COLUMN df' = column DATE_COLUMN df.
Proof.
  intros (Hrect & Hcount & Hrows) Hc Hfresh.
  set (feat := fun r => g (the_timestamp (lookup (columns df) DATE_COLUMN r))).
  exists {| columns := with_column c (columns df);
            rows := map (fun r => with_cell (columns df) c (feat r) r) (rows df) |}.
  unfold rectangular in Hrect. rewrite Forall_forall in Hrect.
  split; [|split].
  - intros k. unfold time_step. rewrite (getitem_single _ _ Hcount).
    cbn [bind dt]. rewrite timestamps_all.
    2:{ intros v Hv. unfold column in Hv. apply in_map_iff in Hv as (r & <- & Hr).
        destruct (Hrows r Hr) as (t & Ht & _). eauto. }
    cbn [bind]. unfold column. rewrite !map_map.
    exact (f_equal k (setitem_with_cell c feat df)).
  - split; [|split].
    + unfold rectangular. cbn [columns rows]. apply Forall_forall.
      intros r' Hr'. apply in_map_iff in Hr' as (r & <- & Hr).
      apply length_with_cell. now apply Hrect.
    + cbn [columns]. now rewrite count_occ_with_column_other.
    + cbn [columns rows]. intros r' Hr'.
      apply in_map_iff in Hr' as (r & <- & Hr).
      destruct (Hrows r Hr) as (t & Ht & Hf). exists t.
      pose proof (Hrect r Hr) as Hlen.
      split; [now rewrite lookup_with_cell_other|].
      intros c' g' [E|Hin].
      * injection E as <- <-. rewrite lookup_with_cell_same by assumption.
        unfold feat. now rewrite Ht.
      * rewrite lookup_with_cell_other; [now apply Hf | | assumption].
        intros <-. apply Hfresh. apply in_map_iff. now exists (c, g').
  - unfold column. cbn [columns rows]. rewrite map_map. apply map_ext_in.
    intros r Hr. apply lookup_with_cell_other; [assumption | now apply Hrect].
Qed.

Lemma range_check (p : Z -> bool) (a n : Z) :
  forallb p (map (fun i => (a + Z.of_nat i)%Z) (seq 0 (Z.to_nat n))) = true ->
  forall y, (a <= y < a + n)%Z -> p y = true.
Proof.
  intros H y Hy. rewrite forallb_forall in H. apply H.
  apply in_map_iff. exists (Z.to_nat (y - a)). split; [lia|].
  apply in_seq. lia.
Qed.

Lemma period_M_str_format (t : Timestamp) :
  period_M_str t = format_bucket (year t) (month t).
Proof. reflexivity. Qed.

(** The text of a number below 10000 on four digits, and of one below 100
    on two, digit by digit. *)
Lemma format_0d_four_digits (y : Z) :
  (0 <= y <= 9999)%Z ->
  PyStr.format_0d 4 y
  = String (digit (y / 1000))
      (String (digit (y / 100 mod 10))
         (String (digit (y / 10 mod 10))
            (String (digit (y mod 10)) EmptyString))).
Proof.
  intros Hy. apply String.eqb_eq.
  apply (range_check
           (fun y => String.eqb (PyStr.format_0d 4 y)
                       (String (digit (y / 1000))
                          (String (digit (y / 100 mod 10))
                             (String (digit (y / 10 mod 10))
                                (String (digit (y mod 10)) EmptyString)))))
           0 10000); [vm_compute; reflexivity | lia].
Qed.

Lemma format_0d_two_digits (m : Z) :
  (0 <= m <= 99)%Z ->
  PyStr.format_0d 2 m
  = String (digit (m / 10)) (String (digit (m mod 10)) EmptyString).
Proof.
  intros Hm. apply String.eqb_eq.
  apply (range_check
           (fun m => String.eqb (PyStr.format_0d 2 m)
                       (String (digit (m / 10))
                          (String (digit (m mod 10)) EmptyString)))
           0 100); [vm_compute; reflexivity | lia].
Qed.

Lemma format_bucket_digits (y m : Z) :
  (0 <= y <= 9999)%Z -> (0 <= m <= 99)%Z ->
  format_bucket y m = year_month_digits y m.
Proof.
  intros Hy Hm. unfold format_bucket, year_month_digits.
  now rewrite format_0d_four_digits, format_0d_two_digits.
Qed.

(** The three columns that [add_time_features] derives, on a table with one
    date column that holds timestamps only. *)
Lemma add_time_features_of_dates (df : DataFrame) :
  dates_only df ->
  exists out,
    add_time_features df = Ok out
    /\ column DATE_COLUMN out = column DATE_COLUMN df
    /\ List.length (rows out) = List.length (rows df)
    /\ forall r, In r (rows out) ->
         exists t,
           cell_of out DATE_COLUMN r = Date t
           /\ cell_of out "Year" r = Num (Qc_of_Z (year t))
           /\ cell_of out "Month" r = Num (Qc_of_Z (month t))
           /\ cell_of out "YearMonth" r = Str (period_M_str t).
Proof.
  intros (Hrect & Hcount & Hrows).
  assert (Hdate : In DATE_COLUMN (columns df)).
  { apply (count_occ_In string_dec). lia. }
  set (gY := fun t => Num (Qc_of_Z (year t))).
  set (gM := fun t => Num (Qc_of_Z (month t))).
  set (gB := fun t => Str (period_M_str t)).
  assert (H0 : featured_by [] df).
  { split; [assumption|]. split; [assumption|].
    intros r Hr. destruct (Hrows r Hr) as (t & Ht). exists t.
    split; [assumption|]. intros c g []. }
  destruct (time_feature_step [] "Year" gY df H0
              ltac:(discriminate) ltac:(simpl; tauto))
    as (df1 & E1 & H1 & C1).
  destruct (time_feature_step _ "Month" gM df1 H1
              ltac:(discriminate) ltac:(simpl; intros [E|[]]; discriminate E))
    as (df2 & E2 & H2 & C2).
  destruct (time_feature_step _ "YearMonth" gB df2 H2 ltac:(discriminate)
              ltac:(simpl; intros [E|[E|[]]]; discriminate E))
    as (out & E3 & H3 & C3).
  exists out.
  assert (E : add_time_features df
              = time_step "Year" gY
                  (time_step "Month" gM (time_step "YearMonth" gB Ok)) df).
  { unfold add_time_features.
    now rewrite (proj2 (has_column_In DATE_COLUMN df) Hdate). }
  split; [now rewrite E, E1, E2, E3|].
  split; [congruence|].
  split.
  { unfold column in C1, C2, C3.
    rewrite <- (length_map (lookup (columns out) DATE_COLUMN)), C3, C2, C1.
    apply length_map. }
  intros r Hr. destruct H3 as (_ & _ & H3).
  destruct (H3 r Hr) as (t & Ht & Hf). exists t. unfold cell_of.
  split; [assumption|].
  now rewrite (Hf "Year" gY), (Hf "Month" gM), (Hf "YearMonth" gB)
    by (simpl; tauto).
Qed.

(** ** Sorting *)

Section SortFacts.

Variable A : Type.
Variable leb : A -> A -> bool.

Lemma insert_sorted_perm (x : A) (l : list A) :
  Permutation (insert_sorted leb x l) (x :: l).
Proof.
  induction l as [|y l IH]; simpl; [reflexivity|].
  destruct (leb x y); [reflexivity|].
  rewrite IH. apply perm_swap.
Qed.

Lemma sort_by_perm (l : list A) : Permutation (sort_by leb l) l.
Proof.
  induction l as [|x l IH]; simpl; [reflexivity|].
  rewrite insert_sorted_perm. now constructor.
Qed.

Hypothesis leb_total : forall a b, leb a b = true \/ leb b a = true.

Lemma insert_sorted_Sorted (x : A) (l : list A) :
  Sorted (fun a b => leb a b = true) l ->
  Sorted (fun a b => leb a b = true) (insert_sorted leb x l).
Proof.
  induction l as [|y l IH]; intros H; simpl.
  - repeat constructor.
  - destruct (leb x y) eqn:E.
    + constructor; [assumption | now constructor].
    + apply Sorted_inv in H as [Hs Hhd]. constructor; [now apply IH|].
      destruct l as [|z l]; simpl.
      * constructor. destruct (leb_total x y); congruence.
      * destruct (leb x z); constructor.
        -- destruct (leb_total x y); congruence.
        -- now apply HdRel_inv in Hhd.
Qed.

Lemma sort_by_Sorted (l : list A) :
  Sorted (fun a b => leb a b = true) (sort_by leb l).
Proof.
  induction l as [|x l IH]; simpl; [constructor|].
  now apply insert_sorted_Sorted.
Qed.

Hypothesis leb_trans :
  forall a b c, leb a b = true -> leb b c = true -> leb a c = true.

Lemma sort_by_StronglySorted (l : list A) :
  StronglySorted (fun a b => leb a b = true) (sort_by leb l).
Proof.
  apply Sorted_StronglySorted; [|apply sort_by_Sorted].
  intros a b c. apply leb_trans.
Qed.

End SortFacts.

Lemma In_firstn {A : Type} (n : nat) (l : list A) (x : A) :
  In x (firstn n l) -> In x l.
Proof.
  intros H. rewrite <- (firstn_skipn n l). apply in_or_app. now left.
Qed.

Lemma StronglySorted_firstn {A : Type} (R : A -> A -> Prop) (n : nat)
  (l : list A) : StronglySorted R l -> StronglySorted R (firstn n l).
Proof.
  revert n. induction l as [|x l IH]; intros [|n] H; simpl; try constructor.
  - apply IH. now inversion H.
  - inversion H as [|? ? _ Hall]. subst. rewrite Forall_forall in *.
    intros y Hy. apply Hall. now apply (In_firstn n).
Qed.

Lemma StronglySorted_map {A B : Type} (f : A -> B) (R : B -> B -> Prop)
  (l : list A) :
  StronglySorted (fun a b => R (f a) (f b)) l -> StronglySorted R (map f l).
Proof.
  induction 1 as [|x l _ IH Hall]; simpl; constructor; [assumption|].
  rewrite Forall_forall in *. intros y Hy.
  apply in_map_iff in Hy as (a & <- & Ha). now apply Hall.
Qed.

(** ** Equality and order of cells *)

Lemma Qc_eq_bool_eq (x y : Qc) : Qc_eq_bool x y = true <-> x = y.
Proof.
  unfold Qc_eq_bool. destruct (Qc_eq_dec x y); split; congruence.
Qed.

Lemma Timestamp_eqb_eq (a b : Timestamp) : Timestamp_eqb a b = true <-> a = b.
Proof.
  destruct a as [y m d], b as [y' m' d']. unfold Timestamp_eqb. simpl.
  rewrite !andb_true_iff, !Z.eqb_eq. split.
  - intros [[-> ->] ->]. reflexivity.
  - intros H. injection H. auto.
Qed.

Lemma cell_eqb_eq (a b : cell) : cell_eqb a b = true <-> a = b.
Proof.
  destruct a, b; simpl; try (split; [discriminate | congruence]).
  - tauto.
  - rewrite Qc_eq_bool_eq. split; congruence.
  - rewrite String.eqb_eq. split; congruence.
  - rewrite Timestamp_eqb_eq. split; congruence.
Qed.

Lemma cell_eqb_refl (a : cell) : cell_eqb a a = true.
Proof. now apply cell_eqb_eq. Qed.

Lemma cell_eqb_neq (a b : cell) : cell_eqb a b = false <-> a <> b.
Proof.
  rewrite <- cell_eqb_eq. destruct (cell_eqb a b); split; congruence.
Qed.

Lemma Qc_leb_total (a b : Qc) : Qc_leb a b = true \/ Qc_leb b a = true.
Proof.
  rewrite !Qc_leb_le. destruct (Qclt_le_dec a b) as [H|H]; [left|right];
    [now apply Qclt_le_weak | assumption].
Qed.

Lemma Timestamp_leb_total (a b : Timestamp) :
  Timestamp_leb a b = true \/ Timestamp_leb b a = true.
Proof.
  unfold Timestamp_leb.
  rewrite (Z.compare_antisym (year a) (year b)).
  rewrite (Z.compare_antisym (month a) (month b)).
  destruct (year a ?= year b)%Z; simpl; auto.
  destruct (month a ?= month b)%Z; simpl; auto.
  rewrite !Z.leb_le. lia.
Qed.

Lemma cell_leb_total (a b : cell) : cell_leb a b = true \/ cell_leb b a = true.
Proof.
  destruct a, b; simpl; auto.
  - apply Qc_leb_total.
  - apply String.leb_total.
  - apply Timestamp_leb_total.
Qed.

Lemma string_ltb_lt (a b : string) :
  String.ltb a b = true <-> String_as_OT.lt a b.
Proof.
  rewrite <- String_as_OT.cmp_lt. unfold String.ltb, String_as_OT.cmp.
  destruct (String.compare a b); split; congruence.
Qed.

Lemma string_ltb_trans (a b c : string) :
  String.ltb a b = true -> String.ltb b c = true -> String.ltb a c = true.
Proof. rewrite !string_ltb_lt. apply String_as_OT.lt_trans. Qed.

Lemma string_leb_ltb (a b : string) :
  String.leb a b = true -> a <> b -> String.ltb a b = true.
Proof.
  unfold String.leb, String.ltb. destruct (String.compare a b) eqn:E;
    try congruence.
  intros _ H. apply String.compare_eq_iff in E. contradiction.
Qed.

Lemma string_ltb_leb (a b : string) :
  String.ltb a b = true -> String.leb a b = true.
Proof.
  unfold String.leb, String.ltb. destruct (String.compare a b); congruence.
Qed.

Lemma string_leb_trans (a b c : string) :
  String.leb a b = true -> String.leb b c = true -> String.leb a c = true.
Proof.
  intros H1 H2. destruct (string_dec a b) as [->|N1]; [assumption|].
  destruct (string_dec b c) as [<-|N2]; [assumption|].
  apply string_ltb_leb.
  apply (string_ltb_trans a b c); now apply string_leb_ltb.
Qed.

(** ** Grouping and summing *)

(** *** Sums *)

Lemma total_nil : total [] = 0%Qc.
Proof. reflexivity. Qed.

Lemma total_cons (q : Qc) (l : list Qc) : total (q :: l) = (q + total l)%Qc.
Proof. reflexivity. Qed.

Lemma total_app (l m : list Qc) : total (l ++ m) = (total l + total m)%Qc.
Proof.
  induction l as [|q l IH]; cbn [app]; rewrite ?total_cons, ?total_nil.
  - ring.
  - rewrite IH. ring.
Qed.

Lemma total_perm (l m : list Qc) : Permutation l m -> total l = total m.
Proof.
  induction 1 as [|q l m _ IH|p q l|l m n _ IH1 _ IH2];
    rewrite ?total_cons; try reflexivity.
  - now rewrite IH.
  - ring.
  - congruence.
Qed.

Lemma total_nonneg (l : list Qc) :
  (forall q, In q l -> (0 <= q)%Qc) -> (0 <= total l)%Qc.
Proof.
  induction l as [|q l IH]; intros H; rewrite ?total_cons, ?total_nil.
  - apply Qcle_refl.
  - replace 0%Qc with (0 + 0)%Qc by ring.
    apply Qcplus_le_compat; [apply H; now left|].
    apply IH. intros p Hp. apply H. now right.
Qed.


Lemma total_firstn_le (n : nat) (l : list Qc) :
  (forall q, In q l -> (0 <= q)%Qc) -> (total (firstn n l) <= total l)%Qc.
Proof.
  intros H. rewrite <- (firstn_skipn n l) at 2. rewrite total_app.
  replace (total (firstn n l)) with (total (firstn n l) + 0)%Qc at 1 by ring.
  apply Qcplus_le_compat; [apply Qcle_refl|].
  apply total_nonneg. intros q Hq. apply H.
  rewrite <- (firstn_skipn n l). apply in_or_app. now right.
Qed.

Lemma total_filter_le {A : Type} (f : A -> Qc) (p : A -> bool) (l : list A) :
  (forall a, In a l -> (0 <= f a)%Qc) ->
  (total (map f (filter p l)) <= total (map f l))%Qc.
Proof.
  induction l as [|a l IH]; intros H; cbn [filter map].
  - apply Qcle_refl.
  - assert (IH' : (total (map f (filter p l)) <= total (map f l))%Qc).
    { apply IH. intros b Hb. apply H. now right. }
    destruct (p a); cbn [map]; rewrite ?total_cons.
    + apply Qcplus_le_compat; [apply Qcle_refl | assumption].
    + replace (total (map f (filter p l)))
        with (0 + total (map f (filter p l)))%Qc by ring.
      apply Qcplus_le_compat; [apply H; now left | assumption].
Qed.

Lemma total_concat (qss : list (list Qc)) :
  total (List.concat qss) = total (map total qss).
Proof.
  induction qss as [|qs qss IH]; [reflexivity|].
  cbn [List.concat map]. now rewrite total_app, total_cons, IH.
Qed.

(** The exact sum does not tell a missing revenue from a revenue of 0. *)
Lemma total_revenues (df : DataFrame) (rs : list (list cell)) :
  total (revenues df rs) = total (map (revenue_of df) rs).
Proof.
  induction rs as [|r rs IH]; [reflexivity|].
  unfold revenues in *. cbn [flat_map map].
  rewrite total_app, total_cons, IH. unfold revenue_values, revenue_of.
  destruct (cell_of df SALES_COLUMN r); rewrite ?total_cons, ?total_nil; ring.
Qed.

Lemma revenues_numeric (df : DataFrame) (rs : list (list cell)) :
  (forall r, In r rs -> exists q, cell_of df SALES_COLUMN r = Num q) ->
  revenues df rs = map (revenue_of df) rs.
Proof.
  induction rs as [|r rs IH]; intros H; [reflexivity|].
  unfold revenues in *. cbn [flat_map map].
  rewrite IH by (intros r' Hr'; apply H; now right).
  unfold revenue_values, revenue_of.
  destruct (H r (or_introl eq_refl)) as [q ->]. reflexivity.
Qed.


Lemma is_null_eq (k : cell) : is_null k = true <-> k = Null.
Proof. destruct k; simpl; split; congruence. Qed.

Lemma is_null_neq (k : cell) : is_null k = false <-> k <> Null.
Proof. destruct k; simpl; split; congruence. Qed.

Lemma scan_fold (keys : Series) (qss : list (list Qc))
  (acc : list (cell * list Qc)) :
  GroupBy.scan keys qss acc = fold_left group_step (combine keys qss) acc.
Proof.
  revert qss acc. induction keys as [|k keys IH]; intros [|qs qss] acc;
    simpl; try reflexivity. apply IH.
Qed.

Lemma accumulate_keys (k : cell) (qs : list Qc) (acc : list (cell * list Qc))
  (k' : cell) :
  In k' (map fst (GroupBy.accumulate k qs acc)) <-> k' = k \/ In k' (map fst acc).
Proof.
  induction acc as [|[k0 g] acc IH]; simpl.
  - intuition.
  - destruct (cell_eqb k0 k) eqn:E; simpl.
    + apply cell_eqb_eq in E. subst. intuition.
    + rewrite IH. intuition.
Qed.

Lemma accumulate_NoDup (k : cell) (qs : list Qc) (acc : list (cell * list Qc)) :
  NoDup (map fst acc) -> NoDup (map fst (GroupBy.accumulate k qs acc)).
Proof.
  induction acc as [|[k0 g] acc IH]; simpl; intros H.
  - repeat constructor. auto.
  - destruct (cell_eqb k0 k) eqn:E; simpl; [assumption|].
    inversion H as [|? ? Hnin Hnd]. subst. constructor; [|now apply IH].
    rewrite accumulate_keys. intros [->|Hin]; [|contradiction].
    now rewrite cell_eqb_refl in E.
Qed.

Lemma accumulate_values (k : cell) (qs : list Qc)
  (acc : list (cell * list Qc)) (k' : cell) :
  values_of k' (GroupBy.accumulate k qs acc)
  = if cell_eqb k k' then values_of k' acc ++ qs else values_of k' acc.
Proof.
  induction acc as [|[k0 g] acc IH]; simpl.
  - destruct (cell_eqb k k'); reflexivity.
  - destruct (cell_eqb k0 k) eqn:E; simpl.
    + apply cell_eqb_eq in E. subst k0.
      destruct (cell_eqb k k'); reflexivity.
    + rewrite IH. destruct (cell_eqb k0 k') eqn:E'; [|reflexivity].
      apply cell_eqb_eq in E'. subst k0.
      destruct (cell_eqb k k') eqn:E2; [|reflexivity].
      apply cell_eqb_eq in E2. subst k. now rewrite cell_eqb_refl in E.
Qed.

Lemma fold_keys (l : list (cell * list Qc)) (acc : list (cell * list Qc))
  (k : cell) :
  In k (map fst (fold_left group_step l acc))
  <-> In k (map fst acc) \/ (k <> Null /\ In k (map fst l)).
Proof.
  revert acc. induction l as [|[k0 q] l IH]; intros acc; simpl.
  - intuition.
  - rewrite IH. unfold group_step. simpl.
    destruct (is_null k0) eqn:E.
    + apply is_null_eq in E. subst k0. intuition congruence.
    + apply is_null_neq in E. rewrite accumulate_keys. intuition congruence.
Qed.

Lemma fold_NoDup (l : list (cell * list Qc)) (acc : list (cell * list Qc)) :
  NoDup (map fst acc) -> NoDup (map fst (fold_left group_step l acc)).
Proof.
  revert acc. induction l as [|[k0 q] l IH]; intros acc H; simpl;
    [assumption|].
  apply IH. unfold group_step. simpl. destruct (is_null k0); [assumption|].
  now apply accumulate_NoDup.
Qed.

(** The values of a group are those of its rows, in the order of the
    rows. *)
Lemma fold_values (l : list (cell * list Qc)) (acc : list (cell * list Qc))
  (k : cell) :
  k <> Null ->
  values_of k (fold_left group_step l acc) = values_of k acc ++ values_for k l.
Proof.
  intros Hk. revert acc. induction l as [|[k0 q] l IH]; intros acc; simpl.
  - unfold values_for. simpl. now rewrite app_nil_r.
  - rewrite IH. unfold group_step, values_for. simpl.
    destruct (is_null k0) eqn:E.
    + apply is_null_eq in E. subst k0.
      destruct (cell_eqb Null k) eqn:E'; [|reflexivity].
      apply cell_eqb_eq in E'. congruence.
    + rewrite accumulate_values. destruct (cell_eqb k0 k); simpl;
        [now rewrite app_assoc | reflexivity].
Qed.

Lemma values_of_In (acc : list (cell * list Qc)) (k : cell) (g : list Qc) :
  NoDup (map fst acc) -> In (k, g) acc -> values_of k acc = g.
Proof.
  induction acc as [|[k0 g0] acc IH]; simpl; intros Hnd Hin; [contradiction|].
  inversion Hnd as [|? ? Hnin Hnd']. subst.
  destruct Hin as [E|Hin].
  - injection E as -> ->. now rewrite cell_eqb_refl.
  - destruct (cell_eqb k0 k) eqn:E; [|now apply IH].
    apply cell_eqb_eq in E. subst k0. exfalso. apply Hnin.
    apply in_map_iff. now exists (k, g).
Qed.

Lemma combine_maps {A B C : Type} (f : A -> B) (g : A -> C) (l : list A) :
  combine (map f l) (map g l) = map (fun a => (f a, g a)) l.
Proof. induction l as [|a l IH]; simpl; [reflexivity | now rewrite IH]. Qed.

(** The groups that [GroupBy.sum] forms from two columns of one table: one
    per key that is present, each with the values of exactly the rows that
    bear the key, in the order of the rows. *)
Lemma scan_columns {R : Type} (f : R -> cell) (g : R -> list Qc) (l : list R) :
  let scanned := GroupBy.scan (map f l) (map g l) [] in
  NoDup (map fst scanned)
  /\ (forall k, In k (map fst scanned) <-> k <> Null /\ In k (map f l))
  /\ (forall k qs, In (k, qs) scanned ->
        qs = flat_map g (filter (fun r => cell_eqb (f r) k) l)).
Proof.
  cbv zeta. rewrite scan_fold, combine_maps. split; [|split].
  - apply fold_NoDup. constructor.
  - intros k. rewrite fold_keys, map_map. simpl. rewrite map_ext with (g := f)
      by reflexivity. intuition.
  - intros k qs Hin.
    assert (Hk : k <> Null).
    { assert (H : In k (map fst (fold_left group_step
                                   (map (fun a => (f a, g a)) l) []))).
      { apply in_map_iff. now exists (k, qs). }
      apply fold_keys in H as [[]|[H _]]. exact H. }
    rewrite <- (values_of_In _ k qs (fold_NoDup _ [] (NoDup_nil _)) Hin).
    rewrite fold_values by assumption. simpl.
    unfold values_for. rewrite filter_map_swap, map_map. simpl.
    now rewrite flat_map_concat_map.
Qed.

Lemma In_present (s : Series) (k : cell) :
  In k (present s) <-> k <> Null /\ In k s.
Proof.
  unfold present. rewrite filter_In, negb_true_iff, is_null_neq. tauto.
Qed.

Lemma In_distinct (s : Series) (k : cell) : In k (distinct s) <-> In k s.
Proof.
  induction s as [|v s IH]; simpl; [tauto|].
  rewrite filter_In, IH, negb_true_iff, cell_eqb_neq.
  destruct (cell_eqb v k) eqn:E.
  - apply cell_eqb_eq in E. intuition.
  - apply cell_eqb_neq in E. intuition.
Qed.

Lemma NoDup_distinct (s : Series) : NoDup (distinct s).
Proof.
  induction s as [|v s IH]; simpl; constructor.
  - rewrite filter_In, negb_true_iff, cell_eqb_neq. intuition.
  - now apply NoDup_filter.
Qed.

Lemma addends_values {R : Type} (f : R -> cell) (g : R -> list Qc)
  (l : list R) :
  (forall r, In r l -> GroupBy.addend (f r) = Ok (g r)) ->
  GroupBy.addends (map f l) = Ok (map g l).
Proof.
  induction l as [|r l IH]; intros H; simpl; [reflexivity|].
  rewrite (H r (or_introl eq_refl)). simpl. rewrite IH; [reflexivity|].
  intros r' Hr'. apply H. now right.
Qed.

(** The values that the sums find in a revenue column of numbers, some of
    which may be missing. *)
Lemma revenue_addends_present (df : DataFrame) :
  revenue_is_numeric_or_missing df ->
  GroupBy.addends (column SALES_COLUMN df)
  = Ok (map (revenue_values df) (rows df)).
Proof.
  intros H. unfold column. apply addends_values. intros r Hr.
  unfold revenue_values, cell_of.
  destruct (H r Hr) as [E|[q E]]; unfold cell_of in E; now rewrite E.
Qed.

Lemma numeric_or_missing (df : DataFrame) :
  revenue_is_numeric df -> revenue_is_numeric_or_missing df.
Proof. intros H r Hr. right. now apply H. Qed.

Lemma revenue_addends (df : DataFrame) :
  revenue_is_numeric df ->
  GroupBy.addends (column SALES_COLUMN df)
  = Ok (map (revenue_values df) (rows df)).
Proof. intros H. now apply revenue_addends_present, numeric_or_missing. Qed.

Lemma by_key_total (a b : cell * Qc) :
  GroupBy.by_key a b = true \/ GroupBy.by_key b a = true.
Proof. apply cell_leb_total. Qed.

Lemma In_summed (scanned : list (cell * list Qc)) (k : cell) (t : Qc) :
  In (k, t) (map GroupBy.summed scanned)
  <-> exists qs, In (k, qs) scanned /\ t = GroupBy.group_sum qs.
Proof.
  rewrite in_map_iff. unfold GroupBy.summed. split.
  - intros ([k' qs] & E & Hin). simpl in E. injection E as -> <-. eauto.
  - intros (qs & Hin & ->). now exists (k, qs).
Qed.

Lemma summed_keys (scanned : list (cell * list Qc)) :
  map fst (map GroupBy.summed scanned) = map fst scanned.
Proof. rewrite map_map. now apply map_ext. Qed.

(** The totals of [GroupBy.sum] over a revenue column of numbers, some of
    which may be missing. *)
Lemma groupby_sum_present (df : DataFrame) (c : string) :
  revenue_is_numeric_or_missing df ->
  exists totals,
    GroupBy.sum (column c df) (column SALES_COLUMN df) = Ok totals
    /\ NoDup (map fst totals)
    /\ (forall k, In k (map fst totals) <-> In k (groups df c))
    /\ (forall k t, In (k, t) totals -> t = group_total df c k)
    /\ List.length totals = List.length (groups df c).
Proof.
  intros Hnum. unfold GroupBy.sum. rewrite (revenue_addends_present df Hnum).
  cbn [bind]. eexists. split; [reflexivity|].
  set (scanned := GroupBy.scan (column c df)
                    (map (revenue_values df) (rows df)) []).
  pose proof (sort_by_perm _ GroupBy.by_key (map GroupBy.summed scanned))
    as Hperm.
  destruct (scan_columns (lookup (columns df) c) (revenue_values df) (rows df))
    as (Hnd & Hkeys & Htot).
  fold (column c df) in Hnd, Hkeys, Htot. fold scanned in Hnd, Hkeys, Htot.
  assert (Hk : forall k,
             In k (map fst (sort_by GroupBy.by_key
                              (map GroupBy.summed scanned)))
             <-> In k (groups df c)).
  { intros k. unfold groups. rewrite In_distinct, In_present, <- Hkeys.
    rewrite <- summed_keys.
    split; apply Permutation_in; [|symmetry]; now apply Permutation_map. }
  assert (Hn : NoDup (map fst (sort_by GroupBy.by_key
                                 (map GroupBy.summed scanned)))).
  { eapply Permutation_NoDup;
      [symmetry; apply Permutation_map; exact Hperm|].
    now rewrite summed_keys. }
  repeat split; try assumption; try apply Hk.
  - intros k t Hin. apply (Permutation_in _ Hperm) in Hin.
    apply In_summed in Hin as (qs & Hin & ->).
    unfold group_total, revenues, rows_of_group, cell_of.
    now rewrite (Htot k qs Hin).
  - rewrite <- (length_map fst). apply Permutation_length.
    apply NoDup_Permutation; [assumption | apply NoDup_distinct | exact Hk].
Qed.

Lemma groupby_sum_columns (df : DataFrame) (c : string) :
  revenue_is_numeric df ->
  exists totals,
    GroupBy.sum (column c df) (column SALES_COLUMN df) = Ok totals
    /\ NoDup (map fst totals)
    /\ (forall k, In k (map fst totals) <-> In k (groups df c))
    /\ (forall k t, In (k, t) totals -> t = group_total df c k)
    /\ List.length totals = List.length (groups df c).
Proof. intros H. now apply groupby_sum_present, numeric_or_missing. Qed.

(** When the sums are exact, the total of a group is the exact sum of the
    revenue of its rows. *)
Lemma group_sum_exact (df : DataFrame) (select : list cell -> bool) :
  sums_are_exact df ->
  GroupBy.group_sum (revenues df (filter select (rows df)))
  = total (revenues df (filter select (rows df))).
Proof.
  intros H. unfold GroupBy.group_sum.
  destruct (revenues df (filter select (rows df))) as [|q qs] eqn:E;
    [reflexivity|].
  rewrite <- E. apply H. rewrite E. discriminate.
Qed.

Lemma sum_present_exact (df : DataFrame) (select : list cell -> bool) :
  sums_are_exact df ->
  sum_present (revenues df (filter select (rows df)))
  = total (revenues df (filter select (rows df))).
Proof.
  intros H. unfold sum_present.
  destruct (revenues df (filter select (rows df))) as [|q qs] eqn:E;
    [reflexivity|].
  rewrite <- E. apply H. rewrite E. discriminate.
Qed.

Lemma group_total_exact (df : DataFrame) (c : string) (k : cell) :
  sums_are_exact df -> group_total df c k = exact_group_total df c k.
Proof.
  intros H. unfold group_total, exact_group_total, rows_of_group.
  rewrite <- total_revenues. now apply group_sum_exact.
Qed.

Lemma by_total_desc_total (a b : cell * Qc) :
  by_total_desc a b = true \/ by_total_desc b a = true.
Proof. apply Qc_leb_total. Qed.

Lemma by_total_desc_trans (a b c : cell * Qc) :
  by_total_desc a b = true -> by_total_desc b c = true ->
  by_total_desc a c = true.
Proof.
  unfold by_total_desc. rewrite !Qc_leb_le. intros H1 H2.
  now apply Qcle_trans with (snd b).
Qed.

Lemma StronglySorted_weaken {A : Type} (R R' : A -> A -> Prop) (l : list A) :
  (forall a b, R a b -> R' a b) -> StronglySorted R l -> StronglySorted R' l.
Proof.
  intros H. induction 1 as [|x l _ IH Hall]; constructor; [assumption|].
  rewrite Forall_forall in *. auto.
Qed.

Lemma NoDup_firstn {A : Type} (n : nat) (l : list A) :
  NoDup l -> NoDup (firstn n l).
Proof.
  intros H. rewrite <- (firstn_skipn n l) in H.
  now apply NoDup_app_remove_r in H.
Qed.

(** C3, amended: on a table with distinct column names, a product column and
    a numeric revenue column, and for [n >= 1], [get_top_products] returns a
    two-column table of (product, total) entries: at most [n] of them, all
    of them when [n] reaches the number of distinct products; by
    non-increasing total; one per product; each total the sum that numpy
    takes, in the arithmetic of the revenue column, of the revenue of
    exactly the rows of that product, in their order.  It is the exact sum
    when the sums over the table are exact. *)
Theorem get_top_products_spec :
  forall (df : DataFrame) (top_n : Z),
    NoDup (columns df) ->
    In PRODUCT_COLUMN (columns df) ->
    In SALES_COLUMN (columns df) ->
    revenue_is_numeric df ->
    (1 <= top_n)%Z ->
    exists top : list (cell * Qc),
      get_top_products df top_n
      = Ok {| columns := [PRODUCT_COLUMN; SALES_COLUMN];
              rows := map (fun kt => [fst kt; Num (snd kt)]) top |}
      /\ (Z.of_nat (List.length top) <= top_n)%Z
      /\ List.length top
         = Nat.min (Z.to_nat top_n) (List.length (groups df PRODUCT_COLUMN))
      /\ StronglySorted (fun a b => (snd b <= snd a)%Qc) top
      /\ NoDup (map fst top)
      /\ (forall k t, In (k, t) top ->
            In k (groups df PRODUCT_COLUMN)
            /\ t = group_total df PRODUCT_COLUMN k)
      /\ (sums_are_exact df ->
          forall k t, In (k, t) top ->
            t = exact_group_total df PRODUCT_COLUMN k)
      /\ ((Z.of_nat (List.length (groups df PRODUCT_COLUMN)) <= top_n)%Z ->
          forall k, In k (groups df PRODUCT_COLUMN) ->
            In (k, group_total df PRODUCT_COLUMN k) top).
Proof.
  intros df top_n Hnd Hp Hs Hnum Hn.
  destruct (groupby_sum_columns df PRODUCT_COLUMN Hnum)
    as (totals & Hsum & Hndk & Hkeys & Htot & Hlen).
  set (sorted := sort_by by_total_desc totals).
  pose proof (sort_by_perm _ by_total_desc totals) as Hperm. fold sorted in Hperm.
  exists (head top_n sorted).
  assert (Hhead : head top_n sorted = firstn (Z.to_nat top_n) sorted).
  { unfold head. destruct (0 <=? top_n)%Z eqn:E; [reflexivity|].
    apply Z.leb_gt in E. lia. }
  rewrite Hhead.
  assert (Hlen' : List.length (firstn (Z.to_nat top_n) sorted)
                  = Nat.min (Z.to_nat top_n)
                      (List.length (groups df PRODUCT_COLUMN))).
  { rewrite length_firstn, (Permutation_length Hperm). now rewrite Hlen. }
  split; [|split; [|split; [|split; [|split; [|split; [|split]]]]]].
  - unfold get_top_products.
    rewrite (proj2 (has_column_In PRODUCT_COLUMN df) Hp). cbn [negb].
    rewrite (grouper_single _ _ Hnd Hp). cbn [bind].
    rewrite (getitem_single SALES_COLUMN df)
      by now apply NoDup_count_occ_single.
    cbn [bind]. rewrite Hsum. cbn [bind]. fold sorted. now rewrite Hhead.
  - rewrite Hlen'. lia.
  - exact Hlen'.
  - apply StronglySorted_firstn.
    apply StronglySorted_weaken
      with (R := fun a b => by_total_desc a b = true).
    + intros a b. unfold by_total_desc. now rewrite Qc_leb_le.
    + apply sort_by_StronglySorted;
        [apply by_total_desc_total | apply by_total_desc_trans].
  - rewrite <- firstn_map. apply NoDup_firstn.
    eapply Permutation_NoDup; [|exact Hndk].
    symmetry. now apply Permutation_map.
  - intros k t Hin. apply In_firstn in Hin.
    apply (Permutation_in _ Hperm) in Hin. split; [|now apply Htot].
    apply Hkeys. apply in_map_iff. now exists (k, t).
  - intros Hexact k t Hin. apply In_firstn in Hin.
    apply (Permutation_in _ Hperm) in Hin.
    rewrite (Htot k t Hin). now apply group_total_exact.
  - intros Hall k Hk.
    rewrite firstn_all2 by (rewrite (Permutation_length Hperm), Hlen; lia).
    apply Hkeys in Hk. apply in_map_iff in Hk as ([k' t] & E & Hin).
    simpl in E. subst k'. rewrite <- (Htot k t Hin).
    now apply (Permutation_in _ (Permutation_sym Hperm)).
Qed.

(** ** Monthly trends *)

Lemma Sorted_map_iff {A B : Type} (f : A -> B) (R : B -> B -> Prop)
  (l : list A) :
  Sorted R (map f l) <-> Sorted (fun a b => R (f a) (f b)) l.
Proof.
  induction l as [|x l IH]; simpl.
  - split; constructor.
  - split; intros H; apply Sorted_inv in H as [Hs Hhd]; constructor;
      try (now apply IH); destruct l; simpl in *; constructor;
      now apply HdRel_inv in Hhd.
Qed.

Lemma StronglySorted_strict (l : list string) :
  StronglySorted (fun a b => String.leb a b = true) l -> NoDup l ->
  StronglySorted (fun a b => String.ltb a b = true) l.
Proof.
  induction 1 as [|x l _ IH Hall]; intros Hnd; constructor;
    inversion Hnd as [|? ? Hnin Hnd']; subst.
  - now apply IH.
  - rewrite Forall_forall in *. intros y Hy.
    apply string_leb_ltb; [now apply Hall | congruence].
Qed.

Lemma by_first_total (a b : list cell) :
  by_first a b = true \/ by_first b a = true.
Proof. apply cell_leb_total. Qed.

(** C4, amended: on a table with distinct column names, a "YearMonth" column
    of texts and a numeric revenue column, [get_monthly_trends] returns a
    two-column table of (bucket, total) entries, by strictly increasing
    bucket, hence one per bucket; the buckets are exactly those occurring
    in the table; each total is the sum that numpy takes, in the arithmetic
    of the revenue column, of the revenue of exactly the rows of that
    bucket, in their order.  It is the exact sum when the sums over the
    table are exact. *)
Theorem get_monthly_trends_spec :
  forall (df : DataFrame),
    NoDup (columns df) ->
    In "YearMonth" (columns df) ->
    In SALES_COLUMN (columns df) ->
    revenue_is_numeric df ->
    (forall r, In r (rows df) -> exists b, cell_of df "YearMonth" r = Str b) ->
    exists trend : list (string * Qc),
      get_monthly_trends df
      = Ok {| columns := ["YearMonth"; SALES_COLUMN];
              rows := map (fun bt => [Str (fst bt); Num (snd bt)]) trend |}
      /\ StronglySorted (fun a b => String.ltb a b = true) (map fst trend)
      /\ (forall b, In b (map fst trend)
                    <-> In (Str b) (column "YearMonth" df))
      /\ (forall b t, In (b, t) trend ->
            t = group_total df "YearMonth" (Str b))
      /\ (sums_are_exact df ->
          forall b t, In (b, t) trend ->
            t = exact_group_total df "YearMonth" (Str b)).
Proof.
  intros df Hnd Hym Hs Hnum Hstr.
  destruct (groupby_sum_columns df "YearMonth" Hnum)
    as (totals & Hsum & Hndk & Hkeys & Htot & _).
  set (render := fun kt : cell * Qc => [fst kt; Num (snd kt)]).
  set (table := sort_by by_first (map render totals)).
  pose proof (sort_by_perm _ by_first (map render totals)) as Hperm.
  fold table in Hperm.
  assert (Hkey : forall k, In k (map fst totals) ->
                           exists b, k = Str b /\ In k (column "YearMonth" df)).
  { intros k Hk. apply Hkeys in Hk. unfold groups in Hk.
    apply In_distinct, In_present in Hk as [_ Hk].
    pose proof Hk as Hk'. unfold column in Hk'.
    apply in_map_iff in Hk' as (r & <- & Hr).
    destruct (Hstr r Hr) as [b Hb]. exists b. now split. }
  assert (Hrow : forall r, In r table ->
                   exists b t, r = [Str b; Num t] /\ In (Str b, t) totals).
  { intros r Hr. apply (Permutation_in _ Hperm) in Hr.
    apply in_map_iff in Hr as ([k t] & <- & Hin).
    destruct (Hkey k) as (b & -> & _).
    { apply in_map_iff. now exists (k, t). }
    now exists b, t. }
  assert (Htable : table
                   = map (fun bt => [Str (fst bt); Num (snd bt)])
                       (map as_entry table)).
  { rewrite map_map. rewrite <- (map_id table) at 1. apply map_ext_in.
    intros r Hr. destruct (Hrow r Hr) as (b & t & -> & _). reflexivity. }
  assert (Hheads : map Str (map fst (map as_entry table)) = map (hd Null) table).
  { rewrite !map_map. apply map_ext_in. intros r Hr.
    destruct (Hrow r Hr) as (b & t & -> & _). reflexivity. }
  assert (Hndt : NoDup (map fst (map as_entry table))).
  { apply (NoDup_map_inv Str). rewrite Hheads.
    apply Permutation_NoDup with (l := map fst totals); [|assumption].
    replace (map fst totals) with (map (hd Null) (map render totals))
      by (rewrite map_map; reflexivity).
    symmetry. now apply Permutation_map. }
  exists (map as_entry table).
  split; [|split; [|split; [|split]]].
  - unfold get_monthly_trends.
    rewrite (proj2 (has_column_In "YearMonth" df) Hym). cbn [negb].
    rewrite (grouper_single _ _ Hnd Hym). cbn [bind].
    rewrite (getitem_single SALES_COLUMN df)
      by now apply NoDup_count_occ_single.
    cbn [bind]. rewrite Hsum. cbn [bind]. fold render. fold table.
    now rewrite <- Htable.
  - apply StronglySorted_strict; [|assumption].
    apply Sorted_StronglySorted.
    { intros a b c. apply string_leb_trans. }
    apply Sorted_map_iff.
    pose proof (sort_by_Sorted _ by_first by_first_total (map render totals))
      as Hsorted.
    fold table in Hsorted. rewrite Htable in Hsorted.
    apply Sorted_map_iff in Hsorted. exact Hsorted.
  - intros b. split.
    + intros Hb. apply (in_map Str) in Hb. rewrite Hheads in Hb.
      apply in_map_iff in Hb as (r & Hhd & Hr).
      destruct (Hrow r Hr) as (b' & t & -> & Hin). simpl in Hhd.
      injection Hhd as ->. destruct (Hkey (Str b)) as (_ & _ & H); [|exact H].
      apply in_map_iff. now exists (Str b, t).
    + intros Hb.
      assert (Hin : In (Str b) (map fst totals)).
      { apply Hkeys. unfold groups. apply In_distinct, In_present.
        split; [discriminate | assumption]. }
      apply in_map_iff in Hin as ([k t] & E & Hin). simpl in E. subst k.
      apply in_map_iff. exists (b, t). split; [reflexivity|].
      apply in_map_iff. exists [Str b; Num t]. split; [reflexivity|].
      apply (Permutation_in _ (Permutation_sym Hperm)).
      apply in_map_iff. now exists (Str b, t).
  - intros b t Hin. apply in_map_iff in Hin as (r & E & Hr).
    destruct (Hrow r Hr) as (b' & t' & -> & Hin). simpl in E.
    injection E as -> ->. now apply Htot.
  - intros Hexact b t Hin. apply in_map_iff in Hin as (r & E & Hr).
    destruct (Hrow r Hr) as (b' & t' & -> & Hin). simpl in E.
    injection E as -> ->. rewrite (Htot _ _ Hin).
    now apply group_total_exact.
Qed.

End AggregationFacts.

(** ** Sample tables *)

Lemma list_eqb_eq {A : Type} (eqb : A -> A -> bool) (l m : list A) :
  (forall a b, eqb a b = true -> a = b) -> list_eqb eqb l m = true -> l = m.
Proof.
  intros Heq. revert m. induction l as [|a l IH]; intros [|b m]; simpl;
    try discriminate; [reflexivity|].
  intros H. apply andb_true_iff in H as [H1 H2].
  now rewrite (Heq a b H1), (IH m H2).
Qed.

Lemma frame_eqb_eq (a b : DataFrame) : frame_eqb a b = true -> a = b.
Proof.
  destruct a as [ca ra], b as [cb rb]. unfold frame_eqb. simpl. intros H.
  apply andb_true_iff in H as [H1 H2].
  apply list_eqb_eq in H1; [|intros x y; apply String.eqb_eq].
  apply list_eqb_eq in H2.
  - now subst.
  - intros x y. apply list_eqb_eq. intros u v. apply cell_eqb_eq.
Qed.

Lemma result_eqb_eq (a b : result DataFrame) :
  result_eqb frame_eqb a b = true -> a = b.
Proof.
  destruct a as [x|[]], b as [y|[]]; simpl; try discriminate;
    try reflexivity.
  intros H. now rewrite (frame_eqb_eq x y H).
Qed.

Section SampleRuns.

Local Existing Instance Numpy.int64_columns.

Lemma scenario_is_cleaned : clean scenario = Ok scenario_cleaned.
Proof. apply result_eqb_eq. vm_compute. reflexivity. Qed.

Lemma scenario_is_featured :
  add_time_features scenario_cleaned = Ok scenario_featured.
Proof. apply result_eqb_eq. vm_compute. reflexivity. Qed.


Lemma scenario_top :
  get_top_products scenario_featured 10
  = Ok {| columns := ["PRODUCTLINE"; "SALES"];
          rows := [ [Str "Motorcycles"; num 3000];
                    [Str "Classic Cars"; num 500] ] |}.
Proof. apply result_eqb_eq. vm_compute. reflexivity. Qed.



(** ** The theorems at sample tables *)

Lemma scenario_rectangular : rectangular scenario.
Proof. repeat constructor. Qed.

Lemma scenario_cleaned_well_formed : well_formed scenario_cleaned.
Proof.
  split; [|repeat constructor].
  repeat constructor; simpl; intuition discriminate.
Qed.

Lemma scenario_featured_NoDup : NoDup (columns scenario_featured).
Proof. repeat constructor; simpl; intuition discriminate. Qed.

Lemma scenario_featured_numeric : revenue_is_numeric scenario_featured.
Proof.
  intros r [<-|[<-|[]]]; eexists; reflexivity.
Qed.

Lemma scenario_unambiguous : labels_unambiguous scenario.
Proof. intros c [<-|[<-|[<-|[<-|[]]]]]; vm_compute; lia. Qed.

Lemma clean_data_keeps_positive_revenue_witness :
  exists q,
    cell_of scenario_cleaned SALES_COLUMN
      [date 2003 1 6; Str "Motorcycles"; num 30; num 100; num 3000] = Num q
    /\ (0 < q)%Qc.
Proof.
  apply (clean_data_keeps_positive_revenue Readers.numeric_of_object
           Readers.datetime_of_object scenario scenario_cleaned).
  - exact scenario_is_cleaned.
  - simpl. tauto.
  - simpl. tauto.
Defined.


Lemma get_top_products_spec_witness :
  exists top : list (cell * Qc),
    get_top_products scenario_featured 10
    = Ok {| columns := [PRODUCT_COLUMN; SALES_COLUMN];
            rows := map (fun kt => [fst kt; Num (snd kt)]) top |}
    /\ (Z.of_nat (List.length top) <= 10)%Z
    /\ List.length top
       = Nat.min (Z.to_nat 10)
           (List.length (groups scenario_featured PRODUCT_COLUMN))
    /\ StronglySorted (fun a b => (snd b <= snd a)%Qc) top
    /\ NoDup (map fst top)
    /\ (forall k t, In (k, t) top ->
          In k (groups scenario_featured PRODUCT_COLUMN)
          /\ t = group_total scenario_featured PRODUCT_COLUMN k)
    /\ (sums_are_exact scenario_featured ->
        forall k t, In (k, t) top ->
          t = exact_group_total scenario_featured PRODUCT_COLUMN k)
    /\ ((Z.of_nat (List.length (groups scenario_featured PRODUCT_COLUMN))
         <= 10)%Z ->
        forall k, In k (groups scenario_featured PRODUCT_COLUMN) ->
          In (k, group_total scenario_featured PRODUCT_COLUMN k) top).
Proof.
  apply (get_top_products_spec scenario_featured 10).
  - exact scenario_featured_NoDup.
  - simpl. tauto.
  - simpl. tauto.
  - exact scenario_featured_numeric.
  - lia.
Defined.

Lemma get_monthly_trends_spec_witness :
  exists trend : list (string * Qc),
    get_monthly_trends scenario_featured
    = Ok {| columns := ["YearMonth"; SALES_COLUMN];
            rows := map (fun bt => [Str (fst bt); Num (snd bt)]) trend |}
    /\ StronglySorted (fun a b => String.ltb a b = true) (map fst trend)
    /\ (forall b, In b (map fst trend)
                  <-> In (Str b) (column "YearMonth" scenario_featured))
    /\ (forall b t, In (b, t) trend ->
          t = group_total scenario_featured "YearMonth" (Str b))
    /\ (sums_are_exact scenario_featured ->
        forall b t, In (b, t) trend ->
          t = exact_group_total scenario_featured "YearMonth" (Str b)).
Proof.
  apply (get_monthly_trends_spec scenario_featured).
  - exact scenario_featured_NoDup.
  - simpl. tauto.
  - simpl. tauto.
  - exact scenario_featured_numeric.
  - intros r [<-|[<-|[]]]; eexists; reflexivity.
Defined.

Lemma get_basic_stats_empty_witness :
  exists stats,
    get_basic_stats no_rows = Ok stats
    /\ total_rows stats = 0%Z
    /\ total_revenue stats = real 0%Qc
    /\ avg_order_value stats = nan
    /\ (forall q, avg_order_value stats <> real q).
Proof.
  apply (get_basic_stats_empty no_rows).
  - repeat constructor; simpl; intuition discriminate.
  - simpl. tauto.
  - reflexivity.
Defined.

Lemma clean_data_returns_when_unambiguous_witness :
  exists out,
    clean scenario = Ok out
    /\ columns out = clean_names (map PyStr.strip (columns scenario))
    /\ rows out
       = map (clean_row Readers.numeric_of_object Readers.datetime_of_object
                (map PyStr.strip (columns scenario)) (date_context scenario))
           (filter (survives Readers.numeric_of_object
                      Readers.datetime_of_object
                      (map PyStr.strip (columns scenario)) (date_context scenario))
                   (rows scenario))
    /\ (forall v, to_numeric_cell Readers.numeric_of_object v = Null ->
          number_or_zero Readers.numeric_of_object v = 0%Qc)
    /\ (forall r0, In r0 (rows scenario) ->
          survives Readers.numeric_of_object Readers.datetime_of_object
            (map PyStr.strip (columns scenario)) (date_context scenario) r0 = true ->
          forall c, In c [QTY_COLUMN; PRICE_COLUMN] ->
            In c (map PyStr.strip (columns scenario)) ->
            cell_of out c
              (clean_row Readers.numeric_of_object Readers.datetime_of_object
                 (map PyStr.strip (columns scenario)) (date_context scenario) r0)
            = Num (number_or_zero Readers.numeric_of_object
                     (lookup (map PyStr.strip (columns scenario)) c r0)))
    /\ (forall r0, In DATE_COLUMN (map PyStr.strip (columns scenario)) ->
          date_read Readers.datetime_of_object
            (map PyStr.strip (columns scenario)) (date_context scenario) r0 = Null ->
          survives Readers.numeric_of_object Readers.datetime_of_object
            (map PyStr.strip (columns scenario)) (date_context scenario) r0 = false).
Proof.
  apply (clean_data_returns_when_unambiguous Readers.numeric_of_object
           Readers.datetime_of_object scenario).
  - exact scenario_rectangular.
  - exact scenario_unambiguous.
Defined.

(** ** Products and sums beyond 64 bits *)


Lemma two_large_orders_are_featured :
  clean two_large_orders
  = Ok {| columns := ["ORDERDATE"; "PRODUCTLINE"; "SALES"];
          rows := [ [date 2003 1 6; Str "Ships"; num 4611686018427387904];
                    [date 2003 1 9; Str "Ships"; num 4611686018427387904] ] |}
  /\ add_time_features
       {| columns := ["ORDERDATE"; "PRODUCTLINE"; "SALES"];
          rows := [ [date 2003 1 6; Str "Ships"; num 4611686018427387904];
                    [date 2003 1 9; Str "Ships"; num 4611686018427387904] ] |}
     = Ok two_large_orders_featured.
Proof. split; apply result_eqb_eq; vm_compute; reflexivity. Qed.

Lemma two_large_orders_featured_total :
  exact_group_total two_large_orders_featured PRODUCT_COLUMN (Str "Ships")
  = Qc_of_Z 9223372036854775808
  /\ exact_group_total two_large_orders_featured "YearMonth" (Str "2003-01")
     = Qc_of_Z 9223372036854775808.
Proof. split; apply Qc_is_canon; vm_compute; reflexivity. Qed.

(** C3 as stated fails: the two orders are of one product, each of a
    revenue of 2^62; their sum is 2^63, one more than 64 bits hold, and the
    total that [get_top_products] shows for the product is -2^63. *)
Lemma get_top_products_wraps_the_total :
  NoDup (columns two_large_orders_featured)
  /\ revenue_is_numeric two_large_orders_featured
  /\ get_top_products two_large_orders_featured 1
     = Ok {| columns := ["PRODUCTLINE"; "SALES"];
             rows := [ [Str "Ships"; num (-9223372036854775808)] ] |}
  /\ exact_group_total two_large_orders_featured PRODUCT_COLUMN (Str "Ships")
     = Qc_of_Z 9223372036854775808
  /\ num (-9223372036854775808) <> num 9223372036854775808.
Proof.
  split; [repeat constructor; simpl; intuition discriminate|].
  split; [intros r [<-|[<-|[]]]; eexists; reflexivity|].
  split; [apply result_eqb_eq; vm_compute; reflexivity|].
  split; [apply two_large_orders_featured_total | discriminate].
Qed.

(** C4 as stated fails, on the same table: the two orders are of one month,
    and the total that [get_monthly_trends] shows for it is -2^63. *)
Lemma get_monthly_trends_wraps_the_total :
  NoDup (columns two_large_orders_featured)
  /\ revenue_is_numeric two_large_orders_featured
  /\ get_monthly_trends two_large_orders_featured
     = Ok {| columns := ["YearMonth"; "SALES"];
             rows := [ [Str "2003-01"; num (-9223372036854775808)] ] |}
  /\ exact_group_total two_large_orders_featured "YearMonth" (Str "2003-01")
     = Qc_of_Z 9223372036854775808
  /\ num (-9223372036854775808) <> num 9223372036854775808.
Proof.
  split; [repeat constructor; simpl; intuition discriminate|].
  split; [intros r [<-|[<-|[]]]; eexists; reflexivity|].
  split; [apply result_eqb_eq; vm_compute; reflexivity|].
  split; [apply two_large_orders_featured_total | discriminate].
Qed.

(** ** Homonymous columns *)

(** C8 as stated fails: a well-formed raw table whose two columns are named
    "SALES" and "SALES " makes [clean_data] raise a [TypeError]: once the
    names are trimmed, [df["SALES"]] is a frame, which [pd.to_numeric]
    refuses.  So does a table whose labels are numbers: they have no
    [strip], and [clean_data] raises an [AttributeError]. *)
Lemma clean_data_raises_on_twin_sales :
  well_formed twin_sales /\ clean twin_sales = Raise TypeError
  /\ clean_data Readers.numeric_of_object Readers.datetime_of_object
       unlabelled
     = Raise AttributeError.
Proof.
  split; [|split; reflexivity].
  split; [|repeat constructor].
  repeat constructor; simpl; intuition discriminate.
Qed.

(** C9 as stated fails: a well-formed raw table with no revenue column and
    no price column, in which [clean_data] does raise, the quantity column
    having a twin once the names are trimmed. *)
Lemma clean_data_raises_without_revenue :
  well_formed twin_quantity
  /\ ~ In SALES_COLUMN (map PyStr.strip (columns twin_quantity))
  /\ ~ In PRICE_COLUMN (map PyStr.strip (columns twin_quantity))
  /\ clean twin_quantity = Raise TypeError.
Proof.
  split; [|split; [|split]].
  - split; [|repeat constructor].
    repeat constructor; simpl; intuition discriminate.
  - vm_compute. intuition discriminate.
  - vm_compute. intuition discriminate.
  - reflexivity.
Qed.

(** Twin product columns: the cleaner lets them through, and grouping by
    them is a [ValueError], not a [KeyError]. *)
Example twin_product_is_a_ValueError :
  forall cleaned,
    clean {| columns := ["PRODUCTLINE"; " PRODUCTLINE"; "ORDERDATE"];
             rows := [ [Str "Ships"; Str "Ships"; Str "2003-01-06"] ] |}
    = Ok cleaned ->
    get_top_products cleaned 10 = Raise ValueError.
Proof.
  intros cleaned H.
  apply clean_data_Ok_rowwise in H; [|repeat constructor].
  subst cleaned. reflexivity.
Qed.

End SampleRuns.

(** * Further properties *)

(** ** Which exception the cleaner raises *)

(** The trimming fails on the first label that is not a string, and
    otherwise the labels are strings all. *)
Lemma strip_labels_outcome (ls : list label) :
  (exists names, ls = map Text names)
  \/ ((exists z, In (Other z) ls) /\ strip_labels ls = Raise AttributeError).
Proof.
  induction ls as [|[c|z] ls IH].
  - left. now exists [].
  - destruct IH as [[names ->]|[[z Hz] E]].
    + left. now exists (c :: names).
    + right. split; [exists z; now right|].
      cbn [strip_labels strip_label bind]. now rewrite E.
  - right. split; [exists z; now left | reflexivity].
Qed.

Lemma text_labels (names : list string) (z : Z) : ~ In (Other z) (map Text names).
Proof. intros H. apply in_map_iff in H as (c & E & _). discriminate. Qed.

(** A frame whose labels are strings all is a [DataFrame]. *)
Lemma text_frame (raw : RawFrame) :
  (forall z, ~ In (Other z) (labels raw)) ->
  exists df : DataFrame, raw = raw_of df.
Proof.
  intros H. destruct raw as [ls rs]. cbn [labels] in H.
  destruct (strip_labels_outcome ls) as [[names ->]|[[z Hz] _]].
  - now exists {| columns := names; rows := rs |}.
  - now apply H in Hz.
Qed.

Section CleanerOutcome.

Variable numeric_of_object : cell -> option Qc.
Variable datetime_of_object : Series -> cell -> option Timestamp.
Context {np : Arithmetic}.

Local Set Default Proof Using "Type".

Lemma clean_data_other_label (raw : RawFrame) (z : Z) :
  In (Other z) (labels raw) ->
  clean_data numeric_of_object datetime_of_object raw = Raise AttributeError.
Proof.
  intros Hz. unfold clean_data, strip_column_names.
  destruct (strip_labels_outcome (labels raw)) as [[names E]|[_ ->]];
    [|reflexivity].
  rewrite E in Hz. now apply text_labels in Hz.
Qed.

Lemma convert_numeric_several (c : string) (df : DataFrame) :
  (2 <= count_occ string_dec (columns df) c)%nat ->
  convert_numeric numeric_of_object c df = Raise TypeError.
Proof.
  intros H. unfold convert_numeric.
  rewrite (proj2 (has_column_In c df))
    by (apply (count_occ_In string_dec); lia).
  now apply coerce_numeric_several.
Qed.

Lemma convert_date_several (df : DataFrame) :
  (2 <= count_occ string_dec (columns df) DATE_COLUMN)%nat ->
  convert_date datetime_of_object df = Raise ValueError.
Proof.
  intros H. unfold convert_date.
  rewrite (proj2 (has_column_In DATE_COLUMN df))
    by (apply (count_occ_In string_dec); lia).
  destruct (getitem_several DATE_COLUMN df H) as [ss ->]. reflexivity.
Qed.

Lemma clean_sales_several (df : DataFrame) :
  (2 <= count_occ string_dec (columns df) SALES_COLUMN)%nat ->
  clean_sales numeric_of_object df = Raise TypeError.
Proof.
  intros H. unfold clean_sales.
  rewrite (proj2 (has_column_In SALES_COLUMN df))
    by (apply (count_occ_In string_dec); lia).
  now rewrite coerce_numeric_several.
Qed.

(** The outcome of [clean_data] on a table whose labels are strings is
    decided by the trimmed names alone. *)
Lemma clean_data_outcome_text :
  forall (raw : DataFrame),
    ((2 <= label_count raw QTY_COLUMN)%nat ->
     clean_data numeric_of_object datetime_of_object raw = Raise TypeError)
    /\ ((label_count raw QTY_COLUMN <= 1)%nat ->
        (2 <= label_count raw PRICE_COLUMN)%nat ->
        clean_data numeric_of_object datetime_of_object raw = Raise TypeError)
    /\ ((label_count raw QTY_COLUMN <= 1)%nat ->
        (label_count raw PRICE_COLUMN <= 1)%nat ->
        (2 <= label_count raw DATE_COLUMN)%nat ->
        clean_data numeric_of_object datetime_of_object raw = Raise ValueError)
    /\ ((label_count raw QTY_COLUMN <= 1)%nat ->
        (label_count raw PRICE_COLUMN <= 1)%nat ->
        (label_count raw DATE_COLUMN <= 1)%nat ->
        (2 <= label_count raw SALES_COLUMN)%nat ->
        clean_data numeric_of_object datetime_of_object raw = Raise TypeError)
    /\ ((label_count raw QTY_COLUMN <= 1)%nat ->
        (label_count raw PRICE_COLUMN <= 1)%nat ->
        (label_count raw DATE_COLUMN <= 1)%nat ->
        (label_count raw SALES_COLUMN <= 1)%nat ->
        exists out,
          clean_data numeric_of_object datetime_of_object raw = Ok out)
    /\ clean_data numeric_of_object datetime_of_object raw <> Raise KeyError
    /\ clean_data numeric_of_object datetime_of_object raw
       <> Raise AttributeError.
Proof.
  intros raw. unfold label_count.
  set (names := map PyStr.strip (columns raw)).
  assert (H1 : (2 <= count_occ string_dec names QTY_COLUMN)%nat ->
               clean_data numeric_of_object datetime_of_object raw
               = Raise TypeError).
  { intros H. rewrite clean_data_text. unfold trimmed, dropna_all.
    cbn [columns rows]. fold names. now rewrite convert_numeric_several. }
  assert (H2 : (count_occ string_dec names QTY_COLUMN <= 1)%nat ->
               (2 <= count_occ string_dec names PRICE_COLUMN)%nat ->
               clean_data numeric_of_object datetime_of_object raw
               = Raise TypeError).
  { intros Hq H. rewrite clean_data_text. unfold trimmed, dropna_all.
    cbn [columns rows]. fold names.
    rewrite convert_numeric_rows by assumption. cbn [bind columns rows].
    now rewrite convert_numeric_several. }
  assert (H3 : (count_occ string_dec names QTY_COLUMN <= 1)%nat ->
               (count_occ string_dec names PRICE_COLUMN <= 1)%nat ->
               (2 <= count_occ string_dec names DATE_COLUMN)%nat ->
               clean_data numeric_of_object datetime_of_object raw
               = Raise ValueError).
  { intros Hq Hp H. rewrite clean_data_text. unfold trimmed, dropna_all.
    cbn [columns rows]. fold names.
    rewrite convert_numeric_rows by assumption. cbn [bind columns rows].
    rewrite convert_numeric_rows by assumption. cbn [bind columns rows].
    now rewrite convert_date_several. }
  assert (H4 : (count_occ string_dec names QTY_COLUMN <= 1)%nat ->
               (count_occ string_dec names PRICE_COLUMN <= 1)%nat ->
               (count_occ string_dec names DATE_COLUMN <= 1)%nat ->
               (2 <= count_occ string_dec names SALES_COLUMN)%nat ->
               clean_data numeric_of_object datetime_of_object raw
               = Raise TypeError).
  { intros Hq Hp Hd H. rewrite clean_data_text. unfold trimmed, dropna_all.
    cbn [columns rows]. fold names.
    rewrite convert_numeric_rows by assumption. cbn [bind columns rows].
    rewrite convert_numeric_rows by assumption. cbn [bind columns rows].
    rewrite convert_date_rows by assumption. cbn [bind columns rows].
    rewrite create_sales_rows. cbn [columns rows].
    rewrite clean_sales_several; [reflexivity|]. cbn [columns].
    pose proof (count_clean_names_ge names). lia. }
  assert (H5 : (count_occ string_dec names QTY_COLUMN <= 1)%nat ->
               (count_occ string_dec names PRICE_COLUMN <= 1)%nat ->
               (count_occ string_dec names DATE_COLUMN <= 1)%nat ->
               (count_occ string_dec names SALES_COLUMN <= 1)%nat ->
               exists out,
                 clean_data numeric_of_object datetime_of_object raw = Ok out).
  { intros Hq Hp Hd Hs. rewrite clean_data_text. unfold trimmed, dropna_all.
    cbn [columns rows]. fold names.
    rewrite convert_numeric_rows by assumption. cbn [bind columns rows].
    rewrite convert_numeric_rows by assumption. cbn [bind columns rows].
    rewrite convert_date_rows by assumption. cbn [bind columns rows].
    rewrite create_sales_rows. cbn [columns rows].
    rewrite clean_sales_rows by now apply count_clean_names.
    cbn [bind]. eauto. }
  repeat (split; [assumption|]).
  destruct (le_lt_dec (count_occ string_dec names QTY_COLUMN) 1) as [Hq|Hq];
    [|rewrite H1 by lia; split; discriminate].
  destruct (le_lt_dec (count_occ string_dec names PRICE_COLUMN) 1) as [Hp|Hp];
    [|rewrite H2 by lia; split; discriminate].
  destruct (le_lt_dec (count_occ string_dec names DATE_COLUMN) 1) as [Hd|Hd];
    [|rewrite H3 by lia; split; discriminate].
  destruct (le_lt_dec (count_occ string_dec names SALES_COLUMN) 1) as [Hs|Hs];
    [|rewrite H4 by lia; split; discriminate].
  destruct (H5 Hq Hp Hd Hs) as [out ->]. split; discriminate.
Qed.

(** X1: the outcome of [clean_data] is decided by the column labels alone.
    A label that is not a string makes it raise an [AttributeError], and
    nothing else does.  When the labels are strings, the configured names
    are tried, trimmed, in the order quantity, price, date, revenue: the
    first of them that two columns bear makes the cleaner raise, a
    [TypeError] for the three numeric ones, a [ValueError] for the date;
    when none is borne twice the cleaner returns.  It never raises a
    [KeyError]. *)
Theorem clean_data_outcome :
  (forall (raw : RawFrame),
      (clean_data numeric_of_object datetime_of_object raw
       = Raise AttributeError
       <-> exists z, In (Other z) (labels raw))
      /\ clean_data numeric_of_object datetime_of_object raw
         <> Raise KeyError)
  /\ forall (raw : DataFrame),
      ((2 <= label_count raw QTY_COLUMN)%nat ->
       clean_data numeric_of_object datetime_of_object raw = Raise TypeError)
      /\ ((label_count raw QTY_COLUMN <= 1)%nat ->
          (2 <= label_count raw PRICE_COLUMN)%nat ->
          clean_data numeric_of_object datetime_of_object raw
          = Raise TypeError)
      /\ ((label_count raw QTY_COLUMN <= 1)%nat ->
          (label_count raw PRICE_COLUMN <= 1)%nat ->
          (2 <= label_count raw DATE_COLUMN)%nat ->
          clean_data numeric_of_object datetime_of_object raw
          = Raise ValueError)
      /\ ((label_count raw QTY_COLUMN <= 1)%nat ->
          (label_count raw PRICE_COLUMN <= 1)%nat ->
          (label_count raw DATE_COLUMN <= 1)%nat ->
          (2 <= label_count raw SALES_COLUMN)%nat ->
          clean_data numeric_of_object datetime_of_object raw
          = Raise TypeError)
      /\ ((label_count raw QTY_COLUMN <= 1)%nat ->
          (label_count raw PRICE_COLUMN <= 1)%nat ->
          (label_count raw DATE_COLUMN <= 1)%nat ->
          (label_count raw SALES_COLUMN <= 1)%nat ->
          exists out,
            clean_data numeric_of_object datetime_of_object raw = Ok out).
Proof.
  split.
  - intros raw.
    destruct (strip_labels_outcome (labels raw)) as [[names E]|[[z Hz] _]].
    + destruct (text_frame raw) as [df ->].
      { intros z. rewrite E. apply text_labels. }
      destruct (clean_data_outcome_text df) as (_ & _ & _ & _ & _ & Hk & Ha).
      split; [|assumption]. split; [contradiction|].
      intros [z Hz]. cbn [raw_of labels] in Hz. now apply text_labels in Hz.
    + rewrite (clean_data_other_label raw z Hz).
      split; [|discriminate]. split; [now exists z | reflexivity].
  - intros raw.
    destruct (clean_data_outcome_text raw) as (H1 & H2 & H3 & H4 & H5 & _).
    repeat split; assumption.
Qed.

End CleanerOutcome.

(** ** Trimming *)

Lemma lstrip_starts (s : string) : starts_blank (PyStr.lstrip s) = false.
Proof.
  induction s as [|c s IH]; simpl; [reflexivity|].
  destruct (PyStr.is_space c) eqn:E; [assumption | simpl; assumption].
Qed.

Lemma rstrip_starts (s : string) :
  starts_blank s = false -> starts_blank (PyStr.rstrip s) = false.
Proof.
  destruct s as [|c s]; simpl; [reflexivity|]. intros H.
  destruct (PyStr.rstrip s); [rewrite H|]; simpl; assumption.
Qed.

Lemma rstrip_ends (s : string) : ends_blank (PyStr.rstrip s) = false.
Proof.
  unfold ends_blank. induction s as [|c s IH]; simpl; [reflexivity|].
  destruct (PyStr.rstrip s) as [|d t] eqn:E.
  - destruct (PyStr.is_space c) eqn:Ec; simpl; [reflexivity | assumption].
  - simpl in *. exact IH.
Qed.

Lemma lstrip_fixed (s : string) :
  starts_blank s = false -> PyStr.lstrip s = s.
Proof. destruct s as [|c s]; simpl; [reflexivity | now intros ->]. Qed.

Lemma rstrip_fixed (s : string) :
  ends_blank s = false -> PyStr.rstrip s = s.
Proof.
  unfold ends_blank. induction s as [|c s IH]; simpl; [reflexivity|].
  destruct s as [|d t].
  - simpl. now intros ->.
  - intros H. rewrite IH by exact H. reflexivity.
Qed.

Lemma strip_ends (s : string) :
  starts_blank (PyStr.strip s) = false /\ ends_blank (PyStr.strip s) = false.
Proof.
  unfold PyStr.strip. split; [|apply rstrip_ends].
  apply rstrip_starts, lstrip_starts.
Qed.

Lemma strip_fixed (s : string) :
  starts_blank s = false -> ends_blank s = false -> PyStr.strip s = s.
Proof.
  intros H1 H2. unfold PyStr.strip. rewrite (lstrip_fixed s H1).
  now apply rstrip_fixed.
Qed.

Lemma strip_idempotent (s : string) :
  PyStr.strip (PyStr.strip s) = PyStr.strip s.
Proof. destruct (strip_ends s). now apply strip_fixed. Qed.

Lemma map_strip_fixed (cols : list string) :
  (forall c, In c cols -> starts_blank c = false /\ ends_blank c = false) ->
  map PyStr.strip cols = cols.
Proof.
  intros H. rewrite <- (map_id cols) at 2. apply map_ext_in.
  intros c Hc. destruct (H c Hc). now apply strip_fixed.
Qed.

(** ** A cleaned table is clean, and cleaning a clean table changes nothing *)

Lemma store_absent (cols : list string) (c : string) (v : cell) (r : list cell) :
  ~ In c cols -> store cols c v r = r.
Proof.
  revert r. induction cols as [|k cols IH]; intros [|x r] H; simpl;
    try reflexivity.
  destruct (String.eqb k c) eqn:E.
  - apply String.eqb_eq in E. subst. exfalso. apply H. now left.
  - rewrite IH; [reflexivity|]. intros Hin. apply H. now right.
Qed.

Lemma store_lookup_id (cols : list string) (c : string) (r : list cell) :
  (count_occ string_dec cols c <= 1)%nat ->
  store cols c (lookup cols c r) r = r.
Proof.
  revert r. induction cols as [|k cols IH]; intros [|x r] H; simpl;
    try reflexivity.
  simpl in H. destruct (string_dec k c) as [->|Hne].
  - rewrite String.eqb_refl. f_equal. apply store_absent.
    apply (count_occ_not_In string_dec). lia.
  - destruct (String.eqb k c) eqn:E.
    + apply String.eqb_eq in E. contradiction.
    + f_equal. now apply IH.
Qed.

Lemma forallb_store (cols : list string) (c : string) (v : cell)
  (r : list cell) :
  forallb is_null r = false -> is_null v = false ->
  forallb is_null (store cols c v r) = false.
Proof.
  intros H Hv. revert r H. induction cols as [|k cols IH]; intros [|x r] H;
    simpl in *; try assumption.
  apply andb_false_iff in H. apply andb_false_iff.
  destruct H as [H|H]; [|right; now apply IH].
  left. now destruct (String.eqb k c).
Qed.

Lemma forallb_snoc (v : cell) (r : list cell) :
  forallb is_null r = false -> forallb is_null (r ++ [v]) = false.
Proof. intros H. rewrite forallb_app, H. reflexivity. Qed.

Lemma named_clean_names_other (names : list string) (c : string) :
  c <> SALES_COLUMN -> named (clean_names names) c = named names c.
Proof.
  intros Hne. unfold clean_names. destruct (derives_revenue names);
    [|reflexivity].
  unfold named. rewrite existsb_app. simpl.
  destruct (String.eqb c SALES_COLUMN) eqn:E.
  - apply String.eqb_eq in E. contradiction.
  - now rewrite !orb_false_r.
Qed.

Lemma derives_clean_names (names : list string) :
  derives_revenue (clean_names names) = false.
Proof.
  unfold derives_revenue at 1. rewrite named_clean_names.
  destruct (named names SALES_COLUMN) eqn:Es; [reflexivity|].
  destruct (derives_revenue names) eqn:Ed; [reflexivity|].
  unfold clean_names. rewrite Ed. simpl.
  unfold derives_revenue in Ed. rewrite Es in Ed. exact Ed.
Qed.

Lemma count_clean_names_other (names : list string) (c : string) :
  c <> SALES_COLUMN ->
  count_occ string_dec (clean_names names) c = count_occ string_dec names c.
Proof.
  intros Hne. unfold clean_names. destruct (derives_revenue names);
    [|reflexivity].
  rewrite count_occ_app. cbn [count_occ].
  destruct (string_dec SALES_COLUMN c); [congruence | lia].
Qed.

Section Fixed.

Variable numeric_of_object : cell -> option Qc.
Variable datetime_of_object : Series -> cell -> option Timestamp.
Context {np : Arithmetic}.
Variable names : list string.
Variable dates : Series.
Variable r : list cell.

Hypothesis Hcount :
  forall c, In c [QTY_COLUMN; PRICE_COLUMN; DATE_COLUMN; SALES_COLUMN] ->
    (count_occ string_dec names c <= 1)%nat.
Hypothesis Hder : derives_revenue names = false.
Hypothesis Hq : named names QTY_COLUMN = true ->
                exists q, lookup names QTY_COLUMN r = Num q.
Hypothesis Hp : named names PRICE_COLUMN = true ->
                exists q, lookup names PRICE_COLUMN r = Num q.
Hypothesis Hd : named names DATE_COLUMN = true ->
                exists d, lookup names DATE_COLUMN r = Date d.
Hypothesis Hs : named names SALES_COLUMN = true ->
                exists q, lookup names SALES_COLUMN r = Num q /\ (0 < q)%Qc.
Hypothesis Hfull : forallb is_null r = false.

Lemma clean_row_fixed :
  clean_row numeric_of_object datetime_of_object names dates r = r.
Proof using Hcount Hder Hq Hp Hd Hs.
  unfold clean_row, quantity, price, date_read, revenue. cbv zeta.
  rewrite Hder.
  assert (R1 : (if named names QTY_COLUMN
                then store names QTY_COLUMN
                       (Num (number_or_zero numeric_of_object
                               (lookup names QTY_COLUMN r))) r
                else r) = r).
  { destruct (named names QTY_COLUMN); [|reflexivity].
    destruct (Hq eq_refl) as [q E]. rewrite E.
    change (number_or_zero numeric_of_object (Num q)) with q.
    rewrite <- E. apply store_lookup_id, Hcount. simpl. tauto. }
  rewrite R1.
  assert (R2 : (if named names PRICE_COLUMN
                then store names PRICE_COLUMN
                       (Num (number_or_zero numeric_of_object
                               (lookup names PRICE_COLUMN r))) r
                else r) = r).
  { destruct (named names PRICE_COLUMN); [|reflexivity].
    destruct (Hp eq_refl) as [q E]. rewrite E.
    change (number_or_zero numeric_of_object (Num q)) with q.
    rewrite <- E. apply store_lookup_id, Hcount. simpl. tauto. }
  rewrite R2.
  assert (R3 : (if named names DATE_COLUMN
                then store names DATE_COLUMN
                       (to_datetime_cell datetime_of_object dates
                          (lookup names DATE_COLUMN r)) r
                else r) = r).
  { destruct (named names DATE_COLUMN); [|reflexivity].
    destruct (Hd eq_refl) as [d E]. rewrite E.
    change (to_datetime_cell datetime_of_object dates (Date d)) with (Date d).
    rewrite <- E. apply store_lookup_id, Hcount. simpl. tauto. }
  rewrite R3.
  destruct (named names SALES_COLUMN); [|reflexivity].
  destruct (Hs eq_refl) as (q & E & _). rewrite E.
  change (number_or_zero numeric_of_object (Num q)) with q.
  rewrite <- E. apply store_lookup_id, Hcount. simpl. tauto.
Qed.

Lemma survives_fixed :
  survives numeric_of_object datetime_of_object names dates r = true.
Proof using Hder Hd Hs Hfull.
  unfold survives, date_read, revenue. rewrite Hfull, Hder. cbn [negb andb].
  apply andb_true_iff. split.
  - destruct (named names DATE_COLUMN); [|reflexivity].
    destruct (Hd eq_refl) as [d ->]. reflexivity.
  - destruct (named names SALES_COLUMN); [|reflexivity].
    destruct (Hs eq_refl) as (q & -> & Hpos). cbn [negb orb].
    change (number_or_zero numeric_of_object (Num q)) with q.
    now apply Qc_ltb_lt.
Qed.

End Fixed.

Section CleanTables.

Variable numeric_of_object : cell -> option Qc.
Variable datetime_of_object : Series -> cell -> option Timestamp.
Context {np : Arithmetic}.

Local Set Default Proof Using "Type".

Lemma clean_row_not_empty (names : list string) (dates : Series)
  (r : list cell) :
  forallb is_null r = false ->
  (named names DATE_COLUMN = true ->
   is_null (date_read datetime_of_object names dates r) = false) ->
  forallb is_null
    (clean_row numeric_of_object datetime_of_object names dates r) = false.
Proof.
  intros Hfull Hdate. unfold clean_row. cbv zeta.
  destruct (named names QTY_COLUMN), (named names PRICE_COLUMN),
    (named names DATE_COLUMN), (named names SALES_COLUMN),
    (derives_revenue names);
    repeat first [ assumption | reflexivity
                 | apply forallb_snoc
                 | apply forallb_store
                 | now apply Hdate ].
Qed.

Lemma survives_parts (names : list string) (dates : Series) (r : list cell) :
  survives numeric_of_object datetime_of_object names dates r = true ->
  forallb is_null r = false
  /\ (named names DATE_COLUMN = true ->
      is_null (date_read datetime_of_object names dates r) = false)
  /\ (named names SALES_COLUMN || derives_revenue names = true ->
      (0 < revenue numeric_of_object names r)%Qc).
Proof.
  unfold survives. rewrite !andb_true_iff, negb_true_iff.
  intros [[H1 H2] H3]. split; [assumption|]. split.
  - intros E. rewrite E in H2. simpl in H2. now apply negb_true_iff.
  - intros E. rewrite E in H3. simpl in H3. now apply Qc_ltb_lt.
Qed.

Lemma clean_table_is_clean (raw : DataFrame) :
  rectangular raw ->
  labels_unambiguous raw ->
  is_clean (clean_table numeric_of_object datetime_of_object raw).
Proof.
  intros Hrect Hu.
  set (names := map PyStr.strip (columns raw)) in *.
  assert (Hcols : columns (clean_table numeric_of_object datetime_of_object raw)
                  = clean_names names) by reflexivity.
  unfold is_clean. rewrite Hcols.
  split; [|split; [|split; [|split]]].
  - unfold rectangular. rewrite Hcols. apply Forall_forall. intros r Hr.
    apply clean_table_row in Hr as (r0 & dates & Hin & _ & ->).
    apply clean_row_length. now apply rectangular_length.
  - intros c Hc. unfold clean_names in Hc.
    assert (Hn : In c names \/ c = SALES_COLUMN).
    { destruct (derives_revenue names); [|now left].
      apply in_app_or in Hc as [Hc|[<-|[]]]; auto. }
    destruct Hn as [Hn | ->]; [|split; reflexivity].
    apply in_map_iff in Hn as (c0 & <- & _). apply strip_ends.
  - intros c Hc. destruct (string_dec c SALES_COLUMN) as [->|Hne].
    + apply count_clean_names. apply Hu. simpl. tauto.
    + rewrite count_clean_names_other by assumption. now apply Hu.
  - intros Hq Hp. apply named_In in Hq, Hp. apply named_In.
    rewrite named_clean_names_other in Hq, Hp by discriminate.
    rewrite named_clean_names. unfold derives_revenue. rewrite Hq, Hp.
    now destruct (named names SALES_COLUMN).
  - intros r Hr.
    apply clean_table_row in Hr as (r0 & dates & Hin & Hsurv & ->).
    fold names in Hsurv |- *.
    pose proof (rectangular_length raw r0 Hrect Hin) as Hlen.
    fold names in Hlen.
    apply survives_parts in Hsurv as (Hfull & Hdate & Hrev).
    unfold clean_rows_of, cell_of. rewrite Hcols.
    split; [now apply clean_row_not_empty|].
    split; [|split; [|split]].
    + intros Hq. apply named_In in Hq.
      rewrite named_clean_names_other in Hq by discriminate.
      rewrite clean_row_quantity by assumption. eauto.
    + intros Hp. apply named_In in Hp.
      rewrite named_clean_names_other in Hp by discriminate.
      rewrite clean_row_price by assumption. eauto.
    + intros Hd. apply named_In in Hd.
      rewrite named_clean_names_other in Hd by discriminate.
      rewrite clean_row_date by assumption.
      apply date_read_cases. now apply Hdate.
    + intros Hs. apply named_In in Hs. rewrite named_clean_names in Hs.
      rewrite clean_row_revenue by assumption. eauto.
Qed.

Lemma cleaned_is_clean (raw out : DataFrame) :
  rectangular raw ->
  clean_data numeric_of_object datetime_of_object raw = Ok out ->
  is_clean out.
Proof.
  intros Hrect H.
  pose proof (clean_data_Ok_unambiguous _ _ raw out H) as Hu.
  apply (clean_data_Ok_rowwise _ _ raw out Hrect) in H. subst out.
  now apply clean_table_is_clean.
Qed.

Lemma is_clean_unambiguous (df : DataFrame) :
  is_clean df -> rectangular df /\ labels_unambiguous df.
Proof.
  intros (Hrect & Hnames & Hcount & _). split; [assumption|].
  intros c Hc. rewrite (map_strip_fixed (columns df) Hnames).
  now apply Hcount.
Qed.

Lemma clean_table_fixed (df : DataFrame) :
  is_clean df -> clean_table numeric_of_object datetime_of_object df = df.
Proof.
  intros (Hrect & Hnames & Hcount & Hrev & Hrows).
  pose proof (map_strip_fixed (columns df) Hnames) as Hstrip.
  assert (Hder : derives_revenue (columns df) = false).
  { unfold derives_revenue.
    destruct (named (columns df) SALES_COLUMN) eqn:Es; [reflexivity|].
    destruct (named (columns df) QTY_COLUMN) eqn:Eq; [|reflexivity].
    destruct (named (columns df) PRICE_COLUMN) eqn:Ep; [|reflexivity].
    apply named_In in Eq, Ep. apply named_false in Es.
    exfalso. apply Es. now apply Hrev. }
  unfold clean_table. rewrite Hstrip.
  set (dates := date_context df).
  assert (Hfix : forall r, In r (rows df) ->
            clean_row numeric_of_object datetime_of_object (columns df) dates r
            = r
            /\ survives numeric_of_object datetime_of_object (columns df)
                 dates r = true).
  { intros r Hr. destruct (Hrows r Hr) as (Hfull & Hq & Hp & Hd & Hs).
    unfold cell_of in *.
    split; [apply clean_row_fixed | apply survives_fixed];
      try assumption;
      intros E; apply named_In in E; auto. }
  unfold clean_names. rewrite Hder.
  rewrite forallb_filter_id.
  2:{ apply forallb_forall. intros r Hr. now apply Hfix. }
  rewrite (map_ext_in _ (fun r => r)); [|intros r Hr; now apply Hfix].
  rewrite map_id. now destruct df.
Qed.

Lemma clean_is_fixed (df : DataFrame) :
  is_clean df -> clean_data numeric_of_object datetime_of_object df = Ok df.
Proof.
  intros H. destruct (is_clean_unambiguous df H) as [Hrect Hu].
  rewrite (clean_data_rowwise _ _ df Hrect Hu).
  now rewrite clean_table_fixed.
Qed.

(** X2: what comes out of [clean_data] is a clean table: rectangular; its
    column names without a blank at either end, none of the configured ones
    borne twice; a revenue column there as soon as a quantity and a price
    column are; no empty row; under the configured columns, numbers for
    quantity, price and revenue, the revenue positive, and timestamps for
    the date: no missing value is left there. *)
Theorem clean_data_establishes_the_invariant :
  forall (raw out : DataFrame),
    rectangular raw ->
    clean_data numeric_of_object datetime_of_object raw = Ok out ->
    is_clean out.
Proof.
  intros raw out Hrect H.
  assert (Hu : labels_unambiguous raw)
    by exact (clean_data_Ok_unambiguous _ _ raw out H).
  assert (E : out = clean_table numeric_of_object datetime_of_object raw)
    by exact (clean_data_Ok_rowwise _ _ raw out Hrect H).
  rewrite E. apply clean_table_is_clean; assumption.
Qed.

(** X3: [clean_data] leaves a clean table as it is. *)
Theorem clean_data_fixes_clean_tables :
  forall (df : DataFrame),
    is_clean df ->
    clean_data numeric_of_object datetime_of_object df = Ok df.
Proof.
  intros df H.
  destruct (is_clean_unambiguous df H) as [Hrect Hu].
  rewrite (clean_data_rowwise _ _ df Hrect Hu).
  f_equal. apply clean_table_fixed. exact H.
Qed.

(** X4: cleaning twice is cleaning once. *)
Theorem clean_data_idempotent :
  forall (raw out : DataFrame),
    rectangular raw ->
    clean_data numeric_of_object datetime_of_object raw = Ok out ->
    clean_data numeric_of_object datetime_of_object out = Ok out.
Proof.
  intros raw out Hrect H. apply clean_is_fixed.
  now apply cleaned_is_clean with raw.
Qed.

(** X5: a revenue column that the raw table supplies is never recomputed
    from quantity and price: each surviving row holds the supplied value
    read as a number, whatever its quantity times its price would be. *)
Theorem clean_data_keeps_supplied_revenue :
  forall (raw out : DataFrame),
    rectangular raw ->
    In SALES_COLUMN (map PyStr.strip (columns raw)) ->
    clean_data numeric_of_object datetime_of_object raw = Ok out ->
    columns out = map PyStr.strip (columns raw)
    /\ forall r, In r (rows out) ->
         exists r0,
           In r0 (rows raw)
           /\ cell_of out SALES_COLUMN r
              = Num (number_or_zero numeric_of_object
                       (lookup (map PyStr.strip (columns raw)) SALES_COLUMN r0)).
Proof.
  intros raw out Hrect Hs H.
  apply (clean_data_Ok_rowwise _ _ raw out Hrect) in H. subst out.
  set (names := map PyStr.strip (columns raw)) in *.
  apply named_In in Hs.
  assert (Hd : derives_revenue names = false).
  { unfold derives_revenue. now rewrite Hs. }
  assert (Hc : columns (clean_table numeric_of_object datetime_of_object raw)
               = names).
  { unfold clean_table, clean_names. fold names. cbn [columns]. now rewrite Hd. }
  split; [exact Hc|].
  intros r Hr. apply clean_table_row in Hr as (r0 & dates & Hin & _ & ->).
  fold names. exists r0. split; [assumption|].
  pose proof (rectangular_length raw r0 Hrect Hin) as Hlen.
  fold names in Hlen. unfold cell_of.
  replace (columns (clean_table numeric_of_object datetime_of_object raw))
    with (clean_names names) by reflexivity.
  rewrite clean_row_revenue by (try assumption; now rewrite Hs).
  unfold revenue. now rewrite Hs.
Qed.

End CleanTables.

Section CleanedSamples.

Local Existing Instance Numpy.int64_columns.

Lemma scenario_cleaned_is_clean : is_clean scenario_cleaned.
Proof.
  split; [repeat constructor|].
  split.
  { intros c Hc. simpl in Hc.
    repeat destruct Hc as [<-|Hc]; try contradiction; split; reflexivity. }
  split.
  { intros c Hc. simpl in Hc.
    repeat destruct Hc as [<-|Hc]; try contradiction; vm_compute; lia. }
  split; [simpl; tauto|].
  intros r Hr. simpl in Hr.
  repeat destruct Hr as [<-|Hr]; try contradiction;
    (split; [reflexivity|]);
    (split; [intros _; eexists; reflexivity|]);
    (split; [intros _; eexists; reflexivity|]);
    (split; [intros _; eexists; reflexivity|]);
    intros _; eexists; (split; [reflexivity|]); reflexivity.
Qed.

Lemma clean_data_establishes_the_invariant_witness : is_clean scenario_cleaned.
Proof.
  apply (clean_data_establishes_the_invariant Readers.numeric_of_object
           Readers.datetime_of_object scenario scenario_cleaned).
  - exact scenario_rectangular.
  - exact scenario_is_cleaned.
Defined.

Lemma clean_data_fixes_clean_tables_witness :
  clean scenario_cleaned = Ok scenario_cleaned.
Proof.
  apply (clean_data_fixes_clean_tables Readers.numeric_of_object
           Readers.datetime_of_object scenario_cleaned).
  exact scenario_cleaned_is_clean.
Defined.

Lemma clean_data_idempotent_witness :
  clean scenario_cleaned = Ok scenario_cleaned.
Proof.
  apply (clean_data_idempotent Readers.numeric_of_object
           Readers.datetime_of_object scenario scenario_cleaned).
  - exact scenario_rectangular.
  - exact scenario_is_cleaned.
Defined.

Lemma invoiced_is_cleaned :
  clean invoiced
  = Ok {| columns := ["QUANTITYORDERED"; "PRICEEACH"; "SALES"];
          rows := [ [num 2; num 10; num 25] ] |}.
Proof. apply result_eqb_eq. vm_compute. reflexivity. Qed.

Lemma clean_data_keeps_supplied_revenue_witness :
  columns {| columns := ["QUANTITYORDERED"; "PRICEEACH"; "SALES"];
             rows := [ [num 2; num 10; num 25] ] |}
  = map PyStr.strip (columns invoiced)
  /\ forall r,
       In r (rows {| columns := ["QUANTITYORDERED"; "PRICEEACH"; "SALES"];
                     rows := [ [num 2; num 10; num 25] ] |}) ->
       exists r0,
         In r0 (rows invoiced)
         /\ cell_of {| columns := ["QUANTITYORDERED"; "PRICEEACH"; "SALES"];
                       rows := [ [num 2; num 10; num 25] ] |} SALES_COLUMN r
            = Num (number_or_zero Readers.numeric_of_object
                     (lookup (map PyStr.strip (columns invoiced))
                        SALES_COLUMN r0)).
Proof.
  apply (clean_data_keeps_supplied_revenue Readers.numeric_of_object
           Readers.datetime_of_object invoiced).
  - repeat constructor.
  - simpl. tauto.
  - exact invoiced_is_cleaned.
Defined.

End CleanedSamples.


(** ** The columns the cleaner does not name *)

Section OtherColumns.

Variable numeric_of_object : cell -> option Qc.
Variable datetime_of_object : Series -> cell -> option Timestamp.
Context {np : Arithmetic}.

Local Set Default Proof Using "Type".

Lemma clean_row_other (names : list string) (dates : Series) (r : list cell)
  (c : string) :
  List.length r = List.length names ->
  ~ In c [QTY_COLUMN; PRICE_COLUMN; DATE_COLUMN; SALES_COLUMN] ->
  lookup (clean_names names) c
    (clean_row numeric_of_object datetime_of_object names dates r)
  = lookup names c r.
Proof.
  intros Hlen Hc.
  assert (Hq : QTY_COLUMN <> c) by (intros <-; apply Hc; simpl; tauto).
  assert (Hp : PRICE_COLUMN <> c) by (intros <-; apply Hc; simpl; tauto).
  assert (Hd : DATE_COLUMN <> c) by (intros <-; apply Hc; simpl; tauto).
  assert (Hs : SALES_COLUMN <> c) by (intros <-; apply Hc; simpl; tauto).
  unfold clean_row, clean_names, derives_revenue. cbv zeta.
  destruct (named names QTY_COLUMN), (named names PRICE_COLUMN),
    (named names DATE_COLUMN), (named names SALES_COLUMN);
    cbn [negb andb];
    repeat first
      [ reflexivity
      | rewrite lookup_store_other by assumption
      | rewrite lookup_app_other
          by (first [assumption | now rewrite ?length_store]) ].
Qed.

Lemma length_filter_le {A : Type} (p : A -> bool) (l : list A) :
  (List.length (filter p l) <= List.length l)%nat.
Proof.
  induction l as [|a l IH]; simpl; [lia|]. destruct (p a); simpl; lia.
Qed.

(** X6: the cleaner drops rows and never adds any, keeps the rows it keeps
    in their order, and touches no cell outside the four columns it names:
    under any other label, the column of the cleaned table is the raw
    column, restricted to the surviving rows. *)
Theorem clean_data_keeps_other_columns :
  forall (raw out : DataFrame),
    rectangular raw ->
    clean_data numeric_of_object datetime_of_object raw = Ok out ->
    (List.length (rows out) <= List.length (rows raw))%nat
    /\ forall c,
         ~ In c [QTY_COLUMN; PRICE_COLUMN; DATE_COLUMN; SALES_COLUMN] ->
         column c out
         = map (lookup (map PyStr.strip (columns raw)) c)
             (filter (survives numeric_of_object datetime_of_object
                        (map PyStr.strip (columns raw)) (date_context raw))
                     (rows raw)).
Proof.
  intros raw out Hrect H.
  apply (clean_data_Ok_rowwise _ _ raw out Hrect) in H. subst out.
  unfold clean_table. cbv zeta. split.
  - cbn [rows]. rewrite length_map. apply length_filter_le.
  - intros c Hc. unfold column. cbn [columns rows]. rewrite map_map.
    apply map_ext_in. intros r Hr. apply filter_In in Hr as [Hr _].
    apply clean_row_other; [|assumption].
    now apply rectangular_length.
Qed.

End OtherColumns.

Section OtherColumnsSample.

Local Existing Instance Numpy.int64_columns.

Lemma clean_data_keeps_other_columns_witness :
  (List.length (rows scenario_cleaned) <= List.length (rows scenario))%nat
  /\ forall c,
       ~ In c [QTY_COLUMN; PRICE_COLUMN; DATE_COLUMN; SALES_COLUMN] ->
       column c scenario_cleaned
       = map (lookup (map PyStr.strip (columns scenario)) c)
           (filter (survives Readers.numeric_of_object
                      Readers.datetime_of_object
                      (map PyStr.strip (columns scenario))
                      (date_context scenario))
                   (rows scenario)).
Proof.
  apply (clean_data_keeps_other_columns Readers.numeric_of_object
           Readers.datetime_of_object scenario scenario_cleaned).
  - exact scenario_rectangular.
  - exact scenario_is_cleaned.
Defined.

End OtherColumnsSample.


(** ** Time features, further *)

Lemma getitem_present (c : string) (df : DataFrame) :
  In c (columns df) -> exists x, getitem c df = Ok x.
Proof.
  intros H. unfold getitem.
  apply (count_occ_In string_dec) in H.
  destruct (count_occ string_dec (columns df) c) as [|[|n]]; [lia| |]; eauto.
Qed.

Lemma getitem_Ok_series (c : string) (df : DataFrame) (s : Series) :
  getitem c df = Ok (ASeries s) ->
  count_occ string_dec (columns df) c = 1%nat /\ s = column c df.
Proof.
  unfold getitem.
  destruct (count_occ string_dec (columns df) c) as [|[|n]];
    [discriminate| |discriminate].
  intros H. injection H as <-. now split.
Qed.

Lemma dt_Ok (x : item) (ts : list Timestamp) :
  dt x = Ok ts -> exists s, x = ASeries s /\ timestamps s = Some ts.
Proof.
  destruct x as [s|ss]; [|discriminate]. cbn [dt].
  destruct (timestamps s) as [ts'|] eqn:E; [|discriminate].
  intros H. injection H as <-. eauto.
Qed.

Lemma dt_outcome (x : item) :
  (exists ts, dt x = Ok ts) \/ dt x = Raise AttributeError.
Proof.
  destruct x as [s|ss]; cbn [dt]; [|now right].
  destruct (timestamps s); [left; eauto | now right].
Qed.

Lemma timestamps_Some (s : Series) (ts : list Timestamp) :
  timestamps s = Some ts -> forall v, In v s -> exists t, v = Date t.
Proof.
  revert ts. induction s as [|v s IH]; intros ts H w Hw; [destruct Hw|].
  destruct v as [| | |t]; try discriminate. cbn [timestamps] in H.
  destruct (timestamps s) as [ts'|]; [|discriminate].
  destruct Hw as [<-|Hw]; [eauto | now apply (IH ts')].
Qed.

Lemma timestamps_None (s : Series) (v : cell) :
  In v s -> (forall t, v <> Date t) -> timestamps s = None.
Proof.
  intros Hv Hn. destruct (timestamps s) as [ts|] eqn:E; [|reflexivity].
  destruct (timestamps_Some s ts E v Hv) as [t ->]. now destruct (Hn t).
Qed.

Lemma time_step_feature (c : string) (g : Timestamp -> cell)
  (k : DataFrame -> result DataFrame) (df : DataFrame) :
  dates_only df -> time_step c g k df = k (feature c g df).
Proof.
  intros (Hrect & Hcount & Hrows). unfold time_step.
  rewrite (getitem_single _ _ Hcount). cbn [bind dt].
  rewrite timestamps_all.
  2:{ intros v Hv. unfold column in Hv.
      apply in_map_iff in Hv as (r & <- & Hr). now apply Hrows. }
  cbn [bind]. unfold column. rewrite !map_map.
  exact (f_equal k
           (setitem_with_cell c
              (fun r => g (the_timestamp (lookup (columns df) DATE_COLUMN r)))
              df)).
Qed.

Lemma feature_date (c : string) (g : Timestamp -> cell) (df : DataFrame)
  (r : list cell) (v : cell) :
  c <> DATE_COLUMN -> List.length r = List.length (columns df) ->
  lookup (columns (feature c g df)) DATE_COLUMN (with_cell (columns df) c v r)
  = lookup (columns df) DATE_COLUMN r.
Proof.
  intros Hc Hlen. cbn [feature columns].
  now apply lookup_with_cell_other.
Qed.

Lemma feature_dates_only (c : string) (g : Timestamp -> cell)
  (df : DataFrame) :
  dates_only df -> c <> DATE_COLUMN -> dates_only (feature c g df).
Proof.
  intros (Hrect & Hcount & Hrows) Hc.
  unfold rectangular in Hrect. rewrite Forall_forall in Hrect.
  split; [|split].
  - unfold rectangular. cbn [feature columns rows]. apply Forall_forall.
    intros r' Hr'. apply in_map_iff in Hr' as (r & <- & Hr).
    apply length_with_cell. now apply Hrect.
  - cbn [feature columns]. now rewrite count_occ_with_column_other.
  - intros r' Hr'. cbn [feature rows] in Hr'.
    apply in_map_iff in Hr' as (r & <- & Hr).
    rewrite feature_date by (try assumption; now apply Hrect).
    now apply Hrows.
Qed.

Lemma add_time_features_featured (df : DataFrame) :
  dates_only df -> add_time_features df = Ok (with_time_features df).
Proof.
  intros H.
  set (gY := fun t => Num (Qc_of_Z (year t))).
  set (gM := fun t => Num (Qc_of_Z (month t))).
  set (gB := fun t => Str (period_M_str t)).
  assert (E : add_time_features df
              = time_step "Year" gY
                  (time_step "Month" gM (time_step "YearMonth" gB Ok)) df).
  { unfold add_time_features.
    destruct H as (_ & Hcount & _).
    assert (Hin : In DATE_COLUMN (columns df)).
    { apply (count_occ_In string_dec). lia. }
    now rewrite (proj2 (has_column_In DATE_COLUMN df) Hin). }
  rewrite E.
  pose proof (feature_dates_only "Year" gY df H ltac:(discriminate)) as H1.
  pose proof (feature_dates_only "Month" gM _ H1 ltac:(discriminate)) as H2.
  now rewrite !time_step_feature.
Qed.

Lemma add_time_features_Ok_dates (df out : DataFrame) :
  rectangular df -> add_time_features df = Ok out -> dates_only df.
Proof.
  intros Hrect H. unfold add_time_features in H.
  destruct (negb (has_column DATE_COLUMN df)); [discriminate|].
  apply bind_Ok in H as (x & Hx & H). apply bind_Ok in H as (ts & Hts & _).
  apply dt_Ok in Hts as (s & -> & Hs).
  apply getitem_Ok_series in Hx as (Hcount & ->).
  split; [assumption|]. split; [assumption|].
  intros r Hr. apply (timestamps_Some _ _ Hs).
  unfold column. now apply in_map.
Qed.

Lemma add_time_features_Ok_featured (df out : DataFrame) :
  rectangular df -> add_time_features df = Ok out ->
  out = with_time_features df.
Proof.
  intros Hrect H.
  pose proof (add_time_features_Ok_dates df out Hrect H) as Hd.
  rewrite (add_time_features_featured df Hd) in H. now injection H.
Qed.

(** *** What the function raises *)

Lemma count_time_columns (cols : list string) :
  count_occ string_dec
    (with_column "YearMonth" (with_column "Month" (with_column "Year" cols)))
    DATE_COLUMN
  = count_occ string_dec cols DATE_COLUMN.
Proof. now rewrite !count_occ_with_column_other by discriminate. Qed.

Lemma add_time_features_raises (df : DataFrame) (e : exn) :
  add_time_features df = Raise e ->
  (e = KeyError /\ ~ In DATE_COLUMN (columns df))
  \/ (e = AttributeError /\ In DATE_COLUMN (columns df)).
Proof.
  unfold add_time_features.
  destruct (has_column DATE_COLUMN df) eqn:Hhas; cbn [negb].
  2:{ intros H. injection H as <-. left. split; [reflexivity|].
      intros Hin. apply has_column_In in Hin. congruence. }
  apply has_column_In in Hhas. intros H. right. split; [|assumption].
  assert (Hget : forall c s d, c <> DATE_COLUMN ->
            In DATE_COLUMN (columns d) ->
            exists x, getitem DATE_COLUMN (setitem c s d) = Ok x
                      /\ In DATE_COLUMN (columns (setitem c s d))).
  { intros c s d Hc Hin.
    assert (Hin' : In DATE_COLUMN (columns (setitem c s d))).
    { rewrite setitem_columns. apply In_with_column. now right. }
    destruct (getitem_present _ _ Hin') as [x Hx]. eauto. }
  destruct (getitem_present _ _ Hhas) as [x1 E1]. rewrite E1 in H.
  cbn [bind] in H.
  destruct (dt_outcome x1) as [[t1 D1]|D1]; rewrite D1 in H; cbn [bind] in H;
    [|congruence].
  destruct (Hget "Year" (map (fun t => Num (Qc_of_Z (year t))) t1) df
              ltac:(discriminate) Hhas) as (x2 & E2 & Hin2).
  rewrite E2 in H. cbn [bind] in H.
  destruct (dt_outcome x2) as [[t2 D2]|D2]; rewrite D2 in H; cbn [bind] in H;
    [|congruence].
  destruct (Hget "Month" (map (fun t => Num (Qc_of_Z (month t))) t2) _
              ltac:(discriminate) Hin2) as (x3 & E3 & Hin3).
  rewrite E3 in H. cbn [bind] in H.
  destruct (dt_outcome x3) as [[t3 D3]|D3]; rewrite D3 in H; cbn [bind] in H;
    [discriminate|congruence].
Qed.

(** X7: what [add_time_features] raises.  Without a date column it raises
    [KeyError], and it raises [KeyError] in no other case; with a date
    label borne by two columns, or one date column that holds a string or a
    number, it raises [AttributeError] (there is no [.dt] to read); it
    never raises a [TypeError] or a [ValueError]. *)
Theorem add_time_features_outcome :
  forall (df : DataFrame),
    (add_time_features df = Raise KeyError <-> ~ In DATE_COLUMN (columns df))
    /\ ((2 <= count_occ string_dec (columns df) DATE_COLUMN)%nat ->
        add_time_features df = Raise AttributeError)
    /\ (count_occ string_dec (columns df) DATE_COLUMN = 1%nat ->
        (exists v, In v (column DATE_COLUMN df)
                   /\ ((exists s, v = Str s) \/ (exists q, v = Num q))) ->
        add_time_features df = Raise AttributeError)
    /\ add_time_features df <> Raise TypeError
    /\ add_time_features df <> Raise ValueError.
Proof.
  intros df. split; [|split; [|split; [|split]]].
  - split.
    + intros H. apply add_time_features_raises in H as [[_ H]|[H _]];
        [assumption|discriminate].
    + intros H. unfold add_time_features.
      destruct (has_column DATE_COLUMN df) eqn:E; [|reflexivity].
      apply has_column_In in E. contradiction.
  - intros H. unfold add_time_features.
    assert (Hin : In DATE_COLUMN (columns df)).
    { apply (count_occ_In string_dec). lia. }
    rewrite (proj2 (has_column_In _ _) Hin). cbn [negb].
    destruct (getitem_several _ _ H) as [ss ->]. reflexivity.
  - intros Hcount (v & Hv & Hkind). unfold add_time_features.
    assert (Hin : In DATE_COLUMN (columns df)).
    { apply (count_occ_In string_dec). lia. }
    rewrite (proj2 (has_column_In _ _) Hin). cbn [negb].
    rewrite (getitem_single _ _ Hcount). cbn [bind dt].
    rewrite (timestamps_None _ v Hv); [reflexivity|].
    intros t E. destruct Hkind as [[s ->]|[q ->]]; discriminate.
  - intros H. apply add_time_features_raises in H as [[H _]|[H _]];
      discriminate.
  - intros H. apply add_time_features_raises in H as [[H _]|[H _]];
      discriminate.
Qed.

(** *** What the function keeps *)

Lemma feature_column_other (c c' : string) (g : Timestamp -> cell)
  (df : DataFrame) :
  rectangular df -> c <> c' -> column c' (feature c g df) = column c' df.
Proof.
  intros Hrect Hc. unfold rectangular in Hrect.
  rewrite Forall_forall in Hrect.
  unfold column. cbn [feature columns rows]. rewrite map_map.
  apply map_ext_in. intros r Hr.
  apply lookup_with_cell_other; [assumption | now apply Hrect].
Qed.

Lemma feature_rectangular (c : string) (g : Timestamp -> cell)
  (df : DataFrame) : rectangular df -> rectangular (feature c g df).
Proof.
  intros Hrect. unfold rectangular in *. rewrite Forall_forall in *.
  cbn [feature columns rows]. intros r' Hr'.
  apply in_map_iff in Hr' as (r & <- & Hr).
  apply length_with_cell. now apply Hrect.
Qed.

Lemma with_column_app (c : string) (cols : list string) :
  exists extra,
    with_column c cols = cols ++ extra
    /\ forall x, In x extra <-> x = c /\ ~ In c cols.
Proof.
  unfold with_column. destruct (existsb (String.eqb c) cols) eqn:E.
  - exists []. split; [now rewrite app_nil_r|].
    apply existsb_eqb_In in E. intros x. simpl. tauto.
  - exists [c]. split; [reflexivity|].
    assert (~ In c cols).
    { intros H. apply existsb_eqb_In in H. congruence. }
    intros x. simpl. intuition congruence.
Qed.

(** X8: [add_time_features] only adds: the columns of its result are those
    of its argument, in their order, followed by those of "Year", "Month"
    and "YearMonth" that were not there; there are as many rows; and under
    every other label the column is the one of the argument. *)
Theorem add_time_features_keeps_other_columns :
  forall (df out : DataFrame),
    rectangular df ->
    add_time_features df = Ok out ->
    (exists extra,
       columns out = columns df ++ extra
       /\ forall c, In c extra ->
            In c ["Year"; "Month"; "YearMonth"] /\ ~ In c (columns df))
    /\ rectangular out
    /\ List.length (rows out) = List.length (rows df)
    /\ forall c, ~ In c ["Year"; "Month"; "YearMonth"] ->
         column c out = column c df.
Proof.
  intros df out Hrect H.
  apply (add_time_features_Ok_featured df out Hrect) in H. subst out.
  unfold with_time_features.
  set (gY := fun t => Num (Qc_of_Z (year t))).
  set (gM := fun t => Num (Qc_of_Z (month t))).
  set (gB := fun t => Str (period_M_str t)).
  pose proof (feature_rectangular "Year" gY df Hrect) as H1.
  pose proof (feature_rectangular "Month" gM _ H1) as H2.
  pose proof (feature_rectangular "YearMonth" gB _ H2) as H3.
  split; [|split; [assumption|split]].
  - cbn [feature columns].
    destruct (with_column_app "Year" (columns df)) as (e1 & E1 & I1).
    destruct (with_column_app "Month" (with_column "Year" (columns df)))
      as (e2 & E2 & I2).
    destruct (with_column_app "YearMonth"
                (with_column "Month" (with_column "Year" (columns df))))
      as (e3 & E3 & I3).
    exists (e1 ++ e2 ++ e3). split.
    + rewrite E3, E2, E1. now rewrite <- !app_assoc.
    + intros c Hc. apply in_app_or in Hc as [Hc|Hc];
        [|apply in_app_or in Hc as [Hc|Hc]].
      * apply I1 in Hc as [-> Hn]. simpl. tauto.
      * apply I2 in Hc as [-> Hn]. split; [simpl; tauto|].
        intros Hin. apply Hn. apply In_with_column. now right.
      * apply I3 in Hc as [-> Hn]. split; [simpl; tauto|].
        intros Hin. apply Hn. apply In_with_column. right.
        apply In_with_column. now right.
  - cbn [feature rows]. now rewrite !length_map.
  - intros c Hc.
    rewrite !feature_column_other; try assumption; try reflexivity;
      intros <-; apply Hc; simpl; tauto.
Qed.

(** *** Deriving the features twice *)

Lemma store_store_same (cols : list string) (c : string) (v : cell)
  (r : list cell) :
  store cols c v (store cols c v r) = store cols c v r.
Proof.
  revert r. induction cols as [|k cols IH]; intros [|x r]; try reflexivity.
  cbn [store]. rewrite IH. now destruct (String.eqb k c).
Qed.

Lemma store_store_comm (cols : list string) (c c' : string) (v v' : cell)
  (r : list cell) :
  c <> c' ->
  store cols c v (store cols c' v' r) = store cols c' v' (store cols c v r).
Proof.
  intros Hc. revert r.
  induction cols as [|k cols IH]; intros [|x r]; try reflexivity.
  cbn [store]. rewrite IH. f_equal.
  destruct (String.eqb k c) eqn:E, (String.eqb k c') eqn:E'; try reflexivity.
  apply String.eqb_eq in E, E'. congruence.
Qed.

Lemma store_app_other (cols : list string) (c c' : string) (v v' : cell)
  (r : list cell) :
  c <> c' -> List.length r = List.length cols ->
  store (cols ++ [c']) c v (r ++ [v']) = store cols c v r ++ [v'].
Proof.
  intros Hc. revert r.
  induction cols as [|k cols IH]; intros [|x r] Hlen; try discriminate.
  - cbn [app store]. destruct (String.eqb c' c) eqn:E; [|reflexivity].
    apply String.eqb_eq in E. congruence.
  - cbn [app store]. rewrite IH by (simpl in Hlen; lia). reflexivity.
Qed.

Lemma settled_fixed (c : string) (g : Timestamp -> cell) (df : DataFrame) :
  settled c g df -> feature c g df = df.
Proof.
  intros [Hin Hrows]. unfold feature, with_column, with_cell.
  rewrite (proj2 (existsb_eqb_In c (columns df)) Hin).
  rewrite (map_ext_in _ (fun r => r)) by exact Hrows.
  rewrite map_id. now destruct df.
Qed.

Lemma feature_settles (c : string) (g : Timestamp -> cell) (df : DataFrame) :
  rectangular df -> c <> DATE_COLUMN -> settled c g (feature c g df).
Proof.
  intros Hrect Hc. unfold rectangular in Hrect.
  rewrite Forall_forall in Hrect. split.
  - cbn [feature columns]. apply In_with_column. now left.
  - intros r' Hr'. cbn [feature rows] in Hr'.
    apply in_map_iff in Hr' as (r & <- & Hr).
    rewrite feature_date by (try assumption; now apply Hrect).
    cbn [feature columns]. unfold with_column, with_cell.
    destruct (existsb (String.eqb c) (columns df)) eqn:E.
    + apply store_store_same.
    + apply store_app_new; [|now apply Hrect].
      intros H. apply existsb_eqb_In in H. congruence.
Qed.

Lemma feature_keeps_settled (c c' : string) (g g' : Timestamp -> cell)
  (df : DataFrame) :
  rectangular df -> c <> c' -> c' <> DATE_COLUMN ->
  settled c g df -> settled c g (feature c' g' df).
Proof.
  intros Hrect Hc Hc' [Hin Hrows]. unfold rectangular in Hrect.
  rewrite Forall_forall in Hrect. split.
  - cbn [feature columns]. apply In_with_column. now right.
  - intros r' Hr'. cbn [feature rows] in Hr'.
    apply in_map_iff in Hr' as (r & <- & Hr).
    rewrite feature_date by (try assumption; now apply Hrect).
    cbn [feature columns]. unfold with_column, with_cell.
    destruct (existsb (String.eqb c') (columns df)) eqn:E.
    + rewrite store_store_comm by assumption. now rewrite Hrows.
    + rewrite store_app_other by (try assumption; now apply Hrect).
      now rewrite Hrows.
Qed.

Lemma with_time_features_fixed (df : DataFrame) :
  rectangular df ->
  with_time_features (with_time_features df) = with_time_features df.
Proof.
  intros Hrect. unfold with_time_features at 1.
  set (gY := fun t => Num (Qc_of_Z (year t))).
  set (gM := fun t => Num (Qc_of_Z (month t))).
  set (gB := fun t => Str (period_M_str t)).
  pose proof (feature_rectangular "Year" gY df Hrect) as H1.
  pose proof (feature_rectangular "Month" gM _ H1) as H2.
  assert (SY : settled "Year" gY (with_time_features df)).
  { apply feature_keeps_settled; try assumption; try discriminate.
    apply feature_keeps_settled; try assumption; try discriminate.
    apply feature_settles; [assumption|discriminate]. }
  assert (SM : settled "Month" gM (with_time_features df)).
  { apply feature_keeps_settled; try assumption; try discriminate.
    apply feature_settles; [assumption|discriminate]. }
  assert (SB : settled "YearMonth" gB (with_time_features df)).
  { apply feature_settles; [assumption|discriminate]. }
  rewrite (settled_fixed _ _ _ SY), (settled_fixed _ _ _ SM).
  now apply settled_fixed.
Qed.

(** X9: deriving the time features twice is deriving them once. *)
Theorem add_time_features_idempotent :
  forall (df out : DataFrame),
    rectangular df ->
    add_time_features df = Ok out ->
    add_time_features out = Ok out.
Proof.
  intros df out Hrect H.
  pose proof (add_time_features_Ok_dates df out Hrect H) as Hd.
  apply (add_time_features_Ok_featured df out Hrect) in H. subst out.
  rewrite add_time_features_featured.
  - now rewrite with_time_features_fixed.
  - unfold with_time_features.
    repeat apply feature_dates_only; try assumption; discriminate.
Qed.

Lemma scenario_cleaned_rectangular : rectangular scenario_cleaned.
Proof. repeat constructor. Qed.

Lemma add_time_features_keeps_other_columns_witness :
  (exists extra,
     columns scenario_featured = columns scenario_cleaned ++ extra
     /\ forall c, In c extra ->
          In c ["Year"; "Month"; "YearMonth"]
          /\ ~ In c (columns scenario_cleaned))
  /\ rectangular scenario_featured
  /\ List.length (rows scenario_featured)
     = List.length (rows scenario_cleaned)
  /\ forall c, ~ In c ["Year"; "Month"; "YearMonth"] ->
       column c scenario_featured = column c scenario_cleaned.
Proof.
  apply (add_time_features_keeps_other_columns scenario_cleaned
           scenario_featured).
  - exact scenario_cleaned_rectangular.
  - exact scenario_is_featured.
Defined.

Lemma add_time_features_idempotent_witness :
  add_time_features scenario_featured = Ok scenario_featured.
Proof.
  apply (add_time_features_idempotent scenario_cleaned scenario_featured).
  - exact scenario_cleaned_rectangular.
  - exact scenario_is_featured.
Defined.

(** *** The buckets, in the order of time *)

Lemma bucket_at_index (t : Timestamp) :
  valid_timestamp t ->
  (0 <= bucket_index t < 7032)%Z
  /\ period_M_str t = bucket_at (Z.to_nat (bucket_index t)).
Proof.
  intros (Hy & Hm & _). unfold bucket_index. split; [lia|].
  unfold bucket_at, period_M_str. cbn [year month].
  rewrite Z2Nat.id by lia.
  replace ((year t - 1677) * 12 + (month t - 1))%Z
    with ((month t - 1) + (year t - 1677) * 12)%Z by lia.
  rewrite Z.div_add, Z.mod_add by lia.
  rewrite Z.div_small, Z.mod_small by lia.
  now replace (1677 + (0 + (year t - 1677)))%Z with (year t) by lia;
    replace (1 + (month t - 1))%Z with (month t) by lia.
Qed.

Lemma bucket_at_next :
  forallb (fun i => String.ltb (bucket_at i) (bucket_at (S i))) (seq 0 (Z.to_nat 7031))
  = true.
Proof. vm_compute. reflexivity. Qed.

Lemma bucket_at_increasing (i j : nat) :
  (i < j < Z.to_nat 7032)%nat -> String.ltb (bucket_at i) (bucket_at j) = true.
Proof.
  intros [Hij Hj]. induction j as [|j IH]; [lia|].
  assert (Hstep : String.ltb (bucket_at j) (bucket_at (S j)) = true).
  { pose proof bucket_at_next as H. rewrite forallb_forall in H.
    apply H. apply in_seq. lia. }
  destruct (Nat.eq_dec i j) as [->|Hne]; [assumption|].
  apply string_ltb_trans with (bucket_at j); [|assumption].
  apply IH; lia.
Qed.

Lemma string_ltb_irrefl (a : string) : String.ltb a a = false.
Proof.
  destruct (String.ltb a a) eqn:E; [|reflexivity].
  apply string_ltb_lt in E. apply String_as_OT.lt_not_eq in E.
  exfalso. apply E. reflexivity.
Qed.

Lemma bucket_at_order (i j : nat) :
  (i < Z.to_nat 7032)%nat -> (j < Z.to_nat 7032)%nat ->
  (String.ltb (bucket_at i) (bucket_at j) = true <-> (i < j)%nat)
  /\ (bucket_at i = bucket_at j <-> i = j).
Proof.
  intros Hi Hj.
  assert (Hlt : forall a b, (a < b < Z.to_nat 7032)%nat -> bucket_at a <> bucket_at b).
  { intros a b Hab E. pose proof (bucket_at_increasing a b Hab) as H.
    rewrite E, string_ltb_irrefl in H. discriminate. }
  split; split.
  - intros H. destruct (Nat.lt_trichotomy i j) as [Hlt'|[->|Hgt]];
      [assumption| |].
    + rewrite string_ltb_irrefl in H. discriminate.
    + pose proof (bucket_at_increasing j i ltac:(lia)) as H'.
      pose proof (string_ltb_trans _ _ _ H H') as H''.
      rewrite string_ltb_irrefl in H''. discriminate.
  - intros H. apply bucket_at_increasing. lia.
  - intros E. destruct (Nat.lt_trichotomy i j) as [Hlt'|[->|Hgt]];
      [|reflexivity|].
    + now destruct (Hlt i j ltac:(lia)).
    + symmetry in E. now destruct (Hlt j i ltac:(lia)).
  - now intros ->.
Qed.

(** X10: the text of a month sorts as the month does.  For two timestamps,
    the "YearMonth" text of the one is below the text of the other, in the
    order of strings, exactly when its month comes first in time; and the
    two texts are the same exactly when year and month are: sorting the
    monthly table by "YearMonth" sorts it by time, and grouping by
    "YearMonth" groups by month. *)
Theorem period_M_str_orders_by_time :
  forall (a b : Timestamp),
    valid_timestamp a ->
    valid_timestamp b ->
    (String.ltb (period_M_str a) (period_M_str b) = true
     <-> (year a < year b \/ (year a = year b /\ month a < month b))%Z)
    /\ (period_M_str a = period_M_str b
        <-> year a = year b /\ month a = month b).
Proof.
  intros a b Ha Hb.
  destruct (bucket_at_index a Ha) as [Ia ->].
  destruct (bucket_at_index b Hb) as [Ib ->].
  destruct (bucket_at_order (Z.to_nat (bucket_index a))
              (Z.to_nat (bucket_index b)) ltac:(lia) ltac:(lia)) as [-> ->].
  destruct Ha as (Hya & Hma & _), Hb as (Hyb & Hmb & _).
  unfold bucket_index in *. split; split; intros H; lia.
Qed.

Lemma period_M_str_orders_by_time_witness :
  (String.ltb (period_M_str {| year := 1999; month := 12; day := 31 |})
              (period_M_str {| year := 2003; month := 1; day := 6 |}) = true
   <-> (1999 < 2003 \/ (1999 = 2003 /\ 12 < 1))%Z)
  /\ (period_M_str {| year := 1999; month := 12; day := 31 |}
      = period_M_str {| year := 2003; month := 1; day := 6 |}
      <-> 1999%Z = 2003%Z /\ 12%Z = 1%Z).
Proof.
  apply (period_M_str_orders_by_time
           {| year := 1999; month := 12; day := 31 |}
           {| year := 2003; month := 1; day := 6 |});
    repeat split; simpl; lia.
Defined.

(** ** Aggregation, further *)

Section AggregationFurther.

Context {np : Arithmetic}.

Lemma groupby_sum_totals_present (df : DataFrame) (c : string) :
  revenue_is_numeric_or_missing df ->
  GroupBy.sum (column c df) (column SALES_COLUMN df) = Ok (group_totals df c).
Proof.
  intros Hnum. unfold GroupBy.sum.
  now rewrite (revenue_addends_present df Hnum).
Qed.

Lemma groupby_sum_totals (df : DataFrame) (c : string) :
  revenue_is_numeric df ->
  GroupBy.sum (column c df) (column SALES_COLUMN df) = Ok (group_totals df c).
Proof. intros H. now apply groupby_sum_totals_present, numeric_or_missing. Qed.

Lemma group_totals_spec_present (df : DataFrame) (c : string) :
  revenue_is_numeric_or_missing df ->
  NoDup (map fst (group_totals df c))
  /\ (forall k, In k (map fst (group_totals df c)) <-> In k (groups df c))
  /\ (forall k t, In (k, t) (group_totals df c) -> t = group_total df c k)
  /\ List.length (group_totals df c) = List.length (groups df c).
Proof.
  intros Hnum.
  destruct (groupby_sum_present df c Hnum) as (totals & E & H).
  rewrite (groupby_sum_totals_present df c Hnum) in E. injection E as <-.
  exact H.
Qed.

Lemma group_totals_spec (df : DataFrame) (c : string) :
  revenue_is_numeric df ->
  NoDup (map fst (group_totals df c))
  /\ (forall k, In k (map fst (group_totals df c)) <-> In k (groups df c))
  /\ (forall k t, In (k, t) (group_totals df c) -> t = group_total df c k)
  /\ List.length (group_totals df c) = List.length (groups df c).
Proof. intros H. now apply group_totals_spec_present, numeric_or_missing. Qed.

Lemma get_top_products_ranked (df : DataFrame) (top_n : Z) :
  NoDup (columns df) ->
  In PRODUCT_COLUMN (columns df) ->
  In SALES_COLUMN (columns df) ->
  revenue_is_numeric df ->
  get_top_products df top_n
  = Ok {| columns := [PRODUCT_COLUMN; SALES_COLUMN];
          rows := map as_row (head top_n (ranking df)) |}.
Proof.
  intros Hnd Hp Hs Hnum. unfold get_top_products.
  rewrite (proj2 (has_column_In PRODUCT_COLUMN df) Hp). cbn [negb].
  rewrite (grouper_single _ _ Hnd Hp). cbn [bind].
  rewrite (getitem_single SALES_COLUMN df)
    by now apply NoDup_count_occ_single.
  cbn [bind]. rewrite (groupby_sum_totals df _ Hnum). reflexivity.
Qed.

Lemma head_map {A B : Type} (f : A -> B) (n : Z) (l : list A) :
  head n (map f l) = map f (head n l).
Proof.
  unfold head. rewrite length_map.
  destruct (0 <=? n)%Z; now rewrite firstn_map.
Qed.

Lemma head_all {A : Type} (n : Z) (l : list A) :
  (Z.of_nat (List.length l) <= n)%Z -> head n l = l.
Proof.
  intros H. unfold head.
  destruct (0 <=? n)%Z eqn:E; [|apply Z.leb_gt in E; lia].
  apply firstn_all2. lia.
Qed.

Lemma head_prefix {A : Type} (n : Z) (l : list A) :
  exists m, head n l = firstn m l.
Proof. unfold head. destruct (0 <=? n)%Z; eauto. Qed.

Lemma ranking_perm (df : DataFrame) :
  Permutation (ranking df) (group_totals df PRODUCT_COLUMN).
Proof. apply sort_by_perm. Qed.

Lemma ranking_length (df : DataFrame) :
  revenue_is_numeric df ->
  List.length (ranking df) = List.length (groups df PRODUCT_COLUMN).
Proof.
  intros Hnum. rewrite (Permutation_length (ranking_perm df)).
  now apply group_totals_spec.
Qed.

Lemma ranking_sorted (df : DataFrame) :
  StronglySorted (fun a b => (snd b <= snd a)%Qc) (ranking df).
Proof.
  apply StronglySorted_weaken with (R := fun a b => by_total_desc a b = true).
  - intros a b. unfold by_total_desc. now rewrite Qc_leb_le.
  - apply sort_by_StronglySorted;
      [apply by_total_desc_total | apply by_total_desc_trans].
Qed.

(** X11: the top [n] are the first [n] of one ranking of all the products,
    whatever [n]: none for [n = 0], and for a negative [n] the ranking
    without its last [-n] entries, the way [head] counts from the end. *)
Theorem get_top_products_heads_the_ranking :
  forall (df : DataFrame) (top_n : Z),
    NoDup (columns df) ->
    In PRODUCT_COLUMN (columns df) ->
    In SALES_COLUMN (columns df) ->
    revenue_is_numeric df ->
    exists all top : DataFrame,
      get_top_products df (Z.of_nat (List.length (groups df PRODUCT_COLUMN)))
      = Ok all
      /\ get_top_products df top_n = Ok top
      /\ columns top = columns all
      /\ List.length (rows all) = List.length (groups df PRODUCT_COLUMN)
      /\ ((0 <= top_n)%Z -> rows top = firstn (Z.to_nat top_n) (rows all))
      /\ (top_n = 0%Z -> rows top = [])
      /\ ((top_n < 0)%Z ->
          rows top
          = firstn (List.length (rows all) - Z.to_nat (- top_n)) (rows all)).
Proof.
  intros df top_n Hnd Hp Hs Hnum.
  pose proof (ranking_length df Hnum) as Hlen.
  eexists. eexists.
  split; [now apply get_top_products_ranked|].
  split; [now apply get_top_products_ranked|].
  cbn [columns rows]. rewrite head_all by lia.
  split; [reflexivity|]. split; [now rewrite length_map|].
  rewrite <- head_map. unfold head. rewrite length_map.
  split; [|split].
  - intros H. apply Z.leb_le in H. now rewrite H.
  - intros ->. reflexivity.
  - intros H. apply Z.leb_gt in H. now rewrite H.
Qed.

Lemma StronglySorted_app_le {A : Type} (R : A -> A -> Prop) (l m : list A) :
  StronglySorted R (l ++ m) ->
  forall a b, In a l -> In b m -> R a b.
Proof.
  induction l as [|x l IH]; intros H a b Ha Hb; [destruct Ha|].
  cbn [app] in H. apply StronglySorted_inv in H as [H Hx].
  destruct Ha as [<-|Ha].
  - rewrite Forall_forall in Hx. apply Hx. apply in_or_app. now right.
  - now apply IH.
Qed.

Lemma ranked_out_is_smaller (df : DataFrame) (m : nat) (k k' : cell) (t : Qc) :
  revenue_is_numeric df ->
  In (k, t) (firstn m (ranking df)) ->
  In k' (groups df PRODUCT_COLUMN) ->
  ~ In k' (map fst (firstn m (ranking df))) ->
  (group_total df PRODUCT_COLUMN k' <= t)%Qc.
Proof.
  intros Hnum Hin Hk' Hout.
  destruct (group_totals_spec df PRODUCT_COLUMN Hnum)
    as (_ & Hkeys & Htot & _).
  apply Hkeys in Hk'. apply in_map_iff in Hk' as ([k0 t'] & E & Hin').
  simpl in E. subst k0. rewrite <- (Htot k' t' Hin').
  apply (Permutation_in _ (Permutation_sym (ranking_perm df))) in Hin'.
  pose proof (ranking_sorted df) as Hsorted.
  rewrite <- (firstn_skipn m (ranking df)) in Hin', Hsorted.
  apply in_app_or in Hin' as [Hin'|Hin'].
  - destruct Hout. apply in_map_iff. now exists (k', t').
  - exact (StronglySorted_app_le _ _ _ Hsorted (k, t) (k', t') Hin Hin').
Qed.

(** X12: what [get_top_products] leaves out is no larger than what it
    shows: the total of a product that is not in the result is at most the
    total of every product that is. *)
Theorem get_top_products_leaves_out_the_smallest :
  forall (df : DataFrame) (top_n : Z),
    NoDup (columns df) ->
    In PRODUCT_COLUMN (columns df) ->
    In SALES_COLUMN (columns df) ->
    revenue_is_numeric df ->
    exists top : DataFrame,
      get_top_products df top_n = Ok top
      /\ forall k t k',
           In [k; Num t] (rows top) ->
           In k' (groups df PRODUCT_COLUMN) ->
           ~ In k' (column PRODUCT_COLUMN top) ->
           (group_total df PRODUCT_COLUMN k' <= t)%Qc.
Proof.
  intros df top_n Hnd Hp Hs Hnum. eexists.
  split; [now apply get_top_products_ranked|].
  cbn [rows]. intros k t k' Hin Hk' Hout.
  destruct (head_prefix top_n (ranking df)) as [m Hm]. rewrite Hm in *.
  apply in_map_iff in Hin as ([k0 t0] & E & Hin).
  unfold as_row in E. simpl in E. injection E as -> ->.
  apply (ranked_out_is_smaller df m k k' t Hnum Hin Hk').
  intros H. apply Hout. unfold column. cbn [columns rows].
  rewrite map_map. apply in_map_iff in H as ([k1 t1] & E & H).
  simpl in E. subst k1. apply in_map_iff. exists (k', t1).
  split; [|assumption]. reflexivity.
Qed.

(** *** The totals of the groups add up *)

Lemma accumulate_concat (k : cell) (qs : list Qc)
  (acc : list (cell * list Qc)) :
  Permutation (List.concat (map snd (GroupBy.accumulate k qs acc)))
    (List.concat (map snd acc) ++ qs).
Proof.
  induction acc as [|[k' g] acc IH];
    cbn [GroupBy.accumulate map snd List.concat app].
  - now rewrite app_nil_r.
  - destruct (cell_eqb k' k); cbn [map snd List.concat];
      rewrite <- !app_assoc; apply Permutation_app_head;
      [apply Permutation_app_comm | exact IH].
Qed.

Lemma fold_concat (l : list (cell * list Qc)) (acc : list (cell * list Qc)) :
  Permutation (List.concat (map snd (fold_left group_step l acc)))
    (List.concat (map snd acc)
     ++ List.concat
          (map snd (filter (fun kq => negb (is_null (fst kq))) l))).
Proof.
  revert acc. induction l as [|[k qs] l IH]; intros acc;
    cbn [fold_left filter map fst List.concat].
  - now rewrite app_nil_r.
  - eapply Permutation_trans; [apply IH|]. unfold group_step. cbn [fst snd].
    destruct (is_null k); cbn [negb map snd List.concat]; [reflexivity|].
    eapply Permutation_trans;
      [apply Permutation_app_tail, accumulate_concat|].
    now rewrite <- app_assoc.
Qed.

(** When the sums are exact, the totals of the groups add up to the exact
    sum of the revenue of the rows that have a key. *)
Lemma group_totals_sum_present (df : DataFrame) (c : string) :
  sums_are_exact df ->
  total (map snd (group_totals df c))
  = total (map (revenue_of df)
             (filter (fun r => negb (is_null (cell_of df c r))) (rows df))).
Proof.
  intros Hexact. unfold group_totals.
  rewrite (total_perm _ _ (Permutation_map snd (sort_by_perm _ _ _))).
  destruct (scan_columns (lookup (columns df) c) (revenue_values df) (rows df))
    as (_ & _ & Htot).
  fold (column c df) in Htot.
  set (scanned := GroupBy.scan (column c df)
                    (map (revenue_values df) (rows df)) []) in *.
  transitivity (total (map total (map snd scanned))).
  { f_equal. rewrite !map_map. apply map_ext_in. intros [k qs] Hin.
    unfold GroupBy.summed. cbn [fst snd]. rewrite (Htot k qs Hin).
    exact (group_sum_exact df (fun r => cell_eqb (lookup (columns df) c r) k)
             Hexact). }
  rewrite <- total_concat. unfold scanned.
  rewrite scan_fold. unfold column. rewrite combine_maps.
  rewrite (total_perm _ _ (fold_concat _ _)). cbn [map List.concat app].
  rewrite (filter_map_swap
             (fun kq : cell * list Qc => negb (is_null (fst kq)))).
  rewrite map_map. cbn [fst snd]. rewrite <- flat_map_concat_map.
  exact (total_revenues df _).
Qed.

Lemma group_totals_sum (df : DataFrame) (c : string) :
  sums_are_exact df ->
  (forall r, In r (rows df) -> cell_of df c r <> Null) ->
  total (map snd (group_totals df c))
  = total (map (revenue_of df) (rows df)).
Proof.
  intros Hexact Hkeys. rewrite group_totals_sum_present by assumption.
  rewrite forallb_filter_id; [reflexivity|].
  apply forallb_forall. intros r Hr.
  apply negb_true_iff, is_null_neq. now apply Hkeys.
Qed.

(** *** The statistics of a revenue column of numbers *)

Lemma present_cells (df : DataFrame) (rs : list (list cell)) :
  (forall r, In r rs ->
     cell_of df SALES_COLUMN r = Null
     \/ exists q, cell_of df SALES_COLUMN r = Num q) ->
  present (map (lookup (columns df) SALES_COLUMN) rs)
  = map Num (revenues df rs).
Proof.
  unfold revenues, present.
  induction rs as [|r rs IH]; intros H; [reflexivity|].
  cbn [map filter flat_map].
  rewrite map_app, <- IH by (intros r' Hr'; apply H; now right).
  unfold revenue_values, cell_of.
  destruct (H r (or_introl eq_refl)) as [E|[q E]]; unfold cell_of in E;
    rewrite E; reflexivity.
Qed.

Lemma present_revenues (df : DataFrame) :
  revenue_is_numeric_or_missing df ->
  present (column SALES_COLUMN df) = map Num (revenues df (rows df)).
Proof. intros H. now apply present_cells. Qed.

Lemma filter_all {A : Type} (l : list A) : filter (fun _ => true) l = l.
Proof. apply forallb_filter_id. now apply forallb_forall. Qed.

Lemma Qc_of_Z_nonzero (n : Z) : n <> 0%Z -> Qc_of_Z n <> 0%Qc.
Proof.
  intros Hn E. unfold Qc_of_Z in E. apply Q2Qc_eq_iff in E.
  unfold Qeq in E. simpl in E. lia.
Qed.

Lemma Qc_of_Z_positive (n : Z) : (0 < n)%Z -> (0 < Qc_of_Z n)%Qc.
Proof.
  intros Hn. unfold Qc_of_Z, Qclt. cbn [this Q2Qc].
  rewrite !Qred_correct. unfold Qlt. simpl. lia.
Qed.

Lemma quotient_positive (s n : Qc) :
  (0 < s)%Qc -> (0 < n)%Qc -> (0 < s / n)%Qc.
Proof.
  intros Hs Hn. apply Qcnot_le_lt. intros Hle.
  apply (Qcmult_le_compat_r _ _ n) in Hle; [|now apply Qclt_le_weak].
  rewrite test_field in Hle.
  2:{ intros E. rewrite E in Hn. now apply Qclt_not_eq in Hn. }
  replace (0 * n)%Qc with 0%Qc in Hle by ring.
  now apply Qcle_not_lt in Hle.
Qed.

(** What [get_basic_stats] returns on a revenue column of numbers, some of
    which may be missing. *)
Lemma get_basic_stats_present (df : DataFrame) :
  NoDup (columns df) ->
  In SALES_COLUMN (columns df) ->
  revenue_is_numeric_or_missing df ->
  get_basic_stats df
  = Ok {| total_rows := Z.of_nat (List.length (rows df));
          total_revenue := real (sum_present (revenues df (rows df)));
          avg_order_value := mean_present (revenues df (rows df));
          unique_products :=
            if has_column PRODUCT_COLUMN df
            then Some (Z.of_nat (List.length (groups df PRODUCT_COLUMN)))
            else None |}.
Proof.
  intros Hnd Hs Hnum. unfold get_basic_stats.
  rewrite (getitem_single SALES_COLUMN df)
    by now apply NoDup_count_occ_single.
  cbn [bind series_sum series_mean].
  rewrite (revenue_addends_present df Hnum). cbn [bind].
  rewrite <- flat_map_concat_map. fold (revenues df (rows df)).
  destruct (has_column PRODUCT_COLUMN df) eqn:Hp; [|reflexivity].
  apply has_column_In in Hp.
  rewrite (getitem_single PRODUCT_COLUMN df)
    by now apply NoDup_count_occ_single.
  reflexivity.
Qed.

Lemma get_basic_stats_numeric (df : DataFrame) :
  NoDup (columns df) ->
  In SALES_COLUMN (columns df) ->
  revenue_is_numeric df ->
  get_basic_stats df
  = Ok {| total_rows := Z.of_nat (List.length (rows df));
          total_revenue :=
            real (sum_present (map (revenue_of df) (rows df)));
          avg_order_value := mean_present (map (revenue_of df) (rows df));
          unique_products :=
            if has_column PRODUCT_COLUMN df
            then Some (Z.of_nat (List.length (groups df PRODUCT_COLUMN)))
            else None |}.
Proof.
  intros Hnd Hs Hnum.
  rewrite <- (revenues_numeric df (rows df) Hnum).
  now apply get_basic_stats_present, numeric_or_missing.
Qed.

Lemma total_revenue_exact (df : DataFrame) :
  revenue_is_numeric df ->
  sums_are_exact df ->
  sum_present (map (revenue_of df) (rows df))
  = total (map (revenue_of df) (rows df)).
Proof.
  intros Hnum Hexact.
  rewrite <- total_revenues, <- (revenues_numeric df (rows df) Hnum).
  rewrite <- (filter_all (rows df)). now apply sum_present_exact.
Qed.

(** X13: the statistics of a table whose revenue is numeric.  The row count
    is the number of rows; the total and the average are the sum and the
    mean that numpy takes of the revenue column, in its arithmetic, 0 and
    not-a-number when there is no row; the total is the exact sum of the
    revenue when the sums over the table are exact.  The product count is
    the number of distinct products present, and is left out exactly when
    there is no product column. *)
Theorem get_basic_stats_spec :
  forall (df : DataFrame),
    NoDup (columns df) ->
    In SALES_COLUMN (columns df) ->
    revenue_is_numeric df ->
    exists stats,
      get_basic_stats df = Ok stats
      /\ total_rows stats = Z.of_nat (List.length (rows df))
      /\ (rows df = [] ->
          total_revenue stats = real 0%Qc /\ avg_order_value stats = nan)
      /\ (rows df <> [] ->
          total_revenue stats
          = real (sum_of (map (revenue_of df) (rows df)))
          /\ avg_order_value stats
             = real (mean_of (map (revenue_of df) (rows df))))
      /\ (sums_are_exact df ->
          total_revenue stats
          = real (total (map (revenue_of df) (rows df))))
      /\ (In PRODUCT_COLUMN (columns df) ->
          unique_products stats
          = Some (Z.of_nat (List.length (groups df PRODUCT_COLUMN))))
      /\ (~ In PRODUCT_COLUMN (columns df) -> unique_products stats = None).
Proof.
  intros df Hnd Hs Hnum. eexists.
  split; [now apply get_basic_stats_numeric|].
  cbn [total_rows total_revenue avg_order_value unique_products].
  split; [reflexivity|]. split; [|split; [|split; [|split]]].
  - intros ->. split; reflexivity.
  - intros Hrows. destruct (rows df) as [|r rs]; [congruence|].
    split; reflexivity.
  - intros Hexact. f_equal. now apply total_revenue_exact.
  - intros Hp. now rewrite (proj2 (has_column_In _ _) Hp).
  - intros Hp. destruct (has_column PRODUCT_COLUMN df) eqn:E; [|reflexivity].
    apply has_column_In in E. contradiction.
Qed.

(** *** The totals of the result tables *)

Lemma revenue_of_as_row (c : string) (kt : cell * Qc) (rws : list (list cell)) :
  c <> SALES_COLUMN ->
  revenue_of {| columns := [c; SALES_COLUMN]; rows := rws |} (as_row kt)
  = snd kt.
Proof.
  intros Hc. unfold revenue_of, cell_of, as_row. cbn [columns lookup].
  destruct (String.eqb c SALES_COLUMN) eqn:E.
  - apply String.eqb_eq in E. contradiction.
  - now rewrite String.eqb_refl.
Qed.

Lemma total_as_rows (c : string) (l : list (cell * Qc))
  (rws : list (list cell)) :
  c <> SALES_COLUMN ->
  total (map (revenue_of {| columns := [c; SALES_COLUMN]; rows := rws |})
           (map as_row l))
  = total (map snd l).
Proof.
  intros Hc. rewrite map_map. f_equal. apply map_ext.
  intros kt. now apply revenue_of_as_row.
Qed.

Lemma get_monthly_trends_sorted (df : DataFrame) :
  NoDup (columns df) ->
  In "YearMonth" (columns df) ->
  In SALES_COLUMN (columns df) ->
  revenue_is_numeric df ->
  get_monthly_trends df
  = Ok {| columns := ["YearMonth"; SALES_COLUMN];
          rows := sort_by by_first
                    (map as_row (group_totals df "YearMonth")) |}.
Proof.
  intros Hnd Hym Hs Hnum. unfold get_monthly_trends.
  rewrite (proj2 (has_column_In "YearMonth" df) Hym). cbn [negb].
  rewrite (grouper_single _ _ Hnd Hym). cbn [bind].
  rewrite (getitem_single SALES_COLUMN df)
    by now apply NoDup_count_occ_single.
  cbn [bind]. rewrite (groupby_sum_totals df _ Hnum). reflexivity.
Qed.



Lemma exact_group_total_nonneg (df : DataFrame) (c : string) (k : cell) :
  (forall r, In r (rows df) -> (0 <= revenue_of df r)%Qc) ->
  (0 <= exact_group_total df c k)%Qc.
Proof.
  intros H. unfold exact_group_total. apply total_nonneg.
  intros q Hq. apply in_map_iff in Hq as (r & <- & Hr).
  apply H. unfold rows_of_group in Hr. now apply filter_In in Hr.
Qed.

(** X15: when the sums over the table are exact, the totals that
    [get_top_products] shows never add up to more than the total revenue,
    on a table without negative revenue; they add up to it when every row
    has its product and [top_n] reaches the number of products. *)
Theorem top_totals_are_within_the_total :
  forall (df : DataFrame) (top_n : Z),
    NoDup (columns df) ->
    In PRODUCT_COLUMN (columns df) ->
    In SALES_COLUMN (columns df) ->
    revenue_is_numeric df ->
    (forall r, In r (rows df) -> (0 <= revenue_of df r)%Qc) ->
    sums_are_exact df ->
    exists (top : DataFrame) (stats : Stats) (revenue : Qc),
      get_top_products df top_n = Ok top
      /\ get_basic_stats df = Ok stats
      /\ total_revenue stats = real revenue
      /\ (total (map (revenue_of top) (rows top)) <= revenue)%Qc
      /\ ((forall r, In r (rows df) -> cell_of df PRODUCT_COLUMN r <> Null) ->
          (Z.of_nat (List.length (groups df PRODUCT_COLUMN)) <= top_n)%Z ->
          total (map (revenue_of top) (rows top)) = revenue).
Proof.
  intros df top_n Hnd Hp Hs Hnum Hpos Hexact. eexists. eexists. eexists.
  split; [now apply get_top_products_ranked|].
  split; [now apply get_basic_stats_numeric|].
  cbn [total_revenue rows]. split; [reflexivity|].
  rewrite total_as_rows by discriminate.
  rewrite (total_revenue_exact df Hnum Hexact).
  assert (Hall : total (map snd (ranking df))
                 = total (map snd (group_totals df PRODUCT_COLUMN))).
  { apply total_perm, Permutation_map, ranking_perm. }
  split.
  - destruct (head_prefix top_n (ranking df)) as [m ->].
    apply Qcle_trans with (total (map snd (ranking df))).
    + rewrite <- firstn_map. apply total_firstn_le.
      intros q Hq. apply in_map_iff in Hq as ([k t] & <- & Hin).
      apply (Permutation_in _ (ranking_perm df)) in Hin.
      destruct (group_totals_spec df PRODUCT_COLUMN Hnum) as (_ & _ & Htot & _).
      cbn [snd]. rewrite (Htot k t Hin), group_total_exact by assumption.
      now apply exact_group_total_nonneg.
    + rewrite Hall, group_totals_sum_present by assumption.
      now apply total_filter_le.
  - intros Hkeys Hn.
    rewrite head_all by (rewrite ranking_length by assumption; lia).
    rewrite Hall. now apply group_totals_sum.
Qed.

(** *** What the aggregations raise *)

Lemma addends_raises (s : Series) (e : exn) :
  GroupBy.addends s = Raise e -> e = TypeError.
Proof.
  induction s as [|v s IH]; [discriminate|]. cbn [GroupBy.addends].
  destruct v; cbn [GroupBy.addend bind]; try (intros H; congruence);
    destruct (GroupBy.addends s); cbn [bind]; try discriminate;
    intros H; apply IH; congruence.
Qed.

Lemma sum_raises (keys values : Series) (e : exn) :
  GroupBy.sum keys values = Raise e -> e = TypeError.
Proof.
  unfold GroupBy.sum. destruct (GroupBy.addends values) eqn:E; cbn [bind];
    [discriminate|].
  intros H. injection H as <-. now apply addends_raises in E.
Qed.

Lemma sum_each_raises (keys : Series) (vss : list Series) (e : exn) :
  GroupBy.sum_each keys vss = Raise e -> e = TypeError.
Proof.
  induction vss as [|vs vss IH]; [discriminate|]. cbn [GroupBy.sum_each].
  destruct (GroupBy.sum keys vs) eqn:E; cbn [bind].
  - destruct (GroupBy.sum_each keys vss); cbn [bind]; [discriminate|].
    intros H. apply IH. congruence.
  - intros H. injection H as <-. now apply sum_raises in E.
Qed.

Lemma sum_frame_raises (keys : Series) (vss : list Series) (e : exn) :
  GroupBy.sum_frame keys vss = Raise e -> e = TypeError.
Proof.
  unfold GroupBy.sum_frame.
  destruct (GroupBy.sum_each keys vss) eqn:E; cbn [bind]; [discriminate|].
  intros H. injection H as <-. now apply sum_each_raises in E.
Qed.

Lemma grouper_outcome (c : string) (df : DataFrame) :
  In c (columns df) ->
  (count_occ string_dec (columns df) c = 1%nat
   /\ GroupBy.grouper c df = Ok (column c df))
  \/ ((2 <= count_occ string_dec (columns df) c)%nat
      /\ GroupBy.grouper c df = Raise ValueError).
Proof.
  intros Hin. apply (count_occ_In string_dec) in Hin.
  destruct (Nat.eq_dec (count_occ string_dec (columns df) c) 1) as [E|E].
  - left. split; [assumption|]. unfold GroupBy.grouper.
    now rewrite (getitem_single _ _ E).
  - right. assert (H : (2 <= count_occ string_dec (columns df) c)%nat) by lia.
    split; [assumption|]. unfold GroupBy.grouper.
    destruct (getitem_several _ _ H) as [ss ->]. reflexivity.
Qed.

Lemma series_sum_raises (x : item) (e : exn) :
  series_sum x = Raise e -> e = TypeError.
Proof.
  destruct x as [s|ss]; cbn [series_sum]; [|congruence].
  destruct (GroupBy.addends s) eqn:E; cbn [bind]; [discriminate|].
  intros H. injection H as <-. now apply addends_raises in E.
Qed.

Lemma series_mean_raises (x : item) (e : exn) :
  series_mean x = Raise e -> e = TypeError.
Proof.
  destruct x as [s|ss]; cbn [series_mean]; [|congruence].
  destruct (GroupBy.addends s) eqn:E; cbn [bind]; [discriminate|].
  intros H. injection H as <-. now apply addends_raises in E.
Qed.

Lemma series_nunique_raises (x : item) (e : exn) :
  series_nunique x = Raise e -> e = TypeError.
Proof. destruct x; cbn [series_nunique]; congruence. Qed.

Lemma get_basic_stats_raises (df : DataFrame) (e : exn) :
  get_basic_stats df = Raise e ->
  (e = KeyError /\ ~ In SALES_COLUMN (columns df)) \/ e = TypeError.
Proof.
  unfold get_basic_stats.
  destruct (in_dec string_dec SALES_COLUMN (columns df)) as [Hs|Hs].
  2:{ rewrite (getitem_missing _ _ Hs). cbn [bind]. intros H.
      injection H as <-. now left. }
  destruct (getitem_present _ _ Hs) as [x ->]. cbn [bind]. intros H. right.
  destruct (series_sum x) eqn:E1; cbn [bind] in H;
    [|injection H as <-; now apply series_sum_raises in E1].
  destruct (series_mean x) eqn:E2; cbn [bind] in H;
    [|injection H as <-; now apply series_mean_raises in E2].
  destruct (has_column PRODUCT_COLUMN df) eqn:Hp; [|discriminate].
  apply has_column_In in Hp. destruct (getitem_present _ _ Hp) as [y Hy].
  rewrite Hy in H. cbn [bind] in H.
  destruct (series_nunique y) eqn:E3; cbn [bind] in H; [discriminate|].
  injection H as <-. now apply series_nunique_raises in E3.
Qed.

Lemma grouped_raises (c : string) (df : DataFrame)
  (k1 : Series -> list (cell * Qc) -> result DataFrame)
  (k2 : Series -> list Series -> result DataFrame) (e : exn) :
  (forall keys t e', k1 keys t = Raise e' -> e' = TypeError) ->
  (forall keys vss e', k2 keys vss = Raise e' -> e' = TypeError) ->
  (if negb (has_column c df) then Raise KeyError
   else keys <- GroupBy.grouper c df ;;
        x <- getitem SALES_COLUMN df ;;
        match x with
        | ASeries values => totals <- GroupBy.sum keys values ;; k1 keys totals
        | AFrame vss => k2 keys vss
        end) = Raise e ->
  (e = KeyError
   /\ (~ In c (columns df)
       \/ (count_occ string_dec (columns df) c = 1%nat
           /\ ~ In SALES_COLUMN (columns df))))
  \/ (e = ValueError /\ (2 <= count_occ string_dec (columns df) c)%nat)
  \/ (e = TypeError /\ In c (columns df) /\ In SALES_COLUMN (columns df)).
Proof.
  intros Hk1 Hk2.
  destruct (has_column c df) eqn:Hc; cbn [negb].
  2:{ intros H. injection H as <-. left. split; [reflexivity|]. left.
      intros Hin. apply has_column_In in Hin. congruence. }
  apply has_column_In in Hc.
  destruct (grouper_outcome c df Hc) as [[Hone ->]|[Htwo ->]]; cbn [bind].
  2:{ intros H. injection H as <-. right. left. now split. }
  destruct (in_dec string_dec SALES_COLUMN (columns df)) as [Hs|Hs].
  2:{ rewrite (getitem_missing _ _ Hs). cbn [bind]. intros H.
      injection H as <-. left. split; [reflexivity|]. right. now split. }
  destruct (getitem_present _ _ Hs) as [x ->]. cbn [bind]. intros H.
  right. right. split; [|now split].
  destruct x as [values|vss].
  - destruct (GroupBy.sum (column c df) values) eqn:E; cbn [bind] in H.
    + now apply Hk1 in H.
    + injection H as <-. now apply sum_raises in E.
  - now apply Hk2 in H.
Qed.

Lemma get_top_products_raises (df : DataFrame) (top_n : Z) (e : exn) :
  get_top_products df top_n = Raise e ->
  (e = KeyError
   /\ (~ In PRODUCT_COLUMN (columns df)
       \/ (count_occ string_dec (columns df) PRODUCT_COLUMN = 1%nat
           /\ ~ In SALES_COLUMN (columns df))))
  \/ (e = ValueError
      /\ (2 <= count_occ string_dec (columns df) PRODUCT_COLUMN)%nat)
  \/ (e = TypeError /\ In PRODUCT_COLUMN (columns df)
      /\ In SALES_COLUMN (columns df)).
Proof.
  unfold get_top_products.
  apply (grouped_raises PRODUCT_COLUMN df
           (fun _ totals =>
              Ok {| columns := [PRODUCT_COLUMN; SALES_COLUMN];
                    rows := map (fun kt => [fst kt; Num (snd kt)])
                              (head top_n (sort_by by_total_desc totals)) |})
           (fun keys vss => _ <- GroupBy.sum_frame keys vss ;; Raise TypeError)).
  - discriminate.
  - intros keys vss e'. destruct (GroupBy.sum_frame keys vss) eqn:E;
      cbn [bind]; [congruence|].
    intros H. injection H as <-. now apply sum_frame_raises in E.
Qed.

Lemma get_monthly_trends_raises (df : DataFrame) (e : exn) :
  get_monthly_trends df = Raise e ->
  (e = KeyError
   /\ (~ In "YearMonth" (columns df)
       \/ (count_occ string_dec (columns df) "YearMonth" = 1%nat
           /\ ~ In SALES_COLUMN (columns df))))
  \/ (e = ValueError
      /\ (2 <= count_occ string_dec (columns df) "YearMonth")%nat)
  \/ (e = TypeError /\ In "YearMonth" (columns df)
      /\ In SALES_COLUMN (columns df)).
Proof.
  unfold get_monthly_trends.
  apply (grouped_raises "YearMonth" df
           (fun _ totals =>
              Ok {| columns := ["YearMonth"; SALES_COLUMN];
                    rows := sort_by by_first
                              (map (fun kt => [fst kt; Num (snd kt)]) totals) |})
           (fun keys vss =>
              table <- GroupBy.sum_frame keys vss ;;
              Ok {| columns := "YearMonth" :: map (fun _ => SALES_COLUMN) vss;
                    rows := sort_by by_first table |})).
  - discriminate.
  - intros keys vss e'. destruct (GroupBy.sum_frame keys vss) eqn:E;
      cbn [bind]; [discriminate|].
    intros H. injection H as <-. now apply sum_frame_raises in E.
Qed.

(** X16: when the aggregations raise [KeyError].  [get_basic_stats] does
    exactly when there is no revenue column; [get_top_products] and
    [get_monthly_trends] do exactly when the column they group by is
    missing, or is there, once, and the revenue column is missing (a
    grouping label borne by two columns is a [ValueError] before the
    revenue column is looked for). *)
Theorem aggregations_KeyError_iff :
  forall (df : DataFrame),
    (get_basic_stats df = Raise KeyError <-> ~ In SALES_COLUMN (columns df))
    /\ (forall top_n,
          get_top_products df top_n = Raise KeyError
          <-> ~ In PRODUCT_COLUMN (columns df)
              \/ (count_occ string_dec (columns df) PRODUCT_COLUMN = 1%nat
                  /\ ~ In SALES_COLUMN (columns df)))
    /\ (get_monthly_trends df = Raise KeyError
        <-> ~ In "YearMonth" (columns df)
            \/ (count_occ string_dec (columns df) "YearMonth" = 1%nat
                /\ ~ In SALES_COLUMN (columns df))).
Proof.
  intros df.
  assert (Hgroup : forall c, In c (columns df) ->
            count_occ string_dec (columns df) c = 1%nat ->
            GroupBy.grouper c df = Ok (column c df)).
  { intros c Hin Hone. unfold GroupBy.grouper.
    now rewrite (getitem_single _ _ Hone). }
  assert (Hin1 : forall c, count_occ string_dec (columns df) c = 1%nat ->
            In c (columns df)).
  { intros c Hone. apply (count_occ_In string_dec). lia. }
  split; [|split].
  - split.
    + intros H. apply get_basic_stats_raises in H as [[_ H]|H];
        [assumption|discriminate].
    + intros H. unfold get_basic_stats. now rewrite (getitem_missing _ _ H).
  - intros top_n. split.
    + intros H. apply get_top_products_raises in H as [[_ H]|[[H _]|[H _]]];
        [assumption|discriminate|discriminate].
    + intros [H|[Hone Hs]]; unfold get_top_products.
      * destruct (has_column PRODUCT_COLUMN df) eqn:E; [|reflexivity].
        apply has_column_In in E. contradiction.
      * rewrite (proj2 (has_column_In _ _) (Hin1 _ Hone)). cbn [negb].
        rewrite (Hgroup _ (Hin1 _ Hone) Hone). cbn [bind].
        now rewrite (getitem_missing _ _ Hs).
  - split.
    + intros H. apply get_monthly_trends_raises in H as [[_ H]|[[H _]|[H _]]];
        [assumption|discriminate|discriminate].
    + intros [H|[Hone Hs]]; unfold get_monthly_trends.
      * destruct (has_column "YearMonth" df) eqn:E; [|reflexivity].
        apply has_column_In in E. contradiction.
      * rewrite (proj2 (has_column_In _ _) (Hin1 _ Hone)). cbn [negb].
        rewrite (Hgroup _ (Hin1 _ Hone) Hone). cbn [bind].
        now rewrite (getitem_missing _ _ Hs).
Qed.

(** *** Aggregations over a table without revenue *)

Lemma grouper_one (c : string) (df : DataFrame) :
  count_occ string_dec (columns df) c = 1%nat ->
  GroupBy.grouper c df = Ok (column c df).
Proof. intros H. unfold GroupBy.grouper. now rewrite (getitem_single _ _ H). Qed.

Lemma aggregations_without_revenue (df : DataFrame) :
  (count_occ string_dec (columns df) PRODUCT_COLUMN <= 1)%nat ->
  (count_occ string_dec (columns df) "YearMonth" <= 1)%nat ->
  ~ In SALES_COLUMN (columns df) ->
  get_basic_stats df = Raise KeyError
  /\ (forall top_n, get_top_products df top_n = Raise KeyError)
  /\ get_monthly_trends df = Raise KeyError.
Proof.
  intros Hp Hym Hs. pose proof (getitem_missing _ _ Hs) as E. repeat split.
  - unfold get_basic_stats. now rewrite E.
  - intros top_n. unfold get_top_products.
    destruct (has_column PRODUCT_COLUMN df) eqn:Hin; [|reflexivity].
    cbn [negb]. apply has_column_In in Hin.
    now rewrite (grouper_one _ _ (count_occ_single _ _ Hin Hp)), E.
  - unfold get_monthly_trends.
    destruct (has_column "YearMonth" df) eqn:Hin; [|reflexivity].
    cbn [negb]. apply has_column_In in Hin.
    now rewrite (grouper_one _ _ (count_occ_single _ _ Hin Hym)), E.
Qed.

Lemma count_occ_with_column_same (cols : list string) (c : string) :
  (count_occ string_dec cols c <= 1)%nat ->
  (count_occ string_dec (with_column c cols) c <= 1)%nat.
Proof.
  intros H. unfold with_column.
  destruct (existsb (String.eqb c) cols) eqn:E; [assumption|].
  rewrite count_occ_app. cbn [count_occ].
  destruct (string_dec c c) as [_|Hne]; [|congruence].
  assert (Hnot : ~ In c cols).
  { intros Hin. apply existsb_eqb_In in Hin. congruence. }
  apply (count_occ_not_In string_dec) in Hnot. lia.
Qed.

(** A [KeyError] tells that the key of the groups is borne by one column at
    most. *)
Lemma get_top_products_KeyError (df : DataFrame) (top_n : Z) :
  get_top_products df top_n = Raise KeyError ->
  (count_occ string_dec (columns df) PRODUCT_COLUMN <= 1)%nat.
Proof.
  intros H.
  apply get_top_products_raises in H
    as [[_ [H|[H _]]]|[[H _]|[H _]]]; try discriminate H.
  - apply (count_occ_not_In string_dec) in H. lia.
  - lia.
Qed.

Lemma get_monthly_trends_KeyError (df : DataFrame) :
  get_monthly_trends df = Raise KeyError ->
  (count_occ string_dec (columns df) "YearMonth" <= 1)%nat.
Proof.
  intros H.
  apply get_monthly_trends_raises in H
    as [[_ [H|[H _]]]|[[H _]|[H _]]]; try discriminate H.
  - apply (count_occ_not_In string_dec) in H. lia.
  - lia.
Qed.

(** C9, amended: a raw table whose labels are strings, with no revenue
    column and without a quantity or a price column to compute one from.
    When none of the names by which the program looks a column up before
    the revenue (quantity, price, date, product, "YearMonth") is borne by
    two columns, once the names are trimmed, [clean_data] returns, and on
    what it returns, and on the table with the time features added to it,
    each of the three aggregations raises [KeyError], the missing-column
    error.  It is so in this case only: with one of these names borne twice
    the cleaner, or an aggregation, raises another error. *)
Theorem missing_revenue_is_a_KeyError_downstream :
  forall (numeric_of_object : cell -> option Qc)
         (datetime_of_object : Series -> cell -> option Timestamp)
         (raw : DataFrame),
    rectangular raw ->
    ~ In SALES_COLUMN (map PyStr.strip (columns raw)) ->
    ~ In QTY_COLUMN (map PyStr.strip (columns raw))
    \/ ~ In PRICE_COLUMN (map PyStr.strip (columns raw)) ->
    (lookups_unambiguous raw
     <-> exists cleaned,
           clean_data numeric_of_object datetime_of_object raw = Ok cleaned
           /\ ~ In SALES_COLUMN (columns cleaned)
           /\ get_basic_stats cleaned = Raise KeyError
           /\ (forall top_n, get_top_products cleaned top_n = Raise KeyError)
           /\ get_monthly_trends cleaned = Raise KeyError
           /\ forall featured, add_time_features cleaned = Ok featured ->
                get_basic_stats featured = Raise KeyError
                /\ (forall top_n,
                      get_top_products featured top_n = Raise KeyError)
                /\ get_monthly_trends featured = Raise KeyError).
Proof.
  intros num dat raw Hrect Hs Hqp. unfold lookups_unambiguous, label_count.
  set (names := map PyStr.strip (columns raw)) in *.
  assert (Hd : derives_revenue names = false).
  { unfold derives_revenue.
    destruct Hqp as [H|H]; apply named_false in H; rewrite H;
      now rewrite ?andb_false_r. }
  assert (Hc : columns (clean_table num dat raw) = names).
  { unfold clean_table, clean_names. fold names. cbn [columns]. now rewrite Hd. }
  split.
  - intros Hcount.
    assert (Hu : labels_unambiguous raw).
    { intros c [<-|[<-|[<-|[<-|[]]]]]; fold names;
        try (apply Hcount; simpl; tauto).
      apply (count_occ_not_In string_dec) in Hs. lia. }
    exists (clean_table num dat raw).
    split; [now apply clean_data_rowwise|].
    split; [now rewrite Hc|].
    destruct (aggregations_without_revenue (clean_table num dat raw))
      as (H1 & H2 & H3); rewrite ?Hc;
      try assumption; try (apply Hcount; simpl; tauto).
    repeat (split; [assumption|]).
    intros featured Hf. apply add_time_features_columns in Hf.
    rewrite Hc in Hf.
    apply aggregations_without_revenue; rewrite Hf.
    + rewrite !count_occ_with_column_other by discriminate.
      apply Hcount. simpl. tauto.
    + apply count_occ_with_column_same.
      rewrite !count_occ_with_column_other by discriminate.
      apply Hcount. simpl. tauto.
    + rewrite !In_with_column.
      intros [E|[E|[E|E]]]; try discriminate E. contradiction.
  - intros (cleaned & Hclean & _ & _ & Htop & Htrends & _).
    pose proof (clean_data_Ok_unambiguous _ _ raw cleaned Hclean) as Hu.
    apply (clean_data_Ok_rowwise _ _ raw cleaned Hrect) in Hclean.
    subst cleaned.
    pose proof (get_top_products_KeyError _ 0 (Htop 0%Z)) as Hp.
    pose proof (get_monthly_trends_KeyError _ Htrends) as Hym.
    rewrite Hc in Hp, Hym.
    intros c [<-|[<-|[<-|[<-|[<-|[]]]]]]; try assumption;
      apply Hu; simpl; tauto.
Qed.

End AggregationFurther.

(** ** The arithmetic of int64 columns *)

Lemma wrap_small (z : Z) : (- 2 ^ 63 <= z < 2 ^ 63)%Z -> Numpy.wrap z = z.
Proof. intros H. unfold Numpy.wrap. rewrite Z.mod_small; lia. Qed.

Lemma Qc_of_Z_le (a b : Z) : (Qc_of_Z a <= Qc_of_Z b)%Qc <-> (a <= b)%Z.
Proof.
  unfold Qc_of_Z, Qcle. cbn [this Q2Qc]. rewrite !Qred_correct.
  unfold Qle. cbn [Qnum Qden inject_Z]. lia.
Qed.

Lemma Qc_of_Z_whole (q : Qc) : Qden q = 1%positive -> q = Qc_of_Z (Qnum q).
Proof.
  intros H. apply Qc_is_canon. unfold Qc_of_Z. cbn [this Q2Qc].
  rewrite Qred_correct. unfold Qeq. cbn [Qnum Qden inject_Z]. now rewrite H.
Qed.

Lemma Qc_of_Z_this (z : Z) : this (Qc_of_Z z) = inject_Z z.
Proof.
  unfold Qc_of_Z. cbn [this Q2Qc]. apply Qred_identity.
  cbn [Qnum Qden inject_Z]. apply Z.gcd_1_r.
Qed.

Lemma Qc_of_Z_mult (a b : Z) : (Qc_of_Z a * Qc_of_Z b)%Qc = Qc_of_Z (a * b).
Proof.
  apply Qc_is_canon. unfold Qcmult. cbn [this Q2Qc].
  rewrite Qred_correct, !Qc_of_Z_this. unfold Qeq. cbn. lia.
Qed.

(** An integer within the range of int64 is what it is. *)
Lemma int64_whole (z : Z) :
  (- 2 ^ 63 <= z < 2 ^ 63)%Z -> Numpy.int64 (Qc_of_Z z) = Qc_of_Z z.
Proof.
  intros H. unfold Numpy.int64. rewrite Qc_of_Z_this.
  cbn [Qden Qnum inject_Z]. now rewrite wrap_small.
Qed.

Lemma int64_small (q : Qc) :
  (0 <= q)%Qc -> (q <= Qc_of_Z (2 ^ 63 - 1))%Qc -> Numpy.int64 q = q.
Proof.
  intros H0 H1. unfold Numpy.int64.
  destruct (Qden q) eqn:E; try reflexivity.
  pose proof (Qc_of_Z_whole q E) as Hq.
  remember (Qnum q) as n eqn:En. clear En. subst q.
  change 0%Qc with (Qc_of_Z 0) in H0.
  apply (proj1 (Qc_of_Z_le _ _)) in H0.
  apply (proj1 (Qc_of_Z_le _ _)) in H1.
  rewrite wrap_small; [reflexivity | lia].
Qed.

(** The product of two integers is exact as long as it fits in 64 bits. *)
Lemma int64_product (a b : Z) :
  (- 2 ^ 63 <= a * b < 2 ^ 63)%Z ->
  times (Arithmetic := Numpy.int64_columns) (Qc_of_Z a) (Qc_of_Z b)
  = (Qc_of_Z a * Qc_of_Z b)%Qc.
Proof.
  intros H. cbn [times Numpy.int64_columns].
  rewrite Qc_of_Z_mult. now apply int64_whole.
Qed.

(** The sums over a table without negative revenue are exact as long as the
    revenue of the whole table adds up within 64 bits. *)
Lemma int64_sums_exact (df : DataFrame) :
  (forall r, In r (rows df) -> (0 <= revenue_of df r)%Qc) ->
  (total (map (revenue_of df) (rows df)) <= Qc_of_Z (2 ^ 63 - 1))%Qc ->
  sums_are_exact (np := Numpy.int64_columns) df.
Proof.
  intros Hpos Hle select _.
  assert (H : Numpy.int64 (total (revenues df (filter select (rows df))))
              = total (revenues df (filter select (rows df)))).
  { apply int64_small; rewrite total_revenues.
    - apply total_nonneg. intros q Hq.
      apply in_map_iff in Hq as (r & <- & Hr).
      apply filter_In in Hr as [Hr _]. now apply Hpos.
    - eapply Qcle_trans; [now apply total_filter_le | exact Hle]. }
  split; exact H.
Qed.

Section AggregationSamples.

Local Existing Instance Numpy.int64_columns.

Lemma three_products_numeric : revenue_is_numeric three_products.
Proof.
  intros r Hr. simpl in Hr.
  repeat destruct Hr as [<-|Hr]; try contradiction; eexists; reflexivity.
Qed.

Lemma three_products_NoDup : NoDup (columns three_products).
Proof. repeat constructor; simpl; intuition discriminate. Qed.

Lemma get_top_products_heads_the_ranking_witness :
  exists all top : DataFrame,
    get_top_products three_products
      (Z.of_nat (List.length (groups three_products PRODUCT_COLUMN)))
    = Ok all
    /\ get_top_products three_products (-1) = Ok top
    /\ columns top = columns all
    /\ List.length (rows all)
       = List.length (groups three_products PRODUCT_COLUMN)
    /\ ((0 <= -1)%Z -> rows top = firstn (Z.to_nat (-1)) (rows all))
    /\ ((-1)%Z = 0%Z -> rows top = [])
    /\ ((-1 < 0)%Z ->
        rows top
        = firstn (List.length (rows all) - Z.to_nat (- (-1))) (rows all)).
Proof.
  apply (get_top_products_heads_the_ranking three_products (-1)).
  - exact three_products_NoDup.
  - simpl. tauto.
  - simpl. tauto.
  - exact three_products_numeric.
Defined.

Lemma get_top_products_leaves_out_the_smallest_witness :
  exists top : DataFrame,
    get_top_products three_products 1 = Ok top
    /\ forall k t k',
         In [k; Num t] (rows top) ->
         In k' (groups three_products PRODUCT_COLUMN) ->
         ~ In k' (column PRODUCT_COLUMN top) ->
         (group_total three_products PRODUCT_COLUMN k' <= t)%Qc.
Proof.
  apply (get_top_products_leaves_out_the_smallest three_products 1).
  - exact three_products_NoDup.
  - simpl. tauto.
  - simpl. tauto.
  - exact three_products_numeric.
Defined.

Lemma three_products_nonneg :
  forall r, In r (rows three_products) ->
    (0 <= revenue_of three_products r)%Qc.
Proof.
  intros r Hr. simpl in Hr.
  repeat destruct Hr as [<-|Hr]; try contradiction; discriminate.
Qed.

Lemma three_products_exact : sums_are_exact three_products.
Proof.
  apply int64_sums_exact; [exact three_products_nonneg | discriminate].
Qed.


Lemma get_basic_stats_spec_witness :
  exists stats,
    get_basic_stats three_products = Ok stats
    /\ total_rows stats = Z.of_nat (List.length (rows three_products))
    /\ (rows three_products = [] ->
        total_revenue stats = real 0%Qc /\ avg_order_value stats = nan)
    /\ (rows three_products <> [] ->
        total_revenue stats
        = real (sum_of (map (revenue_of three_products)
                          (rows three_products)))
        /\ avg_order_value stats
           = real (mean_of (map (revenue_of three_products)
                              (rows three_products))))
    /\ (sums_are_exact three_products ->
        total_revenue stats
        = real (total (map (revenue_of three_products)
                         (rows three_products))))
    /\ (In PRODUCT_COLUMN (columns three_products) ->
        unique_products stats
        = Some (Z.of_nat
                  (List.length (groups three_products PRODUCT_COLUMN))))
    /\ (~ In PRODUCT_COLUMN (columns three_products) ->
        unique_products stats = None).
Proof.
  apply (get_basic_stats_spec three_products).
  - exact three_products_NoDup.
  - simpl. tauto.
  - exact three_products_numeric.
Defined.


Lemma top_totals_are_within_the_total_witness :
  exists (top : DataFrame) (stats : Stats) (revenue : Qc),
    get_top_products three_products 2 = Ok top
    /\ get_basic_stats three_products = Ok stats
    /\ total_revenue stats = real revenue
    /\ (total (map (revenue_of top) (rows top)) <= revenue)%Qc
    /\ ((forall r, In r (rows three_products) ->
           cell_of three_products PRODUCT_COLUMN r <> Null) ->
        (Z.of_nat (List.length (groups three_products PRODUCT_COLUMN)) <= 2)%Z ->
        total (map (revenue_of top) (rows top)) = revenue).
Proof.
  apply (top_totals_are_within_the_total three_products 2).
  - exact three_products_NoDup.
  - simpl. tauto.
  - simpl. tauto.
  - exact three_products_numeric.
  - exact three_products_nonneg.
  - exact three_products_exact.
Defined.

Lemma no_revenue_lookups : lookups_unambiguous no_revenue.
Proof. intros c [<-|[<-|[<-|[<-|[<-|[]]]]]]; vm_compute; lia. Qed.

Lemma missing_revenue_is_a_KeyError_downstream_witness :
  lookups_unambiguous no_revenue
  <-> exists cleaned,
        clean no_revenue = Ok cleaned
        /\ ~ In SALES_COLUMN (columns cleaned)
        /\ get_basic_stats cleaned = Raise KeyError
        /\ (forall top_n, get_top_products cleaned top_n = Raise KeyError)
        /\ get_monthly_trends cleaned = Raise KeyError
        /\ forall featured, add_time_features cleaned = Ok featured ->
             get_basic_stats featured = Raise KeyError
             /\ (forall top_n,
                   get_top_products featured top_n = Raise KeyError)
             /\ get_monthly_trends featured = Raise KeyError.
Proof.
  apply (missing_revenue_is_a_KeyError_downstream Readers.numeric_of_object
           Readers.datetime_of_object no_revenue).
  - repeat constructor.
  - vm_compute. intuition discriminate.
  - left. vm_compute. intuition discriminate.
Defined.

End AggregationSamples.

(** ** The program *)

Lemma endswith_app (a b suffix : string) :
  PyStr.endswith b suffix = true ->
  PyStr.endswith (a ++ b)%string suffix = true.
Proof.
  intros H. induction a as [|c a IH]; [assumption|].
  cbn [append PyStr.endswith]. rewrite IH.
  now destruct (String.eqb (String c (a ++ b)) suffix).
Qed.

Lemma DATA_PATH_is_csv (sep : string) :
  PyStr.endswith (PyStr.lower (DATA_PATH sep)) ".csv" = true.
Proof.
  unfold DATA_PATH. rewrite !lower_app.
  apply endswith_app, endswith_app. reflexivity.
Qed.

Lemma load_data_DATA_PATH (T : Type) (rc rx : string -> result T)
  (sep : string) :
  load_data rc rx (DATA_PATH sep) = rc (DATA_PATH sep).
Proof. unfold load_data. now rewrite DATA_PATH_is_csv. Qed.

(** *** From the raw table to the featured one *)

Lemma NoDup_clean_names (names : list string) :
  NoDup names -> NoDup (clean_names names).
Proof.
  intros H. unfold clean_names.
  destruct (derives_revenue names) eqn:E; [|assumption].
  unfold derives_revenue in E.
  destruct (named names SALES_COLUMN) eqn:Es; [discriminate|].
  apply named_false in Es.
  apply NoDup_app; [assumption | repeat constructor; simpl; tauto |].
  intros x Hx [<-|[]]. contradiction.
Qed.

Lemma In_clean_names (names : list string) (c : string) :
  In c names -> In c (clean_names names).
Proof.
  intros H. unfold clean_names. destruct (derives_revenue names);
    [apply in_or_app; now left | assumption].
Qed.

Lemma In_clean_names_sales (names : list string) :
  In SALES_COLUMN (clean_names names)
  <-> In SALES_COLUMN names
      \/ (In QTY_COLUMN names /\ In PRICE_COLUMN names).
Proof.
  rewrite <- !named_In, named_clean_names. unfold derives_revenue.
  destruct (named names SALES_COLUMN), (named names QTY_COLUMN),
    (named names PRICE_COLUMN); simpl; intuition discriminate.
Qed.

Lemma In_clean_names_other (names : list string) (c : string) :
  c <> SALES_COLUMN -> (In c (clean_names names) <-> In c names).
Proof.
  intros Hc. rewrite <- !named_In.
  now rewrite named_clean_names_other by assumption.
Qed.

Lemma In_time_columns (cols : list string) (c : string) :
  In c (with_column "YearMonth" (with_column "Month" (with_column "Year" cols)))
  <-> In c ["Year"; "Month"; "YearMonth"] \/ In c cols.
Proof. rewrite !In_with_column. simpl. intuition. Qed.

Lemma cleaned_dates_only (df : DataFrame) :
  is_clean df -> In DATE_COLUMN (columns df) -> dates_only df.
Proof.
  intros (Hrect & _ & Hcount & _ & Hrows) Hin.
  split; [assumption|]. split.
  - apply count_occ_single; [assumption|]. apply Hcount. simpl. tauto.
  - intros r Hr. destruct (Hrows r Hr) as (_ & _ & _ & Hd & _).
    now apply Hd.
Qed.

Lemma with_time_features_columns (df : DataFrame) :
  columns (with_time_features df)
  = with_column "YearMonth"
      (with_column "Month" (with_column "Year" (columns df))).
Proof. reflexivity. Qed.

Lemma with_time_features_column (df : DataFrame) (c : string) :
  rectangular df -> ~ In c ["Year"; "Month"; "YearMonth"] ->
  column c (with_time_features df) = column c df.
Proof.
  intros Hrect Hc. unfold with_time_features.
  rewrite !feature_column_other; try reflexivity;
    try (intros <-; apply Hc; simpl; tauto);
    repeat apply feature_rectangular; assumption.
Qed.

Lemma with_time_features_rows (df : DataFrame) :
  List.length (rows (with_time_features df)) = List.length (rows df).
Proof. unfold with_time_features. cbn [feature rows]. now rewrite !length_map. Qed.

Lemma with_time_features_numeric (df : DataFrame) :
  rectangular df -> revenue_is_numeric df ->
  revenue_is_numeric (with_time_features df).
Proof.
  intros Hrect Hnum r Hr.
  assert (Hin : In (cell_of (with_time_features df) SALES_COLUMN r)
                   (column SALES_COLUMN (with_time_features df))).
  { unfold column, cell_of. now apply in_map. }
  rewrite with_time_features_column in Hin;
    [|assumption | simpl; intuition discriminate].
  unfold column in Hin. apply in_map_iff in Hin as (r0 & E & Hr0).
  destruct (Hnum r0 Hr0) as [q Hq]. exists q.
  unfold cell_of in *. congruence.
Qed.

Section PipelineFacts.

Variable numeric_of_object : cell -> option Qc.
Variable datetime_of_object : Series -> cell -> option Timestamp.
Context {np : Arithmetic}.

Local Set Default Proof Using "Type".

Lemma cleaned_table (raw cleaned : DataFrame) :
  rectangular raw ->
  NoDup (map PyStr.strip (columns raw)) ->
  clean_data numeric_of_object datetime_of_object raw = Ok cleaned ->
  columns cleaned = clean_names (map PyStr.strip (columns raw))
  /\ NoDup (columns cleaned)
  /\ is_clean cleaned.
Proof.
  intros Hrect Hnd H.
  pose proof (cleaned_is_clean _ _ raw cleaned Hrect H) as Hclean.
  apply (clean_data_Ok_rowwise _ _ raw cleaned Hrect) in H. subst cleaned.
  split; [reflexivity|]. split; [|assumption].
  now apply NoDup_clean_names.
Qed.

Lemma clean_data_returns (raw : DataFrame) :
  rectangular raw ->
  NoDup (map PyStr.strip (columns raw)) ->
  exists cleaned,
    clean_data numeric_of_object datetime_of_object raw = Ok cleaned.
Proof.
  intros Hrect Hnd. eexists. apply clean_data_rowwise; [assumption|].
  intros c _. now apply NoDup_count_le.
Qed.

Lemma is_clean_numeric (df : DataFrame) :
  is_clean df -> In SALES_COLUMN (columns df) -> revenue_is_numeric df.
Proof.
  intros (_ & _ & _ & _ & Hrows) Hs r Hr.
  destruct (Hrows r Hr) as (_ & _ & _ & _ & H).
  destruct (H Hs) as (q & Hq & _). eauto.
Qed.

(** The stages of the pipeline on a raw table that has what they ask
    for. *)
Lemma pipeline_returns (raw : DataFrame) :
  rectangular raw ->
  NoDup (map PyStr.strip (columns raw)) ->
  In DATE_COLUMN (map PyStr.strip (columns raw)) ->
  In PRODUCT_COLUMN (map PyStr.strip (columns raw)) ->
  In SALES_COLUMN (map PyStr.strip (columns raw))
  \/ (In QTY_COLUMN (map PyStr.strip (columns raw)) /\ In PRICE_COLUMN (map PyStr.strip (columns raw))) ->
  exists cleaned,
    clean_data numeric_of_object datetime_of_object raw = Ok cleaned
    /\ rectangular cleaned
    /\ add_time_features cleaned = Ok (with_time_features cleaned)
    /\ NoDup (columns (with_time_features cleaned))
    /\ In PRODUCT_COLUMN (columns (with_time_features cleaned))
    /\ In SALES_COLUMN (columns (with_time_features cleaned))
    /\ In "YearMonth" (columns (with_time_features cleaned))
    /\ revenue_is_numeric (with_time_features cleaned).
Proof.
  intros Hrect Hnd Hd Hp Hs.
  destruct (clean_data_returns raw Hrect Hnd) as [cleaned H].
  destruct (cleaned_table raw cleaned Hrect Hnd H) as (Hcols & Hnd' & Hclean).
  assert (Hin : forall c, In c (map PyStr.strip (columns raw)) -> In c (columns cleaned)).
  { intros c Hc. rewrite Hcols. now apply In_clean_names. }
  assert (Hs' : In SALES_COLUMN (columns cleaned)).
  { rewrite Hcols. now apply In_clean_names_sales. }
  pose proof Hclean as (Hrect' & _).
  exists cleaned. split; [assumption|]. split; [assumption|].
  split.
  { apply add_time_features_featured, cleaned_dates_only; auto. }
  rewrite with_time_features_columns.
  split; [now repeat apply NoDup_with_column|].
  rewrite !In_time_columns.
  split; [right; auto|]. split; [now right|].
  split; [left; simpl; tauto|].
  apply with_time_features_numeric; [assumption|].
  now apply is_clean_numeric.
Qed.


(** The stages of the pipeline on a raw table that lacks a column. *)
Lemma pipeline_KeyError (raw : DataFrame) :
  rectangular raw ->
  NoDup (map PyStr.strip (columns raw)) ->
  ~ In DATE_COLUMN (map PyStr.strip (columns raw))
  \/ ~ In PRODUCT_COLUMN (map PyStr.strip (columns raw))
  \/ (~ In SALES_COLUMN (map PyStr.strip (columns raw))
      /\ (~ In QTY_COLUMN (map PyStr.strip (columns raw))
          \/ ~ In PRICE_COLUMN (map PyStr.strip (columns raw)))) ->
  exists cleaned,
    clean_data numeric_of_object datetime_of_object raw = Ok cleaned
    /\ (add_time_features cleaned = Raise KeyError
        \/ exists featured,
             add_time_features cleaned = Ok featured
             /\ (get_basic_stats featured = Raise KeyError
                 \/ exists stats,
                      get_basic_stats featured = Ok stats
                      /\ get_top_products featured 10 = Raise KeyError)).
Proof.
  intros Hrect Hnd Hmiss.
  destruct (clean_data_returns raw Hrect Hnd) as [cleaned H].
  destruct (cleaned_table raw cleaned Hrect Hnd H) as (Hcols & Hnd' & Hclean).
  exists cleaned. split; [assumption|].
  destruct (in_dec string_dec DATE_COLUMN (map PyStr.strip (columns raw)))
    as [Hd|Hd].
  2:{ left. unfold add_time_features.
      destruct (has_column DATE_COLUMN cleaned) eqn:E; [|reflexivity].
      apply has_column_In in E. rewrite Hcols in E.
      apply (proj1 (In_clean_names_other _ DATE_COLUMN ltac:(discriminate)))
        in E.
      contradiction. }
  right. exists (with_time_features cleaned).
  assert (Hd' : In DATE_COLUMN (columns cleaned)).
  { rewrite Hcols. now apply In_clean_names. }
  pose proof Hclean as (Hrect' & _).
  split.
  { now apply add_time_features_featured, cleaned_dates_only. }
  assert (Hndf : NoDup (columns (with_time_features cleaned))).
  { rewrite with_time_features_columns. now repeat apply NoDup_with_column. }
  destruct (in_dec string_dec SALES_COLUMN (columns cleaned)) as [Hs|Hs].
  - right. eexists. split.
    + apply get_basic_stats_numeric; [assumption| |].
      * rewrite with_time_features_columns, In_time_columns. now right.
      * apply with_time_features_numeric; [assumption|].
        now apply is_clean_numeric.
    + assert (Hp : ~ In PRODUCT_COLUMN (map PyStr.strip (columns raw))).
      { rewrite Hcols in Hs. apply In_clean_names_sales in Hs.
        destruct Hmiss as [Hm|[Hm|[Hm1 Hm2]]]; [contradiction|assumption|].
        destruct Hs as [Hs|[Hq Hp]]; [contradiction|].
        destruct Hm2; contradiction. }
      unfold get_top_products.
      destruct (has_column PRODUCT_COLUMN (with_time_features cleaned)) eqn:E;
        [|reflexivity].
      apply has_column_In in E.
      rewrite with_time_features_columns, In_time_columns in E.
      destruct E as [E|E].
      * simpl in E. intuition discriminate.
      * rewrite Hcols in E.
        apply (proj1 (In_clean_names_other _ PRODUCT_COLUMN
                        ltac:(discriminate))) in E.
        contradiction.
  - left. unfold get_basic_stats. rewrite getitem_missing; [reflexivity|].
    rewrite with_time_features_columns, In_time_columns.
    intros [E|E]; [simpl in E; intuition discriminate | contradiction].
Qed.

(** The aggregations of a table without rows. *)
Lemma aggregations_without_rows (df : DataFrame) (top_n : Z) :
  NoDup (columns df) ->
  In PRODUCT_COLUMN (columns df) ->
  In SALES_COLUMN (columns df) ->
  In "YearMonth" (columns df) ->
  rows df = [] ->
  get_basic_stats df
  = Ok {| total_rows := 0; total_revenue := real 0%Qc;
          avg_order_value := nan; unique_products := Some 0%Z |}
  /\ get_top_products df top_n
     = Ok {| columns := [PRODUCT_COLUMN; SALES_COLUMN]; rows := [] |}
  /\ get_monthly_trends df
     = Ok {| columns := ["YearMonth"; SALES_COLUMN]; rows := [] |}.
Proof.
  intros Hnd Hp Hs Hym Hrows.
  assert (Hnum : revenue_is_numeric df).
  { intros r Hr. rewrite Hrows in Hr. destruct Hr. }
  split; [|split].
  - rewrite (get_basic_stats_numeric df Hnd Hs Hnum).
    rewrite (proj2 (has_column_In _ _) Hp).
    unfold groups, column. now rewrite Hrows.
  - rewrite (get_top_products_ranked df top_n Hnd Hp Hs Hnum).
    unfold ranking, group_totals, column. rewrite Hrows.
    cbn [map GroupBy.scan sort_by fold_right].
    unfold head. destruct (0 <=? top_n)%Z; now rewrite firstn_nil.
  - rewrite (get_monthly_trends_sorted df Hnd Hym Hs Hnum).
    unfold group_totals, column. now rewrite Hrows.
Qed.

End PipelineFacts.

Section ProgramFacts.

Variable World : Type.
Variable Failure : Type.
Variable print : string -> IO World Failure unit.
Variable plt : Pyplot World Failure.
Variable astype_str : item -> item.
Variable read_csv_latin1 : string -> IO World Failure DataFrame.
Variable read_excel : string -> IO World Failure DataFrame.
Variable numeric_of_object : cell -> option Qc.
Variable datetime_of_object : Series -> cell -> option Timestamp.
Context {np : Arithmetic}.
Variable print_report :
  DataFrame -> Stats -> DataFrame -> DataFrame -> IO World Failure unit.
Variable sep : string.

Local Set Default Proof Using "Type".

(** What [main] does once the file is read. *)
Lemma main_reads (w w1 : World) (raw : DataFrame) :
  read_csv_latin1 (DATA_PATH sep) w = (w1, Returns raw) ->
  main World Failure print plt astype_str read_csv_latin1 read_excel
    numeric_of_object datetime_of_object print_report sep w
  = (df <~ lift (clean_data numeric_of_object datetime_of_object raw) ;;
     df <~ lift (add_time_features df) ;;
     stats <~ lift (get_basic_stats df) ;;
     top_products <~ lift (get_top_products df 10) ;;
     monthly_sales <~ lift (get_monthly_trends df) ;;
     _ <~ print_report df stats top_products monthly_sales ;;
     _ <~ plot_monthly_trends World Failure print plt monthly_sales ;;
     plot_top_products World Failure print plt astype_str top_products) w1.
Proof.
  intros Hread. unfold main. rewrite load_data_DATA_PATH.
  cbn [join]. unfold io_bind at 1. now rewrite Hread.
Qed.

(** X17: [main] on a file that has what the pipeline asks for.  The table
    read has distinct column names, once trimmed, among them the date, the
    product, and the revenue or else the quantity and the price.  Then
    every stage returns, the statistics count the products, at most ten
    products are shown, and [main] goes on to print the report and to plot
    the two tables, in this order. *)
Theorem main_runs_the_pipeline :
  forall (raw : DataFrame) (w w1 : World),
    read_csv_latin1 (DATA_PATH sep) w = (w1, Returns raw) ->
    rectangular raw ->
    NoDup (map PyStr.strip (columns raw)) ->
    In DATE_COLUMN (map PyStr.strip (columns raw)) ->
    In PRODUCT_COLUMN (map PyStr.strip (columns raw)) ->
    In SALES_COLUMN (map PyStr.strip (columns raw))
    \/ (In QTY_COLUMN (map PyStr.strip (columns raw)) /\ In PRICE_COLUMN (map PyStr.strip (columns raw))) ->
    exists (cleaned featured : DataFrame) (stats : Stats)
           (top_products monthly_sales : DataFrame),
      clean_data numeric_of_object datetime_of_object raw = Ok cleaned
      /\ add_time_features cleaned = Ok featured
      /\ get_basic_stats featured = Ok stats
      /\ get_top_products featured 10 = Ok top_products
      /\ get_monthly_trends featured = Ok monthly_sales
      /\ unique_products stats <> None
      /\ total_rows stats = Z.of_nat (List.length (rows cleaned))
      /\ (List.length (rows top_products) <= 10)%nat
      /\ main World Failure print plt astype_str read_csv_latin1 read_excel
           numeric_of_object datetime_of_object print_report sep w
         = (_ <~ print_report featured stats top_products monthly_sales ;;
            _ <~ plot_monthly_trends World Failure print plt monthly_sales ;;
            plot_top_products World Failure print plt astype_str top_products)
             w1.
Proof.
  intros raw w w1 Hread Hrect Hnd Hd Hp Hs.
  destruct (pipeline_returns numeric_of_object datetime_of_object raw
              Hrect Hnd Hd Hp Hs)
    as (cleaned & Hc & Hrect' & Hf & Hnd' & Hp' & Hs' & Hym & Hnum).
  pose proof (get_basic_stats_numeric _ Hnd' Hs' Hnum) as Hstats.
  pose proof (get_top_products_ranked _ 10 Hnd' Hp' Hs' Hnum) as Htop.
  pose proof (get_monthly_trends_sorted _ Hnd' Hym Hs' Hnum) as Htrends.
  do 5 eexists.
  split; [exact Hc|]. split; [exact Hf|]. split; [exact Hstats|].
  split; [exact Htop|]. split; [exact Htrends|].
  cbn [unique_products total_rows rows].
  split; [|split; [|split]].
  - rewrite (proj2 (has_column_In _ _) Hp'). discriminate.
  - now rewrite with_time_features_rows.
  - rewrite length_map. unfold head. cbn [Z.leb Z.compare Z.to_nat].
    rewrite length_firstn.
    change (Pos.to_nat 10) with 10%nat. lia.
  - rewrite (main_reads w w1 raw Hread).
    unfold io_bind at 1. unfold lift at 1. rewrite Hc.
    unfold io_bind at 1. unfold lift at 1. rewrite Hf.
    unfold io_bind at 1. unfold lift at 1. rewrite Hstats.
    unfold io_bind at 1. unfold lift at 1. rewrite Htop.
    unfold io_bind at 1. unfold lift at 1. rewrite Htrends.
    reflexivity.
Qed.


(** X18: [main] on a file that lacks a column.  The table read has distinct
    column names, once trimmed, but no date, or no product, or neither a
    revenue nor both a quantity and a price.  Then [main] raises [KeyError]
    before it prints or draws anything: the world is as the reader left
    it.  In particular the report is never printed without a product
    count. *)
Theorem main_raises_KeyError :
  forall (raw : DataFrame) (w w1 : World),
    read_csv_latin1 (DATA_PATH sep) w = (w1, Returns raw) ->
    rectangular raw ->
    NoDup (map PyStr.strip (columns raw)) ->
    ~ In DATE_COLUMN (map PyStr.strip (columns raw))
    \/ ~ In PRODUCT_COLUMN (map PyStr.strip (columns raw))
    \/ (~ In SALES_COLUMN (map PyStr.strip (columns raw))
        /\ (~ In QTY_COLUMN (map PyStr.strip (columns raw))
            \/ ~ In PRICE_COLUMN (map PyStr.strip (columns raw)))) ->
    main World Failure print plt astype_str read_csv_latin1 read_excel
      numeric_of_object datetime_of_object print_report sep w
    = (w1, Raises KeyError).
Proof.
  intros raw w w1 Hread Hrect Hnd Hmiss.
  destruct (pipeline_KeyError numeric_of_object datetime_of_object raw
              Hrect Hnd Hmiss)
    as (cleaned & Hc & [Hf|(featured & Hf & [Hs|(stats & Hs & Ht)])]);
    rewrite (main_reads w w1 raw Hread);
    unfold io_bind at 1; unfold lift at 1; rewrite Hc;
    unfold io_bind at 1; unfold lift at 1; rewrite Hf;
    try reflexivity;
    unfold io_bind at 1; unfold lift at 1; rewrite Hs;
    try reflexivity.
  unfold io_bind at 1. unfold lift at 1. now rewrite Ht.
Qed.

(** X19: [main] when no row survives the cleaning.  The report is printed
    with a row count and a revenue of 0, not-a-number for the average and 0
    products, over a product table and a monthly table without rows; then
    the two notices are printed, and nothing is drawn. *)
Theorem main_without_data :
  forall (raw cleaned : DataFrame) (w w1 : World),
    read_csv_latin1 (DATA_PATH sep) w = (w1, Returns raw) ->
    rectangular raw ->
    NoDup (map PyStr.strip (columns raw)) ->
    In DATE_COLUMN (map PyStr.strip (columns raw)) ->
    In PRODUCT_COLUMN (map PyStr.strip (columns raw)) ->
    In SALES_COLUMN (map PyStr.strip (columns raw))
    \/ (In QTY_COLUMN (map PyStr.strip (columns raw))
        /\ In PRICE_COLUMN (map PyStr.strip (columns raw))) ->
    clean_data numeric_of_object datetime_of_object raw = Ok cleaned ->
    rows cleaned = [] ->
    exists featured : DataFrame,
      add_time_features cleaned = Ok featured
      /\ rows featured = []
      /\ main World Failure print plt astype_str read_csv_latin1 read_excel
           numeric_of_object datetime_of_object print_report sep w
         = (_ <~ print_report featured
                   {| total_rows := 0; total_revenue := real 0%Qc;
                      avg_order_value := nan; unique_products := Some 0%Z |}
                   {| columns := [PRODUCT_COLUMN; SALES_COLUMN]; rows := [] |}
                   {| columns := ["YearMonth"; SALES_COLUMN]; rows := [] |} ;;
            _ <~ print "No monthly sales data to plot." ;;
            print "No top products data to plot.") w1.
Proof.
  intros raw cleaned w w1 Hread Hrect Hnd Hd Hp Hs Hc Hrows.
  destruct (pipeline_returns numeric_of_object datetime_of_object raw
              Hrect Hnd Hd Hp Hs)
    as (cleaned' & Hc' & Hrect' & Hf & Hnd' & Hp' & Hs' & Hym & Hnum).
  rewrite Hc in Hc'. injection Hc' as <-.
  assert (Hrows' : rows (with_time_features cleaned) = []).
  { apply length_zero_iff_nil.
    now rewrite with_time_features_rows, Hrows. }
  destruct (aggregations_without_rows _ 10 Hnd' Hp' Hs' Hym Hrows')
    as (Hstats & Htop & Htrends).
  exists (with_time_features cleaned).
  split; [assumption|]. split; [assumption|].
  rewrite (main_reads w w1 raw Hread).
  unfold io_bind at 1. unfold lift at 1. rewrite Hc.
  unfold io_bind at 1. unfold lift at 1. rewrite Hf.
  unfold io_bind at 1. unfold lift at 1. rewrite Hstats.
  unfold io_bind at 1. unfold lift at 1. rewrite Htop.
  unfold io_bind at 1. unfold lift at 1. rewrite Htrends.
  reflexivity.
Qed.

(** X20: [main] reads the configured file as CSV, whatever the separator of
    the platform: it never calls the spreadsheet reader, so that it is the
    same program with any other one, and it never refuses the extension.
    When the CSV reader raises or fails, so does [main], at once. *)
Theorem main_reads_the_csv_file :
  forall (w : World),
    (forall read_excel' : string -> IO World Failure DataFrame,
        main World Failure print plt astype_str read_csv_latin1 read_excel'
          numeric_of_object datetime_of_object print_report sep w
        = main World Failure print plt astype_str read_csv_latin1 read_excel
            numeric_of_object datetime_of_object print_report sep w)
    /\ (forall w1 e,
          read_csv_latin1 (DATA_PATH sep) w = (w1, Raises e) ->
          main World Failure print plt astype_str read_csv_latin1 read_excel
            numeric_of_object datetime_of_object print_report sep w
          = (w1, Raises e))
    /\ (forall w1 f,
          read_csv_latin1 (DATA_PATH sep) w = (w1, Fails f) ->
          main World Failure print plt astype_str read_csv_latin1 read_excel
            numeric_of_object datetime_of_object print_report sep w
          = (w1, Fails f)).
Proof.
  intros w. split; [|split].
  - intros read_excel'. unfold main. now rewrite !load_data_DATA_PATH.
  - intros w1 e H. unfold main. rewrite load_data_DATA_PATH.
    cbn [join]. unfold io_bind at 1. now rewrite H.
  - intros w1 f H. unfold main. rewrite load_data_DATA_PATH.
    cbn [join]. unfold io_bind at 1. now rewrite H.
Qed.

End ProgramFacts.

(** *** The plots of the result tables *)

Lemma positions_length (c : string) (cols : list string) (j : nat) :
  List.length (positions c cols j) = count_occ string_dec cols c.
Proof.
  revert j. induction cols as [|k cols IH]; intros j; [reflexivity|].
  cbn [positions count_occ].
  destruct (string_dec k c) as [->|Hne].
  - rewrite String.eqb_refl. cbn [List.length]. now rewrite IH.
  - destruct (String.eqb k c) eqn:E; [|apply IH].
    apply String.eqb_eq in E. contradiction.
Qed.

Lemma getitem_frame (c : string) (df : DataFrame) (vss : list Series) :
  getitem c df = Ok (AFrame vss) -> vss <> [].
Proof.
  unfold getitem.
  destruct (count_occ string_dec (columns df) c) as [|[|n]] eqn:E;
    try discriminate.
  intros H. injection H as <-. intros Hnil.
  apply (f_equal (@List.length Series)) in Hnil.
  rewrite length_map, positions_length, E in Hnil. discriminate.
Qed.

Section ResultColumns.

Context {np : Arithmetic}.

Lemma get_top_products_Ok_columns (df top : DataFrame) (top_n : Z) :
  get_top_products df top_n = Ok top ->
  columns top = [PRODUCT_COLUMN; SALES_COLUMN].
Proof.
  unfold get_top_products.
  destruct (negb (has_column PRODUCT_COLUMN df)); [discriminate|].
  intros H. apply bind_Ok in H as (keys & _ & H).
  apply bind_Ok in H as ([values|vss] & _ & H).
  - apply bind_Ok in H as (totals & _ & H). now injection H as <-.
  - apply bind_Ok in H as (t & _ & H). discriminate.
Qed.

Lemma get_monthly_trends_Ok_columns (df trends : DataFrame) :
  get_monthly_trends df = Ok trends ->
  exists more,
    columns trends = "YearMonth" :: SALES_COLUMN :: more
    /\ forall c, In c more -> c = SALES_COLUMN.
Proof.
  unfold get_monthly_trends.
  destruct (negb (has_column "YearMonth" df)); [discriminate|].
  intros H. apply bind_Ok in H as (keys & _ & H).
  apply bind_Ok in H as ([values|vss] & Hx & H).
  - apply bind_Ok in H as (totals & _ & H). injection H as <-.
    exists []. split; [reflexivity|]. intros c [].
  - apply bind_Ok in H as (t & _ & H). injection H as <-.
    apply getitem_frame in Hx. destruct vss as [|vs vss]; [congruence|].
    exists (map (fun _ => SALES_COLUMN) vss). split; [reflexivity|].
    intros c Hc. now apply in_map_iff in Hc as (_ & <- & _).
Qed.

End ResultColumns.


Lemma empty_rows (df : DataFrame) :
  columns df <> [] -> empty df = match rows df with [] => true | _ => false end.
Proof. unfold empty. destruct (columns df); [congruence|reflexivity]. Qed.

Section PlotFacts.

Context {np : Arithmetic}.
Variable World : Type.
Variable Failure : Type.
Variable print : string -> IO World Failure unit.
Variable plt : Pyplot World Failure.
Variable astype_str : item -> item.

Local Set Default Proof Using "Type".

(** X21: the plots find their columns in what the aggregations return, and
    draw exactly when there is a row.  On a result of [get_top_products],
    and on one of [get_monthly_trends], a plot function prints its notice
    and draws nothing when the table has no row; otherwise it opens a
    figure and draws the two columns of the table: it raises no
    [KeyError] of its own. *)
Theorem plots_of_the_results :
  forall (df top_products monthly_sales : DataFrame) (top_n : Z),
    (get_top_products df top_n = Ok top_products ->
     (rows top_products = [] ->
      plot_top_products World Failure print plt astype_str top_products
      = print "No top products data to plot.")
     /\ (rows top_products <> [] ->
         plot_top_products World Failure print plt astype_str top_products
         = (_ <~ plt_figure plt 10 5 ;;
            _ <~ plt_bar plt
                   (astype_str (ASeries (column PRODUCT_COLUMN top_products)))
                   (ASeries (column SALES_COLUMN top_products)) ;;
            _ <~ plt_title plt "Top Products by Total Sales" ;;
            _ <~ plt_xlabel plt "Product" ;;
            _ <~ plt_ylabel plt "Total Sales" ;;
            _ <~ plt_xticks plt 45 (Some "right") ;;
            _ <~ plt_tight_layout plt ;;
            plt_show plt)))
    /\ (get_monthly_trends df = Ok monthly_sales ->
        (rows monthly_sales = [] ->
         plot_monthly_trends World Failure print plt monthly_sales
         = print "No monthly sales data to plot.")
        /\ (rows monthly_sales <> [] ->
            exists y,
              getitem SALES_COLUMN monthly_sales = Ok y
              /\ plot_monthly_trends World Failure print plt monthly_sales
                 = (_ <~ plt_figure plt 10 5 ;;
                    _ <~ plt_plot plt
                           (ASeries (column "YearMonth" monthly_sales)) y "o" ;;
                    _ <~ plt_title plt "Monthly Sales Trend" ;;
                    _ <~ plt_xlabel plt "Year-Month" ;;
                    _ <~ plt_ylabel plt "Total Sales" ;;
                    _ <~ plt_xticks plt 45 None ;;
                    _ <~ plt_tight_layout plt ;;
                    plt_show plt))).
Proof.
  intros df top trends top_n. split.
  - intros H. apply get_top_products_Ok_columns in H.
    unfold plot_top_products.
    rewrite empty_rows by (rewrite H; discriminate).
    split; intros Hrows.
    + now rewrite Hrows.
    + destruct (rows top) as [|r rs]; [congruence|].
      rewrite !getitem_single by (rewrite H; reflexivity).
      reflexivity.
  - intros H. apply get_monthly_trends_Ok_columns in H as (more & H & Hmore).
    unfold plot_monthly_trends.
    rewrite empty_rows by (rewrite H; discriminate).
    split; intros Hrows.
    + now rewrite Hrows.
    + destruct (rows trends) as [|r rs]; [congruence|].
      destruct (getitem_present SALES_COLUMN trends) as [y Hy].
      { rewrite H. simpl. tauto. }
      exists y. split; [assumption|].
      rewrite Hy, getitem_single; [reflexivity|].
      rewrite H. cbn [count_occ].
      destruct (string_dec "YearMonth" "YearMonth") as [_|E]; [|congruence].
      destruct (string_dec SALES_COLUMN "YearMonth") as [E|_];
        [discriminate|].
      f_equal. apply count_occ_not_In. intros Hin.
      apply Hmore in Hin. discriminate.
Qed.

End PlotFacts.

(** *** Sample runs *)

Section ProgramSamples.

Local Existing Instance Numpy.int64_columns.

Lemma scenario_names_NoDup : NoDup (map PyStr.strip (columns scenario)).
Proof. repeat constructor; simpl; intuition discriminate. Qed.

Lemma main_runs_the_pipeline_witness :
  exists (cleaned featured : DataFrame) (stats : Stats)
         (top_products monthly_sales : DataFrame),
    clean scenario = Ok cleaned
    /\ add_time_features cleaned = Ok featured
    /\ get_basic_stats featured = Ok stats
    /\ get_top_products featured 10 = Ok top_products
    /\ get_monthly_trends featured = Ok monthly_sales
    /\ unique_products stats <> None
    /\ total_rows stats = Z.of_nat (List.length (rows cleaned))
    /\ (List.length (rows top_products) <= 10)%nat
    /\ Logged.main scenario []
       = (_ <~ Logged.print_report featured stats top_products monthly_sales ;;
          _ <~ plot_monthly_trends Logged.World Empty_set Logged.print
                 Logged.plt monthly_sales ;;
          plot_top_products Logged.World Empty_set Logged.print Logged.plt
            Logged.astype_str top_products) [].
Proof.
  apply (main_runs_the_pipeline Logged.World Empty_set Logged.print
           Logged.plt Logged.astype_str (Logged.reads scenario)
           (Logged.reads scenario) Readers.numeric_of_object
           Readers.datetime_of_object Logged.print_report "/" scenario [] []).
  - reflexivity.
  - exact scenario_rectangular.
  - exact scenario_names_NoDup.
  - simpl. tauto.
  - simpl. tauto.
  - right. simpl. tauto.
Defined.

Lemma main_raises_KeyError_witness :
  Logged.main no_revenue [] = ([], Raises KeyError).
Proof.
  apply (main_raises_KeyError Logged.World Empty_set Logged.print
           Logged.plt Logged.astype_str (Logged.reads no_revenue)
           (Logged.reads no_revenue) Readers.numeric_of_object
           Readers.datetime_of_object Logged.print_report "/" no_revenue [] []).
  - reflexivity.
  - repeat constructor.
  - repeat constructor; simpl; intuition discriminate.
  - right. right. split; simpl; [|left]; intuition discriminate.
Defined.

Lemma returned_order_is_cleaned :
  clean returned_order
  = Ok {| columns := ["ORDERDATE"; "PRODUCTLINE"; "SALES"]; rows := [] |}.
Proof. apply result_eqb_eq. vm_compute. reflexivity. Qed.

Lemma main_without_data_witness :
  exists featured : DataFrame,
    add_time_features
      {| columns := ["ORDERDATE"; "PRODUCTLINE"; "SALES"]; rows := [] |}
    = Ok featured
    /\ rows featured = []
    /\ Logged.main returned_order []
       = (_ <~ Logged.print_report featured
                 {| total_rows := 0; total_revenue := real 0%Qc;
                    avg_order_value := nan; unique_products := Some 0%Z |}
                 {| columns := [PRODUCT_COLUMN; SALES_COLUMN]; rows := [] |}
                 {| columns := ["YearMonth"; SALES_COLUMN]; rows := [] |} ;;
          _ <~ Logged.print "No monthly sales data to plot." ;;
          Logged.print "No top products data to plot.") [].
Proof.
  apply (main_without_data Logged.World Empty_set Logged.print
           Logged.plt Logged.astype_str (Logged.reads returned_order)
           (Logged.reads returned_order) Readers.numeric_of_object
           Readers.datetime_of_object Logged.print_report "/" returned_order
           {| columns := ["ORDERDATE"; "PRODUCTLINE"; "SALES"]; rows := [] |}
           [] []).
  - reflexivity.
  - repeat constructor.
  - repeat constructor; simpl; intuition discriminate.
  - simpl. tauto.
  - simpl. tauto.
  - left. simpl. tauto.
  - exact returned_order_is_cleaned.
  - reflexivity.
Defined.

End ProgramSamples.


(** *** Cleaning, then the time features *)

Section CleanThenFeature.

Variable numeric_of_object : cell -> option Qc.
Variable datetime_of_object : Series -> cell -> option Timestamp.
Context {np : Arithmetic}.

Local Set Default Proof Using "Type".

Lemma cleaned_date_column (raw cleaned : DataFrame) :
  rectangular raw ->
  clean_data numeric_of_object datetime_of_object raw = Ok cleaned ->
  (In DATE_COLUMN (columns cleaned)
   <-> In DATE_COLUMN (map PyStr.strip (columns raw))).
Proof.
  intros Hrect H.
  apply (clean_data_Ok_rowwise _ _ raw cleaned Hrect) in H. subst cleaned.
  apply (In_clean_names_other (map PyStr.strip (columns raw)) DATE_COLUMN).
  discriminate.
Qed.

(** C7: on a table that [clean_data] returned with a date column,
    [add_time_features] returns the table with as many rows, the dates
    untouched, where every row holds under "YearMonth" the text
    "{year:04d}-{month:02d}" made of the year and the month of the date of
    that very row (and the two numbers under "Year" and "Month"): a function
    of the date alone.  For a year of four digits at most the text is
    written out: four digits for the year, zeros first, a dash, two digits
    for the month. *)
Theorem add_time_features_bucket :
  forall (raw df : DataFrame),
    rectangular raw ->
    clean_data numeric_of_object datetime_of_object raw = Ok df ->
    In DATE_COLUMN (columns df) ->
    exists out,
      add_time_features df = Ok out
      /\ column DATE_COLUMN out = column DATE_COLUMN df
      /\ List.length (rows out) = List.length (rows df)
      /\ forall r, In r (rows out) ->
           exists t,
             cell_of out DATE_COLUMN r = Date t
             /\ cell_of out "Year" r = Num (Qc_of_Z (year t))
             /\ cell_of out "Month" r = Num (Qc_of_Z (month t))
             /\ cell_of out "YearMonth" r
                = Str (format_bucket (year t) (month t))
             /\ ((0 <= year t <= 9999)%Z -> (1 <= month t <= 12)%Z ->
                 cell_of out "YearMonth" r
                 = Str (year_month_digits (year t) (month t))).
Proof.
  intros raw df Hrect H Hdate.
  pose proof (cleaned_is_clean _ _ raw df Hrect H) as Hclean.
  destruct (add_time_features_of_dates df (cleaned_dates_only df Hclean Hdate))
    as (out & Hout & Hcol & Hlen & Hrows).
  exists out. split; [assumption|]. split; [assumption|].
  split; [assumption|].
  intros r Hr. destruct (Hrows r Hr) as (t & Ht & Hy & Hm & Hb).
  exists t. split; [assumption|]. split; [assumption|].
  split; [assumption|].
  rewrite Hb, period_M_str_format. split; [reflexivity|].
  intros Hyear Hmonth. f_equal. apply format_bucket_digits; lia.
Qed.

(** X22: after [clean_data], [add_time_features] fails in one way only.
    On what the cleaner returns for a raw table with a date column, it
    returns, with as many rows: the dates the cleaner left are timestamps,
    so that there is no [AttributeError]; without a date column in the raw
    table it raises [KeyError]. *)
Theorem add_time_features_after_clean_data :
  forall (raw cleaned : DataFrame),
    rectangular raw ->
    clean_data numeric_of_object datetime_of_object raw = Ok cleaned ->
    (In DATE_COLUMN (map PyStr.strip (columns raw)) ->
     exists featured,
       add_time_features cleaned = Ok featured
       /\ List.length (rows featured) = List.length (rows cleaned))
    /\ (~ In DATE_COLUMN (map PyStr.strip (columns raw)) ->
        add_time_features cleaned = Raise KeyError).
Proof.
  intros raw cleaned Hrect H.
  pose proof (cleaned_is_clean _ _ raw cleaned Hrect H) as Hclean.
  pose proof (cleaned_date_column raw cleaned Hrect H) as Hdate.
  split; intros Hd.
  - exists (with_time_features cleaned). split.
    + apply add_time_features_featured, cleaned_dates_only; [assumption|].
      now apply Hdate.
    + apply with_time_features_rows.
  - unfold add_time_features.
    destruct (has_column DATE_COLUMN cleaned) eqn:E; [|reflexivity].
    apply has_column_In, Hdate in E. contradiction.
Qed.

End CleanThenFeature.

(** *** Positive totals *)

Section PositiveTotals.

Context {np : Arithmetic}.







(** *** Missing revenue *)

(** X24: missing revenue is skipped, not counted as 0.  On a table whose
    revenue cells hold a number or nothing, [get_basic_stats] counts every
    row, while the total and the average are the sum and the mean that numpy
    takes of the revenue that is there, in the order of the rows: 0 and
    not-a-number when none is there.  The total is the exact sum of the
    revenue when the sums over the table are exact. *)
Theorem get_basic_stats_skips_missing_revenue :
  forall (df : DataFrame),
    NoDup (columns df) ->
    In SALES_COLUMN (columns df) ->
    revenue_is_numeric_or_missing df ->
    exists stats,
      get_basic_stats df = Ok stats
      /\ total_rows stats = Z.of_nat (List.length (rows df))
      /\ map Num (revenues df (rows df)) = present (column SALES_COLUMN df)
      /\ (present (column SALES_COLUMN df) = [] ->
          total_revenue stats = real 0%Qc /\ avg_order_value stats = nan)
      /\ (present (column SALES_COLUMN df) <> [] ->
          total_revenue stats = real (sum_of (revenues df (rows df)))
          /\ avg_order_value stats = real (mean_of (revenues df (rows df))))
      /\ (sums_are_exact df ->
          total_revenue stats
          = real (total (map (revenue_of df) (rows df)))).
Proof.
  intros df Hnd Hs Hcells. eexists.
  split; [now apply get_basic_stats_present|].
  cbn [total_rows total_revenue avg_order_value].
  pose proof (present_revenues df Hcells) as Hpresent.
  split; [reflexivity|]. split; [now symmetry|]. split; [|split].
  - intros Hnone. rewrite Hnone in Hpresent. symmetry in Hpresent.
    apply map_eq_nil in Hpresent. rewrite Hpresent. split; reflexivity.
  - intros Hsome. rewrite Hpresent in Hsome.
    destruct (revenues df (rows df)) as [|q qs]; [now destruct Hsome|].
    split; reflexivity.
  - intros Hexact. f_equal. rewrite <- total_revenues.
    rewrite <- (filter_all (rows df)). now apply sum_present_exact.
Qed.

End PositiveTotals.

(** *** Sample outcomes *)

Section OutcomeSamples.

Local Existing Instance Numpy.int64_columns.

Lemma add_time_features_bucket_witness :
  exists out,
    add_time_features scenario_cleaned = Ok out
    /\ column DATE_COLUMN out = column DATE_COLUMN scenario_cleaned
    /\ List.length (rows out) = List.length (rows scenario_cleaned)
    /\ forall r, In r (rows out) ->
         exists t,
           cell_of out DATE_COLUMN r = Date t
           /\ cell_of out "Year" r = Num (Qc_of_Z (year t))
           /\ cell_of out "Month" r = Num (Qc_of_Z (month t))
           /\ cell_of out "YearMonth" r
              = Str (format_bucket (year t) (month t))
           /\ ((0 <= year t <= 9999)%Z -> (1 <= month t <= 12)%Z ->
               cell_of out "YearMonth" r
               = Str (year_month_digits (year t) (month t))).
Proof.
  apply (add_time_features_bucket Readers.numeric_of_object
           Readers.datetime_of_object scenario scenario_cleaned).
  - exact scenario_rectangular.
  - exact scenario_is_cleaned.
  - simpl. tauto.
Defined.

Lemma add_time_features_after_clean_data_witness :
  (In DATE_COLUMN (map PyStr.strip (columns scenario)) ->
   exists featured,
     add_time_features scenario_cleaned = Ok featured
     /\ List.length (rows featured) = List.length (rows scenario_cleaned))
  /\ (~ In DATE_COLUMN (map PyStr.strip (columns scenario)) ->
      add_time_features scenario_cleaned = Raise KeyError).
Proof.
  apply (add_time_features_after_clean_data Readers.numeric_of_object
           Readers.datetime_of_object scenario scenario_cleaned).
  - exact scenario_rectangular.
  - exact scenario_is_cleaned.
Defined.



Lemma get_basic_stats_skips_missing_revenue_witness :
  exists stats,
    get_basic_stats open_orders = Ok stats
    /\ total_rows stats = Z.of_nat (List.length (rows open_orders))
    /\ map Num (revenues open_orders (rows open_orders))
       = present (column SALES_COLUMN open_orders)
    /\ (present (column SALES_COLUMN open_orders) = [] ->
        total_revenue stats = real 0%Qc /\ avg_order_value stats = nan)
    /\ (present (column SALES_COLUMN open_orders) <> [] ->
        total_revenue stats
        = real (sum_of (revenues open_orders (rows open_orders)))
        /\ avg_order_value stats
           = real (mean_of (revenues open_orders (rows open_orders))))
    /\ (sums_are_exact open_orders ->
        total_revenue stats
        = real (total (map (revenue_of open_orders) (rows open_orders)))).
Proof.
  apply (get_basic_stats_skips_missing_revenue open_orders).
  - repeat constructor; simpl; intuition discriminate.
  - simpl. tauto.
  - intros r Hr. simpl in Hr.
    repeat destruct Hr as [<-|Hr]; try contradiction;
      first [left; reflexivity | right; eexists; reflexivity].
Defined.

(** The average of the orders that have a revenue: 20, not 40 / 3. *)
Example open_orders_average :
  get_basic_stats open_orders
  = Ok {| total_rows := 3; total_revenue := real (Qc_of_Z 40);
          avg_order_value := real (Qc_of_Z 20);
          unique_products := Some 3%Z |}.
Proof.
  rewrite get_basic_stats_present.
  - assert (Hsum : sum_present (revenues open_orders (rows open_orders))
                   = Qc_of_Z 40)
      by (apply Qc_is_canon; vm_compute; reflexivity).
    assert (Hmean : mean_present (revenues open_orders (rows open_orders))
                    = real (Qc_of_Z 20)).
    { transitivity (real (Numpy.mean [Qc_of_Z 10; Qc_of_Z 30]));
        [reflexivity|].
      f_equal. apply Qc_is_canon. vm_compute. reflexivity. }
    now rewrite Hsum, Hmean.
  - repeat constructor; simpl; intuition discriminate.
  - simpl. tauto.
  - intros r Hr. simpl in Hr.
    repeat destruct Hr as [<-|Hr]; try contradiction;
      first [left; reflexivity | right; eexists; reflexivity].
Qed.

Lemma clean_data_outcome_witness : clean twin_quantity = Raise TypeError.
Proof.
  apply (proj1 (proj2 (clean_data_outcome Readers.numeric_of_object
                         Readers.datetime_of_object) twin_quantity)).
  vm_compute. lia.
Defined.

(** Labels that are numbers: the trimming fails. *)
Example clean_data_raises_on_number_labels :
  clean_data Readers.numeric_of_object Readers.datetime_of_object unlabelled
  = Raise AttributeError.
Proof. reflexivity. Qed.

Lemma add_time_features_outcome_witness :
  add_time_features scenario = Raise AttributeError.
Proof.
  apply (proj1 (proj2 (proj2 (add_time_features_outcome scenario)))).
  - reflexivity.
  - exists (Str "2003-01-06"). split; [simpl; tauto|]. left. eauto.
Defined.

Lemma aggregations_KeyError_iff_witness :
  get_basic_stats no_revenue = Raise KeyError.
Proof.
  apply (proj1 (aggregations_KeyError_iff no_revenue)).
  simpl. intuition discriminate.
Defined.

Lemma main_reads_the_csv_file_witness :
  main Logged.World Empty_set Logged.print Logged.plt Logged.astype_str
    (Logged.reads scenario) (Logged.reads no_rows)
    Readers.numeric_of_object Readers.datetime_of_object
    Logged.print_report "/" []
  = Logged.main scenario [].
Proof.
  exact (proj1 (main_reads_the_csv_file Logged.World Empty_set Logged.print
                  Logged.plt Logged.astype_str (Logged.reads scenario)
                  (Logged.reads scenario) Readers.numeric_of_object
                  Readers.datetime_of_object Logged.print_report "/" [])
           (Logged.reads no_rows)).
Defined.

Lemma plots_of_the_results_witness :
  plot_top_products Logged.World Empty_set Logged.print Logged.plt
    Logged.astype_str
    {| columns := ["PRODUCTLINE"; "SALES"];
       rows := [ [Str "Motorcycles"; num 3000];
                 [Str "Classic Cars"; num 500] ] |} []
  = (["figure"; "bar"; "title"; "xlabel"; "ylabel"; "xticks"; "tight_layout";
      "show"], Returns tt).
Proof.
  rewrite (proj2 (proj1 (plots_of_the_results Logged.World Empty_set
                           Logged.print Logged.plt Logged.astype_str
                           scenario_featured _
                           {| columns := []; rows := [] |} 10)
                    scenario_top)).
  - reflexivity.
  - discriminate.
Defined.

End OutcomeSamples.
